(** * Task status tools of the tentacle app: bounded wait, status query, formatting

    Shallow embedding of
      - src/apps/tentacle/src/infrastructure/inbox/tools/create_task.py
      - src/apps/tentacle/src/infrastructure/flux_runtime/tools/get_task_status.py

    Conventions.
      - Python ints are [Z]; Python floats are [pyfloat]: the rational value
        of a finite float, or an infinity, or NaN.  The progress fallback of
        the formatters is computed as the interpreter computes it, every
        operation rounding to the nearest binary64 value ([to_double]).  The
        monotonic clock of the poller is a rational and its arithmetic is
        exact.
      - Strings are ASCII byte strings; [lower] is ASCII lower-casing.
      - An attribute that the code reads through [getattr(o, name, default)]
        is an [attr]: it may be absent from the object.
      - A call that may raise returns a [pyresult].
      - A dict that the code builds is an association list in insertion
        order; the [arguments] dict that the tools receive is a [gmap]. *)

From Stdlib Require Import ZArith QArith Qminmax Qabs Lqa String Ascii List Bool Lia.
From stdpp Require Import base option gmap strings list.
Import ListNotations.

#[local] Set Warnings "-register-all".

Local Open Scope string_scope.
Local Open Scope Z_scope.

(** ** Python values *)

Inductive pyfloat : Type :=
| FFinite (q : Q)
| FInf (negative : bool)
| FNaN.

Inductive pyval : Type :=
| PyNone
| PyBool (b : bool)
| PyInt (z : Z)
| PyFloat (f : pyfloat)
| PyStr (s : string)
| PyList (l : list pyval)
| PyDict (d : list (string * pyval)).

(** Exceptions (all of them derive from Python's [Exception]). *)
Inductive exn : Type :=
| AttributeError (name : string)
| KeyError (key : string)
| TypeError
| ValueError
| OverflowError
| RuntimeError (msg : string).

Inductive pyresult (A : Type) : Type :=
| Ok (a : A)
| Raise (e : exn).
Arguments Ok {A} a.
Arguments Raise {A} e.

Definition bind {A B} (r : pyresult A) (k : A -> pyresult B) : pyresult B :=
  match r with
  | Ok a => k a
  | Raise e => Raise e
  end.

Notation "'let*' x ':=' r 'in' k" := (bind r (fun x => k))
  (at level 10, x pattern, r at level 100, k at level 200).

Inductive attr (A : Type) : Type :=
| Absent
| Present (a : A).
Arguments Absent {A}.
Arguments Present {A} a.

(** [getattr(o, name, default)] *)
Definition getattr {A} (a : attr A) (default : A) : A :=
  match a with
  | Present v => v
  | Absent => default
  end.

(** [o.name] *)
Definition getattr_strict {A} (name : string) (a : attr A) : pyresult A :=
  match a with
  | Present v => Ok v
  | Absent => Raise (AttributeError name)
  end.

(** Truth value of an object, as [if x:], [not x], [x or y] and [bool(x)] use it. *)
Definition py_truthy (v : pyval) : bool :=
  match v with
  | PyNone => false
  | PyBool b => b
  | PyInt z => negb (z =? 0)
  | PyFloat (FFinite q) => negb (Qeq_bool q 0)
  | PyFloat _ => true
  | PyStr s => negb (String.eqb s "")
  | PyList l => match l with [] => false | _ => true end
  | PyDict d => match d with [] => false | _ => true end
  end.

Definition str_truthy (s : option string) : bool :=
  match s with
  | Some s => negb (String.eqb s "")
  | None => false
  end.

(** *** Dicts built by the code *)

Abbreviation pydict := (list (string * pyval)).

Fixpoint dict_get (k : string) (d : pydict) : option pyval :=
  match d with
  | [] => None
  | (k', v) :: d' => if String.eqb k k' then Some v else dict_get k d'
  end.

(** [d[k] = v] *)
Fixpoint dict_set (k : string) (v : pyval) (d : pydict) : pydict :=
  match d with
  | [] => [(k, v)]
  | (k', v') :: d' =>
      if String.eqb k k' then (k, v) :: d' else (k', v') :: dict_set k v d'
  end.

(** [d.update(e)] and [{**d, **e}] *)
Definition dict_update (d e : pydict) : pydict :=
  fold_left (fun acc kv => dict_set (fst kv) (snd kv) acc) e d.

Definition dict_has (k : string) (d : pydict) : bool :=
  match dict_get k d with
  | Some _ => true
  | None => false
  end.

(** *** Strings *)

Definition lower_ascii (c : ascii) : ascii :=
  let n := nat_of_ascii c in
  if ((65 <=? n) && (n <=? 90))%nat then ascii_of_nat (n + 32) else c.

Fixpoint lower (s : string) : string :=
  match s with
  | EmptyString => EmptyString
  | String c s' => String (lower_ascii c) (lower s')
  end.

Definition str_in (s : string) (l : list string) : bool :=
  existsb (String.eqb s) l.

(** An f-string: literal text and formatted values, in order. *)
Inductive fpart : Type :=
| Lit (s : string)
| Fmt (v : pyval)
| FmtExn (e : exn).

Abbreviation fstring := (list fpart).

(** ** StatusResolver: [_status_value] (both modules define it alike) *)

(** A status or checkpoint type as the backends hand it over: [None], a
    plain string, or an enum member whose [value] is a string or [None]. *)
Inductive scalar : Type :=
| ScNone
| ScStr (s : string)
| ScEnum (value : option string).

(** [getattr(x, "value", x)]; the result [None] is Python's [None]. *)
Definition value_or_self (x : scalar) : option string :=
  match x with
  | ScNone => None
  | ScStr s => Some s
  | ScEnum v => v
  end.

Definition _status_value (status : scalar) : string :=
  match value_or_self status with
  | Some raw => lower raw
  | None => "unknown"
  end.

(** ** Snapshots *)

Record datetime : Type := { isoformat : string }.

Definition iso_or_none (d : option datetime) : pyval :=
  match d with
  | Some d => PyStr (isoformat d)
  | None => PyNone
  end.

Definition opt_str (s : option string) : pyval :=
  match s with
  | Some s => PyStr s
  | None => PyNone
  end.

Module Step.
Record t : Type := { status : attr scalar }.
End Step.

Module Task.
Record t : Type := {
  id : string;
  user_id : string;
  goal : string;
  status : attr scalar;
  steps : attr (option (list Step.t));
  created_at : option datetime;
  updated_at : option datetime;
  (** the method, when the snapshot has it, and what [float(...)] of its
      result is *)
  get_progress_percentage : attr (pyresult pyfloat)
}.
End Task.

(** A pending checkpoint.  The attributes that the formatters read with a
    default, or that the two paths read differently, are [attr]s; the
    record describes the checkpoints that have the other six. *)
Module Checkpoint.
Record t : Type := {
  plan_id : attr (option string);
  task_id : attr (option string);
  step_id : option string;
  checkpoint_name : string;
  description : string;
  checkpoint_type : attr scalar;
  preview_data : pyval;
  questions : attr pyval;
  alternatives : attr pyval;
  created_at : option datetime;
  expires_at : option datetime
}.
End Checkpoint.

Definition step_status_value (s : Step.t) : string :=
  _status_value (getattr (Step.status s) ScNone).

Definition task_status_value (t : Task.t) : string :=
  _status_value (getattr (Task.status t) ScNone).

(** ** The built-in [int(x)] *)

(** The white space that [int] strips from an ASCII string: tab, line
    feed, vertical tab, form feed, carriage return and space. *)
Definition is_space (c : ascii) : bool :=
  let n := nat_of_ascii c in
  (((9 <=? n) && (n <=? 13)) || (n =? 32))%nat.

Fixpoint lstrip (s : string) : string :=
  match s with
  | String c s' => if is_space c then lstrip s' else s
  | EmptyString => EmptyString
  end.

Fixpoint rstrip (s : string) : string :=
  match s with
  | String c s' =>
      let r := rstrip s' in
      if is_space c && String.eqb r "" then EmptyString else String c r
  | EmptyString => EmptyString
  end.

Definition digit_val (c : ascii) : option Z :=
  let n := nat_of_ascii c in
  if ((48 <=? n) && (n <=? 57))%nat then Some (Z.of_nat (n - 48)) else None.

(** Decimal digits, single underscores allowed between two digits; gives
    the value and the number of digits read. *)
Fixpoint parse_digits (s : string) (acc : Z) (ndigits : nat) (after_digit : bool)
  : option (Z * nat) :=
  match s with
  | EmptyString => if after_digit then Some (acc, ndigits) else None
  | String c s' =>
      match digit_val c with
      | Some d => parse_digits s' (10 * acc + d) (S ndigits) true
      | None =>
          if Ascii.eqb c "_" && after_digit
          then parse_digits s' acc ndigits false
          else None
      end
  end.

(** The interpreter refuses decimal strings of more digits than this with
    [ValueError] ([sys.get_int_max_str_digits()]). *)
Definition int_max_str_digits : nat := 4300.

Definition int_of_str (s : string) : pyresult Z :=
  let s := rstrip (lstrip s) in
  let '(negative, body) :=
    match s with
    | String "+" r => (false, r)
    | String "-" r => (true, r)
    | _ => (false, s)
    end in
  match parse_digits body 0 0 false with
  | Some (n, k) =>
      if (int_max_str_digits <? k)%nat then Raise ValueError
      else Ok (if negative then - n else n)
  | None => Raise ValueError
  end.

Definition py_int (v : pyval) : pyresult Z :=
  match v with
  | PyNone => Raise TypeError
  | PyBool b => Ok (if b then 1 else 0)
  | PyInt z => Ok z
  | PyFloat (FFinite q) => Ok (Z.quot (Qnum q) (Zpos (Qden q)))
  | PyFloat (FInf _) => Raise OverflowError
  | PyFloat FNaN => Raise ValueError
  | PyStr s => int_of_str s
  | PyList _ => Raise TypeError
  | PyDict _ => Raise TypeError
  end.

(** ** Configuration ([src.core.config.settings]) *)

Record Settings : Type := {
  INBOX_CREATE_TASK_WAIT_TIMEOUT_SECONDS : Z;
  INBOX_CREATE_TASK_WAIT_MAX_TIMEOUT_SECONDS : Z;
  INBOX_CREATE_TASK_WAIT_POLL_INTERVAL_SECONDS : Q
}.

(** [arguments.get(k)] and [arguments.get(k, default)] *)
Definition args_get (arguments : gmap string pyval) (k : string) (default : pyval) : pyval :=
  match arguments !! k with
  | Some v => v
  | None => default
  end.

(** ** Backend collaborators and tool results *)

Record TaskUseCases : Type := {
  create_task :
    forall (user_id : string) (organization_id goal constraints : pyval)
           (metadata : pydict) (auto_start : bool), pyresult Task.t;
  link_conversation : forall (task_id conversation_id : string), pyresult unit;
  (** [get_task n task_id]: what the call answers when [n] calls of
      [get_task] came before it in the same tool invocation *)
  get_task : nat -> pyval -> pyresult (option Task.t);
  (** time the [n]-th call of [get_task] takes on the monotonic clock *)
  get_task_latency : nat -> Q;
  list_tasks : forall (user_id : string) (status limit : pyval), pyresult (list Task.t)
}.

Record CheckpointUseCases : Type := {
  list_pending : forall (user_id : string), pyresult (list Checkpoint.t);
  list_pending_for_task : forall (task_id : pyval), pyresult (list Checkpoint.t)
}.

Record DelegationService : Type := {
  get_plan : pyval -> pyresult (option Task.t);
  get_pending_checkpoints : forall (user_id : string), pyresult (list Checkpoint.t);
  get_user_plans : forall (user_id : string) (status limit : pyval), pyresult (list Task.t)
}.

(** [src.application.tasks.providers]: the async factories. *)
Record Providers : Type := {
  provider_get_task_use_cases : pyresult TaskUseCases;
  provider_get_checkpoint_use_cases : pyresult CheckpointUseCases
}.

(** The module-level singletons (each tool module has its own pair). *)
Record Globals : Type := {
  _task_use_cases : option TaskUseCases;
  _checkpoint_use_cases : option CheckpointUseCases
}.

Definition _get_task_use_cases (P : Providers) (g : Globals)
  : pyresult TaskUseCases * Globals :=
  match _task_use_cases g with
  | Some t => (Ok t, g)
  | None =>
      match provider_get_task_use_cases P with
      | Ok t => (Ok t, {| _task_use_cases := Some t;
                          _checkpoint_use_cases := _checkpoint_use_cases g |})
      | Raise e => (Raise e, g)
      end
  end.

Definition _get_checkpoint_use_cases (P : Providers) (g : Globals)
  : pyresult CheckpointUseCases * Globals :=
  match _checkpoint_use_cases g with
  | Some c => (Ok c, g)
  | None =>
      match provider_get_checkpoint_use_cases P with
      | Ok c => (Ok c, {| _task_use_cases := _task_use_cases g;
                          _checkpoint_use_cases := Some c |})
      | Raise e => (Raise e, g)
      end
  end.

(** A getter awaits the factory between its test of the singleton and the
    assignment, so invocations that overlap can interleave there; the two
    definitions above are a getter that runs without such an overlap.  One
    invocation, step by step: *)
Inductive getter_state (A : Type) : Type :=
| AtTest                      (* about to run [if <singleton> is None] *)
| Awaiting                    (* suspended in [await provider_get_...()] *)
| Returned (r : pyresult A).  (* has returned or raised *)
Arguments AtTest {A}.
Arguments Awaiting {A}.
Arguments Returned {A} r.

Definition set_task_use_cases (t : TaskUseCases) (g : Globals) : Globals :=
  {| _task_use_cases := Some t; _checkpoint_use_cases := _checkpoint_use_cases g |}.

Definition set_checkpoint_use_cases (c : CheckpointUseCases) (g : Globals) : Globals :=
  {| _task_use_cases := _task_use_cases g; _checkpoint_use_cases := Some c |}.

(** The next step of an invocation whose factory call answers [built]:
    the test returns the singleton when it is set and suspends otherwise;
    the resumption stores what was built and returns it, or raises. *)
Definition getter_step {A} (read : Globals -> option A) (write : A -> Globals -> Globals)
    (built : pyresult A) (s : getter_state A) (g : Globals) : getter_state A * Globals :=
  match s with
  | AtTest =>
      match read g with
      | Some a => (Returned (Ok a), g)
      | None => (Awaiting, g)
      end
  | Awaiting =>
      match built with
      | Ok a => (Returned (Ok a), write a g)
      | Raise e => (Returned (Raise e), g)
      end
  | Returned r => (Returned r, g)
  end.

Definition task_getter_step :=
  getter_step _task_use_cases set_task_use_cases.

Definition checkpoint_getter_step :=
  getter_step _checkpoint_use_cases set_checkpoint_use_cases.

(** Two invocations of a getter under a schedule: each entry lets the
    first ([false]) or the second ([true]) invocation take its next step. *)
Fixpoint run_two {A}
    (step : pyresult A -> getter_state A -> Globals -> getter_state A * Globals)
    (built1 built2 : pyresult A) (schedule : list bool)
    (s1 s2 : getter_state A) (g : Globals) : getter_state A * getter_state A * Globals :=
  match schedule with
  | [] => (s1, s2, g)
  | false :: rest =>
      let '(s1', g') := step built1 s1 g in
      run_two step built1 built2 rest s1' s2 g'
  | true :: rest =>
      let '(s2', g') := step built2 s2 g in
      run_two step built1 built2 rest s1 s2' g'
  end.

Record ToolResult : Type := {
  success : bool;
  data : option pydict;
  message : option fstring;
  error : option fstring
}.

(** Python's [max(a, b)] and [min(a, b)] on floats: the first argument
    wins a tie. *)
Definition Qltb (a b : Q) : bool := negb (Qle_bool b a).
Definition py_max (a b : Q) : Q := if Qltb a b then b else a.
Definition py_min (a b : Q) : Q := if Qltb b a then b else a.

(** ** TaskSummaryFormatter *)

(** The integer nearest to [x], ties to the even one. *)
Definition round_half_even (x : Q) : Z :=
  let a := Qnum x in
  let b := Zpos (Qden x) in
  let fl := a / b in
  let r := a mod b in
  match (2 * r ?= b) with
  | Lt => fl
  | Gt => fl + 1
  | Eq => if Z.even fl then fl else fl + 1
  end.

(** *** Binary64 floats

    A finite float is the rational it denotes.  Each operation of the
    interpreter on floats gives the binary64 value nearest to the exact
    result, ties to the even significand. *)

(** [2 ** e] *)
Definition pow2 (e : Z) : Q :=
  if 0 <=? e then inject_Z (2 ^ e) else 1 # Z.to_pos (2 ^ (- e)).

(** The exponent of the last bit of the 53-bit significand of a positive
    [q]: [2 ** (e + 52) <= q < 2 ** (e + 53)], and not below the exponent
    of the subnormal numbers. *)
Definition double_exponent (q : Q) : Z :=
  let l := Z.log2 (Qnum q) - Z.log2 (Zpos (Qden q)) in
  let e := if Qle_bool (pow2 l) q then l - 52 else l - 53 in
  Z.max e (-1074).

(** The binary64 value nearest to [q] (for [q] below the overflow
    threshold [2 ** 1024]). *)
Definition to_double (q : Q) : Q :=
  if Qeq_bool q 0 then 0%Q
  else
    let a := Qabs q in
    let e := double_exponent a in
    let v := Qred (inject_Z (round_half_even (a / pow2 e)) * pow2 e) in
    if Qle_bool 0 q then v else (- v)%Q.

(** [a / b] on ints *)
Definition true_div (a b : Z) : Q := to_double (inject_Z a / inject_Z b).

(** [x * y] on floats *)
Definition float_mul (x y : Q) : Q := to_double (x * y).

(** [round(x, 2)] on a float: the decimal with two places nearest to the
    exact value of [x], ties to the even one, read back as a float. *)
Definition round2 (x : Q) : Q := to_double (round_half_even (x * 100) # 100).

Module CreateTask.

(** [_safe_progress] *)
Definition _safe_progress (task : Task.t) (completed_steps total_steps : Z) : pyfloat :=
  match Task.get_progress_percentage task with
  | Present (Ok p) => p
  | _ =>
      if total_steps <=? 0 then FFinite 0
      else FFinite (round2 (float_mul (true_div completed_steps total_steps) 100))
  end.

(** The loop of [_summarize_task] over the steps: (completed, failed). *)
Fixpoint count_steps (steps : list Step.t) (completed_steps failed_steps : Z) : Z * Z :=
  match steps with
  | [] => (completed_steps, failed_steps)
  | step :: rest =>
      let step_status := step_status_value step in
      if str_in step_status ["done"; "completed"]
      then count_steps rest (completed_steps + 1) failed_steps
      else if String.eqb step_status "failed"
      then count_steps rest completed_steps (failed_steps + 1)
      else count_steps rest completed_steps failed_steps
  end.

(** [getattr(task, "steps", None) or []] *)
Definition steps_of (task : Task.t) : list Step.t :=
  match getattr (Task.steps task) None with
  | Some l => l
  | None => []
  end.

Definition _summarize_task (task : Task.t) : pydict :=
  let steps := steps_of task in
  let total_steps := Z.of_nat (length steps) in
  let '(completed_steps, failed_steps) := count_steps steps 0 0 in
  [ ("steps_total", PyInt total_steps);
    ("steps_completed", PyInt completed_steps);
    ("steps_failed", PyInt failed_steps);
    ("progress_percentage",
      PyFloat (_safe_progress task completed_steps total_steps)) ].


(** [_serialize_checkpoint] *)
Definition _serialize_checkpoint (checkpoint : Checkpoint.t) : pyresult pydict :=
  let checkpoint_type := getattr (Checkpoint.checkpoint_type checkpoint) ScNone in
  let checkpoint_type_value :=
    if str_truthy (value_or_self checkpoint_type)
    then opt_str (value_or_self checkpoint_type)
    else PyStr "approval" in
  let* plan_id := getattr_strict "plan_id" (Checkpoint.plan_id checkpoint) in
  let* questions := getattr_strict "questions" (Checkpoint.questions checkpoint) in
  let* alternatives := getattr_strict "alternatives" (Checkpoint.alternatives checkpoint) in
  Ok [ ("task_id", opt_str plan_id);
       ("step_id", opt_str (Checkpoint.step_id checkpoint));
       ("checkpoint_name", PyStr (Checkpoint.checkpoint_name checkpoint));
       ("description", PyStr (Checkpoint.description checkpoint));
       ("checkpoint_type", checkpoint_type_value);
       ("preview_data", Checkpoint.preview_data checkpoint);
       ("questions", questions);
       ("alternatives", alternatives);
       ("created_at", iso_or_none (Checkpoint.created_at checkpoint));
       ("expires_at", iso_or_none (Checkpoint.expires_at checkpoint)) ].


Section WithSettings.

Variable settings : Settings.
Variable providers : Providers.

(** [_resolve_wait_timeout] *)
Definition _resolve_wait_timeout (arguments : gmap string pyval) : pyresult Z :=
  let requested := args_get arguments "wait_timeout_seconds" PyNone in
  let default_timeout := INBOX_CREATE_TASK_WAIT_TIMEOUT_SECONDS settings in
  let max_timeout := INBOX_CREATE_TASK_WAIT_MAX_TIMEOUT_SECONDS settings in
  match requested with
  | PyNone => Ok (Z.max 0 (Z.min default_timeout max_timeout))
  | _ =>
      match py_int requested with
      | Ok timeout_int => Ok (Z.max 0 (Z.min timeout_int max_timeout))
      | Raise TypeError | Raise ValueError =>
          Ok (Z.max 0 (Z.min default_timeout max_timeout))
      | Raise e => Raise e
      end
  end.

(** *** The world of one [create_task] invocation *)

Inductive Call : Type :=
| CallCreateTask
| CallLinkConversation (task_id conversation_id : string)
| CallGetTask (task_id : pyval)
| CallListPendingForTask (task_id : pyval).

Record World : Type := {
  now : Q;                 (* time.monotonic() *)
  calls : list Call;       (* backend calls made, latest first *)
  sleeps : list Q;         (* asyncio.sleep durations, latest first *)
  globals : Globals
}.

Definition log_call (c : Call) (w : World) : World :=
  {| now := now w; calls := c :: calls w; sleeps := sleeps w; globals := globals w |}.

Definition advance (d : Q) (w : World) : World :=
  {| now := (now w + d)%Q; calls := calls w; sleeps := sleeps w; globals := globals w |}.

Definition set_globals (g : Globals) (w : World) : World :=
  {| now := now w; calls := calls w; sleeps := sleeps w; globals := g |}.

(** [await asyncio.sleep(d)] *)
Definition sleep (d : Q) (w : World) : World :=
  {| now := (now w + d)%Q; calls := calls w; sleeps := d :: sleeps w; globals := globals w |}.

Definition is_get_task (c : Call) : bool :=
  match c with
  | CallGetTask _ => true
  | _ => false
  end.

Definition get_task_count (w : World) : nat := length (List.filter is_get_task (calls w)).

(** [await task_use_cases.get_task(task_id)] *)
Definition await_get_task (task_use_cases : TaskUseCases) (task_id : pyval) (w : World)
  : pyresult (option Task.t) * World :=
  let n := get_task_count w in
  (get_task task_use_cases n task_id,
   advance (get_task_latency task_use_cases n) (log_call (CallGetTask task_id) w)).

(** *** BoundedWaitPoller: [_wait_for_terminal_status] *)

Definition terminal_statuses : list string :=
  ["completed"; "failed"; "cancelled"; "checkpoint"].

Definition poll_interval : Q :=
  py_max (2 # 10) (INBOX_CREATE_TASK_WAIT_POLL_INTERVAL_SECONDS settings).

Definition WaitResult : Type := (option Task.t * string * bool)%type.

(** The [while True] loop; [None] when the fuel runs out. *)
Fixpoint wait_loop (fuel : nat) (task_use_cases : TaskUseCases) (task_id : string)
    (deadline : Q) (last_task : option Task.t) (last_status : string) (w : World)
  : option (WaitResult * World) :=
  match fuel with
  | O => None
  | S fuel' =>
      let '(fetched, w1) := await_get_task task_use_cases (PyStr task_id) w in
      let task :=
        match fetched with
        | Ok t => t
        | Raise _ => None   (* logged *)
        end in
      let last_task' := match task with Some t => Some t | None => last_task end in
      let last_status' :=
        match task with Some t => task_status_value t | None => last_status end in
      let after_fetch :=
        if Qle_bool deadline (now w1)
        then Some ((last_task', last_status', true), w1)
        else
          let remaining := (deadline - now w1)%Q in
          wait_loop fuel' task_use_cases task_id deadline last_task' last_status'
            (sleep (py_min poll_interval (py_max (1 # 100) remaining)) w1) in
      match task with
      | Some t =>
          if str_in last_status' terminal_statuses
          then Some ((Some t, last_status', false), w1)
          else after_fetch
      | None => after_fetch
      end
  end.

Definition _wait_for_terminal_status (fuel : nat) (task_use_cases : TaskUseCases)
    (task_id : string) (timeout_seconds : Z) (w : World)
  : option (WaitResult * World) :=
  let deadline := (now w + inject_Z (Z.max 0 timeout_seconds))%Q in
  wait_loop fuel task_use_cases task_id deadline None "planning" w.

(** [_get_pending_checkpoint] *)
Definition _get_pending_checkpoint (task_id : string) (w : World)
  : pyresult pyval * World :=
  let '(resolved, g) := _get_checkpoint_use_cases providers (globals w) in
  let w := set_globals g w in
  match resolved with
  | Raise e => (Raise e, w)
  | Ok checkpoint_use_cases =>
      let w := log_call (CallListPendingForTask (PyStr task_id)) w in
      match list_pending_for_task checkpoint_use_cases (PyStr task_id) with
      | Raise e => (Raise e, w)
      | Ok [] => (Ok PyNone, w)
      | Ok (first :: _) =>
          match _serialize_checkpoint first with
          | Ok d => (Ok (PyDict d), w)
          | Raise e => (Raise e, w)
          end
      end
  end.

(** *** TaskCreationOrchestrator: [InboxCreateTaskTool.execute] *)

Record Context : Type := {
  ctx_user_id : option string;
  ctx_organization_id : attr pyval;
  ctx_conversation_id : option string;
  ctx_file_references : pyval
}.

(** [constraints["file_references"] = file_references] *)
Definition setitem (constraints : pyval) (k : string) (v : pyval) : pyresult pyval :=
  match constraints with
  | PyDict d => Ok (PyDict (dict_set k v d))
  | _ => Raise TypeError
  end.

(** [goal[:100]], evaluated for the log line only: does it raise? *)
Definition slice_check (goal : pyval) : pyresult unit :=
  match goal with
  | PyStr _ | PyList _ => Ok tt
  | _ => Raise TypeError
  end.

Definition ok_result (d : pydict) (m : fstring) : ToolResult :=
  {| success := true; data := Some d; message := Some m; error := None |}.

Definition error_result (e : fstring) : ToolResult :=
  {| success := false; data := None; message := None; error := Some e |}.

(** The body of the [try] block. *)
Definition execute_try (fuel : nat) (goal constraints : pyval)
    (wait_for_completion : bool) (wait_timeout_seconds : Z)
    (user_id conversation_id : string) (organization_id : pyval) (w : World)
  : option (pyresult ToolResult * World) :=
  let '(resolved, g) := _get_task_use_cases providers (globals w) in
  let w := set_globals g w in
  match resolved with
  | Raise e => Some (Raise e, w)
  | Ok task_use_cases =>
  let w := log_call CallCreateTask w in
  match create_task task_use_cases user_id organization_id goal
          (if py_truthy constraints then constraints else PyNone)
          [("source", PyStr "inbox_chat"); ("conversation_id", PyStr conversation_id)]
          true with
  | Raise e => Some (Raise e, w)
  | Ok task =>
  let w := log_call (CallLinkConversation (Task.id task) conversation_id) w in
  match link_conversation task_use_cases (Task.id task) conversation_id with
  | Raise e => Some (Raise e, w)
  | Ok _ =>
  let base_data : pydict :=
    [("task_id", PyStr (Task.id task)); ("goal", goal); ("timed_out", PyBool false)] in
  if negb wait_for_completion
  then Some (Ok (ok_result (dict_update base_data [("status", PyStr "planning")])
                   [Lit "Task created and planning started: "; Fmt goal]), w)
  else
  match _wait_for_terminal_status fuel task_use_cases (Task.id task)
          wait_timeout_seconds w with
  | None => None
  | Some ((observed_task, observed_status, timed_out), w) =>
  let base_data :=
    match observed_task with
    | Some t => dict_update base_data (_summarize_task t)
    | None => base_data
    end in
  if timed_out
  then Some (Ok (ok_result
                   (dict_update base_data
                      [("status", PyStr "running");
                       ("current_status", PyStr observed_status);
                       ("timed_out", PyBool true);
                       ("wait_timeout_seconds", PyInt wait_timeout_seconds)])
                   [Lit "Task started and is still running. Use get_task_status for updates."]),
             w)
  else if String.eqb observed_status "checkpoint"
  then
    let '(checkpoint_data, w) := _get_pending_checkpoint (Task.id task) w in
    match checkpoint_data with
    | Raise e => Some (Raise e, w)
    | Ok checkpoint_data =>
        Some (Ok (ok_result
                    (dict_update base_data
                       [("status", PyStr "checkpoint"); ("checkpoint", checkpoint_data)])
                    [Lit "Task is waiting for your checkpoint approval."]), w)
    end
  else if str_in observed_status ["completed"; "failed"; "cancelled"]
  then Some (Ok (ok_result (dict_update base_data [("status", PyStr observed_status)])
                   [Lit "Task reached terminal status: "; Fmt (PyStr observed_status);
                    Lit "."]), w)
  else
    match slice_check goal with
    | Raise e => Some (Raise e, w)
    | Ok _ =>
        Some (Ok (ok_result (dict_update base_data [("status", PyStr observed_status)])
                    [Lit "Task created and started."]), w)
    end
  end end end end.

Definition execute (fuel : nat) (arguments : gmap string pyval) (context : Context)
    (w : World) : option (pyresult ToolResult * World) :=
  match arguments !! "goal" with
  | None => Some (Raise (KeyError "goal"), w)
  | Some goal =>
  let constraints :=
    let c := args_get arguments "constraints" PyNone in
    if py_truthy c then c else PyDict [] in
  let wait_for_completion :=
    py_truthy (args_get arguments "wait_for_completion" (PyBool true)) in
  match _resolve_wait_timeout arguments with
  | Raise e => Some (Raise e, w)
  | Ok wait_timeout_seconds =>
  let user_id := ctx_user_id context in
  let organization_id := getattr (ctx_organization_id context) (PyStr "") in
  let conversation_id := ctx_conversation_id context in
  let file_references := ctx_file_references context in
  match (if py_truthy file_references
         then setitem constraints "file_references" file_references
         else Ok constraints) with
  | Raise e => Some (Raise e, w)
  | Ok constraints =>
  match user_id, conversation_id with
  | Some user_id, Some conversation_id =>
      if negb (str_truthy (Some user_id)) || negb (str_truthy (Some conversation_id))
      then Some (Ok (error_result [Lit "Missing user_id or conversation_id in context"]), w)
      else
        match execute_try fuel goal constraints wait_for_completion
                wait_timeout_seconds user_id conversation_id organization_id w with
        | None => None
        | Some (Ok r, w) => Some (Ok r, w)
        | Some (Raise e, w) =>
            Some (Ok (error_result [Lit "Failed to create task: "; FmtExn e]), w)
        end
  | _, _ => Some (Ok (error_result [Lit "Missing user_id or conversation_id in context"]), w)
  end
  end end end.

End WithSettings.

End CreateTask.

(** ** StatusQueryEngine: get_task_status.py *)

(** Modelled from the spec: the [TaskStatus] enum of
    [src.domain.tasks.models], which is not among the sources.  Its members
    are the canonical statuses of the data model, four active and three
    terminal; the unit tests compare [_status_value] of a member with the
    lower-case name. *)
Module TaskStatus.
Definition PLANNING : scalar := ScEnum (Some "planning").
Definition READY : scalar := ScEnum (Some "ready").
Definition EXECUTING : scalar := ScEnum (Some "executing").
Definition CHECKPOINT : scalar := ScEnum (Some "checkpoint").
Definition COMPLETED : scalar := ScEnum (Some "completed").
Definition FAILED : scalar := ScEnum (Some "failed").
Definition CANCELLED : scalar := ScEnum (Some "cancelled").
End TaskStatus.

Module GetTaskStatus.

Record Context : Type := {
  ctx_user_id : option string;
  ctx_delegation_service : option DelegationService;
  ctx_task_use_cases : option TaskUseCases;
  ctx_checkpoint_use_cases : option CheckpointUseCases
}.

(** [sum(1 for s in steps if p(s))] *)
Definition count_if {A} (p : A -> bool) (l : list A) : Z :=
  fold_left Z.add (map (fun _ => 1) (List.filter p l)) 0.

(** [getattr(plan, "steps", []) or []] *)
Definition steps_of (plan : Task.t) : list Step.t :=
  match getattr (Task.steps plan) (Some []) with
  | Some l => l
  | None => []
  end.

(** [_format_plan] *)
Definition _format_plan (plan : Task.t) : pydict :=
  let steps := steps_of plan in
  let completed_steps :=
    count_if (fun s => str_in (step_status_value s) ["done"; "completed"]) steps in
  let failed_steps :=
    count_if (fun s => String.eqb (step_status_value s) "failed") steps in
  let status_value := task_status_value plan in
  let progress :=
    match Task.get_progress_percentage plan with
    | Present (Ok p) => p
    | _ =>
        match steps with
        | [] => FFinite 0
        | _ => FFinite (round2 (float_mul (true_div completed_steps (Z.of_nat (length steps))) 100))
        end
    end in
  [ ("plan_id", PyStr (Task.id plan));
    ("goal", PyStr (Task.goal plan));
    ("status", PyStr status_value);
    ("progress", PyFloat progress);
    ("steps_total", PyInt (Z.of_nat (length steps)));
    ("steps_completed", PyInt completed_steps);
    ("steps_failed", PyInt failed_steps);
    ("created_at", iso_or_none (Task.created_at plan));
    ("updated_at", iso_or_none (Task.updated_at plan)) ].

(** [getattr(c, "plan_id", getattr(c, "task_id", None))] *)
Definition checkpoint_ref (c : Checkpoint.t) : option string :=
  getattr (Checkpoint.plan_id c) (getattr (Checkpoint.task_id c) None).

(** [_format_checkpoint] *)
Definition _format_checkpoint (checkpoint : Checkpoint.t) : pydict :=
  [ ("plan_id", opt_str (checkpoint_ref checkpoint));
    ("step_id", opt_str (Checkpoint.step_id checkpoint));
    ("name", PyStr (Checkpoint.checkpoint_name checkpoint));
    ("description", PyStr (Checkpoint.description checkpoint));
    ("preview", Checkpoint.preview_data checkpoint);
    ("created_at", iso_or_none (Checkpoint.created_at checkpoint));
    ("expires_at", iso_or_none (Checkpoint.expires_at checkpoint)) ].

(** [ref == plan_id] for a checkpoint's task reference and the requested id *)
Definition ref_eqb (r : option string) (plan_id : pyval) : bool :=
  match r, plan_id with
  | Some s, PyStr s' => String.eqb s s'
  | None, PyNone => true
  | _, _ => false
  end.

Definition active_status_values : list string :=
  map _status_value
    [TaskStatus.PLANNING; TaskStatus.READY; TaskStatus.EXECUTING; TaskStatus.CHECKPOINT].

Definition terminal_status_values : list string :=
  [ _status_value TaskStatus.COMPLETED;
    _status_value TaskStatus.FAILED;
    _status_value TaskStatus.CANCELLED ].

(** [", ".join(parts)] *)
Fixpoint join (sep : fstring) (parts : list fstring) : fstring :=
  match parts with
  | [] => []
  | [p] => p
  | p :: rest => (p ++ sep ++ join sep rest)%list
  end.

Definition formatted (l : list pydict) : pyval := PyList (map PyDict l).

Definition len_val {A} (l : list A) : pyval := PyInt (Z.of_nat (length l)).

(** Pending checkpoints through whichever provider there is; with none,
    the empty list. *)
Definition fetch_checkpoints (delegation_service : option DelegationService)
    (checkpoint_use_cases : option CheckpointUseCases)
    (via_delegation : DelegationService -> pyresult (list Checkpoint.t))
    (via_use_cases : CheckpointUseCases -> pyresult (list Checkpoint.t))
  : pyresult (list Checkpoint.t) :=
  match delegation_service, checkpoint_use_cases with
  | Some ds, _ => via_delegation ds
  | None, Some cuc => via_use_cases cuc
  | None, None => Ok []
  end.

(** Single-task mode: the [if plan_id:] branch of the [try] block. *)
Definition execute_single (plan_id : pyval) (include_checkpoints : pyval)
    (user_id : string) (delegation_service : option DelegationService)
    (task_use_cases : option TaskUseCases)
    (checkpoint_use_cases : option CheckpointUseCases) : pyresult ToolResult :=
  let* plan :=
    match delegation_service, task_use_cases with
    | Some ds, _ => get_plan ds plan_id
    | None, Some tuc => get_task tuc 0 plan_id
    | None, None => Raise (AttributeError "get_task")
    end in
  match plan with
  | None => Ok (CreateTask.error_result [Lit "Task not found: "; Fmt plan_id])
  | Some plan =>
      if negb (String.eqb (Task.user_id plan) user_id)
      then Ok (CreateTask.error_result [Lit "Access denied to this task"])
      else
        let result_data := _format_plan plan in
        let* result_data :=
          if py_truthy include_checkpoints
          then
            let* checkpoints :=
              fetch_checkpoints delegation_service checkpoint_use_cases
                (fun ds => get_pending_checkpoints ds user_id)
                (fun cuc => list_pending_for_task cuc plan_id) in
            let plan_checkpoints :=
              List.filter (fun c => ref_eqb (checkpoint_ref c) plan_id) checkpoints in
            match plan_checkpoints with
            | [] => Ok result_data
            | _ => Ok (dict_set "pending_checkpoints"
                         (formatted (map _format_checkpoint plan_checkpoints))
                         result_data)
            end
          else Ok result_data in
        let status_value := task_status_value plan in
        Ok (CreateTask.ok_result result_data
              [Lit "Task '"; Fmt (PyStr (String.substring 0 50 (Task.goal plan)));
               Lit "...' is "; Fmt (PyStr status_value)])
  end.

(** Listing mode: the rest of the [try] block. *)
Definition execute_listing (include_completed include_checkpoints limit : pyval)
    (user_id : string) (delegation_service : option DelegationService)
    (task_use_cases : option TaskUseCases)
    (checkpoint_use_cases : option CheckpointUseCases) : pyresult ToolResult :=
  let* active_plans :=
    match delegation_service, task_use_cases with
    | Some ds, _ => get_user_plans ds user_id PyNone limit
    | None, Some tuc => list_tasks tuc user_id PyNone limit
    | None, None => Raise (AttributeError "list_tasks")
    end in
  let active_tasks :=
    List.filter (fun p => str_in (task_status_value p) active_status_values) active_plans in
  let completed_tasks :=
    if py_truthy include_completed
    then firstn 5 (List.filter (fun p => str_in (task_status_value p) terminal_status_values)
                     active_plans)
    else [] in
  let* pending_checkpoints :=
    if py_truthy include_checkpoints
    then
      let* checkpoints :=
        fetch_checkpoints delegation_service checkpoint_use_cases
          (fun ds => get_pending_checkpoints ds user_id)
          (fun cuc => list_pending cuc user_id) in
      Ok (map _format_checkpoint checkpoints)
    else Ok [] in
  let result_data : pydict :=
    [ ("active_tasks", formatted (map _format_plan active_tasks));
      ("active_count", len_val active_tasks) ] in
  let result_data :=
    if py_truthy include_completed
    then dict_set "completed_count" (len_val completed_tasks)
           (dict_set "completed_tasks" (formatted (map _format_plan completed_tasks))
              result_data)
    else result_data in
  let result_data :=
    if py_truthy include_checkpoints
    then dict_set "checkpoint_count" (len_val pending_checkpoints)
           (dict_set "pending_checkpoints" (formatted pending_checkpoints) result_data)
    else result_data in
  let summary_parts : list fstring :=
    ((match active_tasks with
     | [] => []
     | _ => [[Fmt (len_val active_tasks); Lit " active task(s)"]]
     end)
    ++ (match pending_checkpoints with
        | [] => []
        | _ => [[Fmt (len_val pending_checkpoints); Lit " checkpoint(s) pending approval"]]
        end)
    ++ (match completed_tasks with
        | [] => []
        | _ => [[Fmt (len_val completed_tasks); Lit " recently completed"]]
        end))%list in
  let message :=
    match summary_parts with
    | [] => [Lit "No active tasks"]
    | _ => join [Lit ", "] summary_parts
    end in
  Ok (CreateTask.ok_result result_data message).

Section WithProviders.

Variable providers : Providers.

(** [GetTaskStatusTool.execute] *)
Definition execute (arguments : gmap string pyval) (context : Context) (g : Globals)
  : ToolResult * Globals :=
  let plan_id := args_get arguments "plan_id" PyNone in
  let include_completed := args_get arguments "include_completed" (PyBool false) in
  let include_checkpoints := args_get arguments "include_checkpoints" (PyBool true) in
  let limit := args_get arguments "limit" (PyInt 10) in
  let delegation_service := ctx_delegation_service context in
  match ctx_user_id context with
  | None => (CreateTask.error_result [Lit "User context not available"], g)
  | Some user_id =>
  if negb (str_truthy (Some user_id))
  then (CreateTask.error_result [Lit "User context not available"], g)
  else
  let '(task_use_cases, g) :=
    match delegation_service, ctx_task_use_cases context with
    | None, None =>
        match _get_task_use_cases providers g with
        | (Ok t, g') => (Some t, g')
        | (Raise _, g') => (None, g')   (* logged *)
        end
    | _, t => (t, g)
    end in
  let '(checkpoint_use_cases, g) :=
    match py_truthy include_checkpoints, delegation_service,
          ctx_checkpoint_use_cases context with
    | true, None, None =>
        match _get_checkpoint_use_cases providers g with
        | (Ok c, g') => (Some c, g')
        | (Raise _, g') => (None, g')   (* logged *)
        end
    | _, _, c => (c, g)
    end in
  match delegation_service, task_use_cases with
  | None, None => (CreateTask.error_result [Lit "Delegation service not available"], g)
  | _, _ =>
      let attempt :=
        if py_truthy plan_id
        then execute_single plan_id include_checkpoints user_id delegation_service
               task_use_cases checkpoint_use_cases
        else execute_listing include_completed include_checkpoints limit user_id
               delegation_service task_use_cases checkpoint_use_cases in
      match attempt with
      | Ok r => (r, g)
      | Raise e =>
          (CreateTask.error_result [Lit "Failed to get task status: "; FmtExn e], g)
      end
  end
  end.

End WithProviders.

End GetTaskStatus.

(** ** Sample snapshots and backends (after the unit tests) *)

Module Sample.

Definition step (s : string) : Step.t := {| Step.status := Present (ScEnum (Some s)) |}.

Definition task (task_id owner : string) (st : scalar) (steps : list string)
    (progress : attr (pyresult pyfloat)) : Task.t :=
  {| Task.id := task_id;
     Task.user_id := owner;
     Task.goal := "Goal for " ++ task_id;
     Task.status := Present st;
     Task.steps := Present (Some (map step steps));
     Task.created_at := Some {| isoformat := "2026-01-01T00:00:00" |};
     Task.updated_at := Some {| isoformat := "2026-01-01T00:00:00" |};
     Task.get_progress_percentage := progress |}.

Definition no_steps_task (steps : attr (option (list Step.t))) : Task.t :=
  {| Task.id := "task-0";
     Task.user_id := "user-1";
     Task.goal := "Goal";
     Task.status := Absent;
     Task.steps := steps;
     Task.created_at := None;
     Task.updated_at := None;
     Task.get_progress_percentage := Absent |}.

(** A snapshot whose own percentage method answers 150. *)
Definition overshooting_task : Task.t :=
  task "task-2" "user-1" TaskStatus.EXECUTING ["done"; "pending"]
    (Present (Ok (FFinite 150))).

Definition mixed_task : Task.t :=
  task "task-1" "user-1" TaskStatus.EXECUTING
    ["DONE"; "completed"; "failed"; "running"; "pending"] Absent.

(** A checkpoint in the shape of the domain's [CheckpointState]. *)
Definition checkpoint (task_id : string) (ctype : attr scalar) : Checkpoint.t :=
  {| Checkpoint.plan_id := Present (Some task_id);
     Checkpoint.task_id := Absent;
     Checkpoint.step_id := Some "step-approval";
     Checkpoint.checkpoint_name := "approval";
     Checkpoint.description := "Need approval";
     Checkpoint.checkpoint_type := ctype;
     Checkpoint.preview_data := PyDict [("risk", PyStr "high")];
     Checkpoint.questions := Present PyNone;
     Checkpoint.alternatives := Present PyNone;
     Checkpoint.created_at := Some {| isoformat := "2026-01-01T00:00:00" |};
     Checkpoint.expires_at := Some {| isoformat := "2026-01-01T00:30:00" |} |}.

(** A checkpoint of the other schema variant: it names its task in
    [task_id] and has no [plan_id]. *)
Definition legacy_checkpoint : Checkpoint.t :=
  {| Checkpoint.plan_id := Absent;
     Checkpoint.task_id := Present (Some "task-1");
     Checkpoint.step_id := Some "step-1";
     Checkpoint.checkpoint_name := "approval";
     Checkpoint.description := "Review required";
     Checkpoint.checkpoint_type := Absent;
     Checkpoint.preview_data := PyDict [("risk", PyStr "high")];
     Checkpoint.questions := Present PyNone;
     Checkpoint.alternatives := Present PyNone;
     Checkpoint.created_at := None;
     Checkpoint.expires_at := None |}.

Definition settings : Settings :=
  {| INBOX_CREATE_TASK_WAIT_TIMEOUT_SECONDS := 10;
     INBOX_CREATE_TASK_WAIT_MAX_TIMEOUT_SECONDS := 30;
     INBOX_CREATE_TASK_WAIT_POLL_INTERVAL_SECONDS := 1 # 2 |}.

Definition completed_snapshot : Task.t :=
  task "task-123" "user-123" TaskStatus.COMPLETED ["done"; "done"] Absent.

Definition planning_snapshot : Task.t :=
  task "task-123" "user-123" TaskStatus.PLANNING ["pending"] Absent.

(** Task use cases answering [get_task] by a script and [list_tasks] with
    a fixed list; creation and linking succeed. *)
Definition use_cases (script : nat -> pyresult (option Task.t)) (listing : list Task.t)
  : TaskUseCases :=
  {| create_task := fun _ _ _ _ _ _ => Ok planning_snapshot;
     link_conversation := fun _ _ => Ok tt;
     get_task := fun n _ => script n;
     get_task_latency := fun _ => 1 # 10;
     list_tasks := fun _ _ _ => Ok listing |}.

Definition failing_use_cases : TaskUseCases :=
  use_cases (fun _ => Raise (RuntimeError "backend down")) [].

Definition checkpoint_use_cases (pending : list Checkpoint.t) : CheckpointUseCases :=
  {| list_pending := fun _ => Ok pending;
     list_pending_for_task := fun _ => Ok pending |}.

Definition no_globals : Globals :=
  {| _task_use_cases := None; _checkpoint_use_cases := None |}.

Definition world0 : CreateTask.World :=
  {| CreateTask.now := 0;
     CreateTask.calls := [];
     CreateTask.sleeps := [];
     CreateTask.globals := no_globals |}.

Definition providers (t : pyresult TaskUseCases) (c : pyresult CheckpointUseCases)
  : Providers :=
  {| provider_get_task_use_cases := t; provider_get_checkpoint_use_cases := c |}.

Definition foreign_task : Task.t :=
  task "task-9" "user-2" TaskStatus.EXECUTING ["done"; "running"] Absent.

(** A context of user-1 that carries the split use cases. *)
Definition status_context (t : TaskUseCases) (c : option CheckpointUseCases)
  : GetTaskStatus.Context :=
  {| GetTaskStatus.ctx_user_id := Some "user-1";
     GetTaskStatus.ctx_delegation_service := None;
     GetTaskStatus.ctx_task_use_cases := Some t;
     GetTaskStatus.ctx_checkpoint_use_cases := c |}.

Definition bare_context : GetTaskStatus.Context :=
  {| GetTaskStatus.ctx_user_id := Some "user-1";
     GetTaskStatus.ctx_delegation_service := None;
     GetTaskStatus.ctx_task_use_cases := None;
     GetTaskStatus.ctx_checkpoint_use_cases := None |}.

Definition no_providers : Providers :=
  providers (Raise (RuntimeError "unavailable")) (Raise (RuntimeError "unavailable")).

Definition nine_tasks : list Task.t :=
  [ task "t1" "user-1" TaskStatus.PLANNING [] Absent;
    task "t2" "user-1" TaskStatus.COMPLETED ["done"] Absent;
    task "t3" "user-1" TaskStatus.FAILED ["failed"] Absent;
    task "t4" "user-1" TaskStatus.CHECKPOINT ["checkpoint"] Absent;
    task "t5" "user-1" TaskStatus.CANCELLED [] Absent;
    task "t6" "user-1" TaskStatus.COMPLETED ["done"] Absent;
    task "t7" "user-1" TaskStatus.COMPLETED ["done"] Absent;
    task "t8" "user-1" TaskStatus.COMPLETED ["done"] Absent;
    task "t9" "user-1" TaskStatus.COMPLETED ["done"] Absent ].

Definition create_context : CreateTask.Context :=
  {| CreateTask.ctx_user_id := Some "user-123";
     CreateTask.ctx_organization_id := Present (PyStr "org-123");
     CreateTask.ctx_conversation_id := Some "conv-123";
     CreateTask.ctx_file_references := PyNone |}.

(** Task use cases whose [get_task] always raises. *)
Definition create_providers : Providers :=
  providers (Ok failing_use_cases) (Raise (RuntimeError "unavailable")).

End Sample.

(** ** Specification-side notions *)

Definition is_completed_step (s : Step.t) : bool :=
  str_in (step_status_value s) ["done"; "completed"].

Definition is_failed_step (s : Step.t) : bool :=
  String.eqb (step_status_value s) "failed".

Definition count {A} (p : A -> bool) (l : list A) : Z :=
  Z.of_nat (length (List.filter p l)).

(** [clamp(x, lo, hi)] *)
Definition clamp (x lo hi : Z) : Z := Z.max lo (Z.min x hi).

(** A percentage within [0, 100]. *)
Definition pct_in_range (p : pyfloat) : Prop :=
  match p with
  | FFinite q => (0 <= q /\ q <= 100)%Q
  | _ => False
  end.

(** The value both formatters fall back to when the snapshot computes no
    percentage of its own. *)
Definition fallback_progress (steps_completed steps_total : Z) : pyfloat :=
  if steps_total =? 0 then FFinite 0
  else FFinite (round2 (float_mul (true_div steps_completed steps_total) 100)).

(** The time [n] full poll intervals of the minimum length cover. *)
Definition time_budget (n : nat) : Q := (inject_Z (Z.of_nat n) * (1 # 5))%Q.

(** [x or "approval"] on a checkpoint type's value *)
Definition falsy_type (c : Checkpoint.t) : Prop :=
  match value_or_self (getattr (Checkpoint.checkpoint_type c) ScNone) with
  | None => True
  | Some s => s = ""
  end.

(** *** Notions for the status query *)

(** The fixed result of the ownership check. *)
Definition access_denied : ToolResult :=
  CreateTask.error_result [Lit "Access denied to this task"].

(** The task use cases a call ends up with: those of the context, or, when
    the context has neither them nor a delegation service, the memoized or
    newly built singleton. *)
Definition resolved_task_use_cases (providers : Providers)
    (context : GetTaskStatus.Context) (g : Globals) : option TaskUseCases :=
  match GetTaskStatus.ctx_delegation_service context,
        GetTaskStatus.ctx_task_use_cases context with
  | None, None =>
      match fst (_get_task_use_cases providers g) with
      | Ok t => Some t
      | Raise _ => None
      end
  | _, t => t
  end.

(** What the backend answers for the requested plan. *)
Definition fetched_plan (providers : Providers) (context : GetTaskStatus.Context)
    (g : Globals) (plan_id : pyval) : pyresult (option Task.t) :=
  match GetTaskStatus.ctx_delegation_service context,
        resolved_task_use_cases providers context g with
  | Some ds, _ => get_plan ds plan_id
  | None, Some tuc => get_task tuc 0 plan_id
  | None, None => Raise (RuntimeError "no provider")
  end.

(** What the backend answers for the user's task list. *)
Definition fetched_tasks (providers : Providers) (context : GetTaskStatus.Context)
    (g : Globals) (user_id : string) (limit : pyval) : pyresult (list Task.t) :=
  match GetTaskStatus.ctx_delegation_service context,
        resolved_task_use_cases providers context g with
  | Some ds, _ => get_user_plans ds user_id PyNone limit
  | None, Some tuc => list_tasks tuc user_id PyNone limit
  | None, None => Raise (RuntimeError "no provider")
  end.

Definition is_active (t : Task.t) : bool :=
  str_in (task_status_value t) ["planning"; "ready"; "executing"; "checkpoint"].

Definition is_terminal (t : Task.t) : bool :=
  str_in (task_status_value t) ["completed"; "failed"; "cancelled"].

(** A checkpoint provider that reports no pending checkpoint. *)
Definition no_pending : CheckpointUseCases :=
  {| list_pending := fun _ => Ok []; list_pending_for_task := fun _ => Ok [] |}.

Definition with_checkpoint_use_cases (context : GetTaskStatus.Context)
    (c : CheckpointUseCases) : GetTaskStatus.Context :=
  {| GetTaskStatus.ctx_user_id := GetTaskStatus.ctx_user_id context;
     GetTaskStatus.ctx_delegation_service := GetTaskStatus.ctx_delegation_service context;
     GetTaskStatus.ctx_task_use_cases := GetTaskStatus.ctx_task_use_cases context;
     GetTaskStatus.ctx_checkpoint_use_cases := Some c |}.

(** The checkpoint use cases a call ends up with. *)
Definition resolved_checkpoint_use_cases (providers : Providers)
    (context : GetTaskStatus.Context) (g : Globals) (include_checkpoints : pyval)
  : option CheckpointUseCases :=
  match py_truthy include_checkpoints,
        GetTaskStatus.ctx_delegation_service context,
        GetTaskStatus.ctx_checkpoint_use_cases context with
  | true, None, None =>
      match _checkpoint_use_cases g with
      | Some c => Some c
      | None =>
          match provider_get_checkpoint_use_cases providers with
          | Ok c => Some c
          | Raise _ => None
          end
      end
  | _, _, c => c
  end.

(** What the call answers once the user is known and resolution is done. *)
Definition answer (providers : Providers) (arguments : gmap string pyval)
    (context : GetTaskStatus.Context) (g : Globals) (user_id : string) : ToolResult :=
  let plan_id := args_get arguments "plan_id" PyNone in
  let include_completed := args_get arguments "include_completed" (PyBool false) in
  let include_checkpoints := args_get arguments "include_checkpoints" (PyBool true) in
  let limit := args_get arguments "limit" (PyInt 10) in
  let ds := GetTaskStatus.ctx_delegation_service context in
  let tuc := resolved_task_use_cases providers context g in
  let cuc := resolved_checkpoint_use_cases providers context g include_checkpoints in
  match ds, tuc with
  | None, None => CreateTask.error_result [Lit "Delegation service not available"]
  | _, _ =>
      match (if py_truthy plan_id
             then GetTaskStatus.execute_single plan_id include_checkpoints user_id ds tuc cuc
             else GetTaskStatus.execute_listing include_completed include_checkpoints limit
                    user_id ds tuc cuc) with
      | Ok r => r
      | Raise e => CreateTask.error_result [Lit "Failed to get task status: "; FmtExn e]
      end
  end.

(** *** Notions for task creation *)

(** The constraints object after the context's file references were merged
    into it. *)
Definition merged_constraints (arguments : gmap string pyval)
    (context : CreateTask.Context) : pyresult pyval :=
  let c := args_get arguments "constraints" PyNone in
  let constraints := if py_truthy c then c else PyDict [] in
  if py_truthy (CreateTask.ctx_file_references context)
  then CreateTask.setitem constraints "file_references"
         (CreateTask.ctx_file_references context)
  else Ok constraints.

(** *** Notions for the bounded wait *)

(** The status the poller reports belongs to the snapshot it reports: the
    snapshot's canonical status, or "planning" when there is none. *)
Definition snapshot_matches (snapshot : option Task.t) (status : string) : Prop :=
  match snapshot with
  | Some t => status = task_status_value t
  | None => status = "planning"
  end.

(** A sleep of the poller: at least a hundredth of a second, at most the
    poll interval. *)
Definition sleep_in_bounds (settings : Settings) (d : Q) : Prop :=
  (1 # 100 <= d /\ d <= CreateTask.poll_interval settings)%Q.

(** The tick of the wait loop, spelled out. *)
Definition wait_tick_world (task_use_cases : TaskUseCases) (task_id : string)
    (w : CreateTask.World) : CreateTask.World :=
  CreateTask.advance (get_task_latency task_use_cases (CreateTask.get_task_count w))
    (CreateTask.log_call (CreateTask.CallGetTask (PyStr task_id)) w).

Definition wait_tick_sleep (settings : Settings) (deadline : Q) (w1 : CreateTask.World) : Q :=
  py_min (CreateTask.poll_interval settings)
    (py_max (1 # 100) (deadline - CreateTask.now w1)).

(** *** Further scenarios *)

Module Scenario.

(** A task that is still planning at the first fetch, cannot be fetched at
    the second and is completed from the third on. *)
Definition script (n : nat) : pyresult (option Task.t) :=
  match n with
  | O => Ok (Some Sample.planning_snapshot)
  | S O => Raise (RuntimeError "flaky")
  | _ => Ok (Some Sample.completed_snapshot)
  end.

Definition scripted : TaskUseCases := Sample.use_cases script [].

Definition checkpoint_snapshot : Task.t :=
  Sample.task "task-123" "user-123" TaskStatus.CHECKPOINT ["checkpoint"] Absent.

(** The task is at a checkpoint at the first fetch. *)
Definition at_checkpoint : TaskUseCases :=
  Sample.use_cases (fun _ => Ok (Some checkpoint_snapshot)) [].

Definition completed_at_once : TaskUseCases :=
  Sample.use_cases (fun _ => Ok (Some Sample.completed_snapshot)) [].

(** A backend that refuses to create the task. *)
Definition refusing : TaskUseCases :=
  {| create_task := fun _ _ _ _ _ _ => Raise (RuntimeError "quota exceeded");
     link_conversation := fun _ _ => Ok tt;
     get_task := fun _ _ => Ok (Some Sample.planning_snapshot);
     get_task_latency := fun _ => 1 # 10;
     list_tasks := fun _ _ _ => Ok [] |}.

Definition no_wait_arguments : gmap string pyval :=
  <["wait_for_completion" := PyBool false]> {["goal" := PyStr "Research X"]}.



Definition wait_arguments : gmap string pyval :=
  <["wait_timeout_seconds" := PyInt 5]> {["goal" := PyStr "Research X"]}.

Definition own_task : Task.t :=
  Sample.task "task-1" "user-1" TaskStatus.CHECKPOINT ["done"; "checkpoint"] Absent.

(** A delegation service of user-1 with one task and the pending
    checkpoints of two tasks. *)
Definition delegation : DelegationService :=
  {| get_plan := fun _ => Ok (Some own_task);
     get_pending_checkpoints := fun _ =>
       Ok [Sample.checkpoint "task-1" Absent; Sample.checkpoint "task-7" Absent;
           Sample.legacy_checkpoint];
     get_user_plans := fun _ _ _ => Ok Sample.nine_tasks |}.

Definition delegation_context : GetTaskStatus.Context :=
  {| GetTaskStatus.ctx_user_id := Some "user-1";
     GetTaskStatus.ctx_delegation_service := Some delegation;
     GetTaskStatus.ctx_task_use_cases := None;
     GetTaskStatus.ctx_checkpoint_use_cases := None |}.

End Scenario.

(** *** Further notions for task creation *)


Definition missing_identity : ToolResult :=
  CreateTask.error_result [Lit "Missing user_id or conversation_id in context"].

Definition creation_failed (e : exn) : ToolResult :=
  CreateTask.error_result [Lit "Failed to create task: "; FmtExn e].

(** The outermost handler of [execute]: a raised exception becomes a
    failure result. *)
Definition handled (run : option (pyresult ToolResult * CreateTask.World))
  : option (pyresult ToolResult * CreateTask.World) :=
  match run with
  | None => None
  | Some (Ok r, w) => Some (Ok r, w)
  | Some (Raise e, w) => Some (Ok (creation_failed e), w)
  end.

(** Both ids are there and not empty. *)
Definition identified (context : CreateTask.Context) : bool :=
  str_truthy (CreateTask.ctx_user_id context)
  && str_truthy (CreateTask.ctx_conversation_id context).

(** The statuses a successful [create_task] result can carry. *)
Definition result_statuses : list string :=
  ["planning"; "running"; "checkpoint"; "completed"; "failed"; "cancelled"].

(** *** Further notions for the status query *)

Definition task_not_found (plan_id : pyval) : ToolResult :=
  CreateTask.error_result [Lit "Task not found: "; Fmt plan_id].

Definition status_failed (e : exn) : ToolResult :=
  CreateTask.error_result [Lit "Failed to get task status: "; FmtExn e].

(** The pending checkpoints the call asks its provider for: in single-task
    mode those of the plan (all of the user's through a delegation
    service), in listing mode all of the user's. *)
Definition fetched_checkpoints (providers : Providers) (context : GetTaskStatus.Context)
    (g : Globals) (user_id : string) (include_checkpoints : pyval)
    (plan_id : option pyval) : pyresult (list Checkpoint.t) :=
  GetTaskStatus.fetch_checkpoints (GetTaskStatus.ctx_delegation_service context)
    (resolved_checkpoint_use_cases providers context g include_checkpoints)
    (fun ds => get_pending_checkpoints ds user_id)
    (fun cuc =>
       match plan_id with
       | Some id => list_pending_for_task cuc id
       | None => list_pending cuc user_id
       end).

(** A formatted checkpoint names the given plan. *)
Definition names_plan (plan_id : pyval) (c : Checkpoint.t) : Prop :=
  dict_get "plan_id" (GetTaskStatus._format_checkpoint c) = Some plan_id.

(** * Properties *)

Lemma completed_not_failed (s : Step.t) :
  is_completed_step s = true -> is_failed_step s = false.
Proof.
  unfold is_completed_step, is_failed_step, str_in. simpl.
  intros H. apply orb_true_iff in H. destruct H as [H | H].
  - apply String.eqb_eq in H. now rewrite H.
  - rewrite orb_false_r in H. apply String.eqb_eq in H. now rewrite H.
Qed.

Lemma count_cons {A} (p : A -> bool) (x : A) (l : list A) :
  count p (x :: l) = (if p x then 1 else 0) + count p l.
Proof. unfold count. simpl. destruct (p x); simpl; lia. Qed.

Lemma count_nonneg {A} (p : A -> bool) (l : list A) : 0 <= count p l.
Proof. unfold count. lia. Qed.

Lemma count_steps_spec (steps : list Step.t) (c f : Z) :
  CreateTask.count_steps steps c f =
    (c + count is_completed_step steps, f + count is_failed_step steps).
Proof.
  revert c f. induction steps as [| s rest IH]; intros c f.
  - unfold count. simpl. f_equal; lia.
  - cbn [CreateTask.count_steps]. rewrite !count_cons.
    fold (is_completed_step s). fold (is_failed_step s).
    destruct (is_completed_step s) eqn:Hc.
    + rewrite (completed_not_failed s Hc), IH. f_equal; lia.
    + destruct (is_failed_step s) eqn:Hf; rewrite IH; f_equal; lia.
Qed.

Lemma fold_add_ones {A} (l : list A) (acc : Z) :
  fold_left Z.add (map (fun _ => 1) l) acc = acc + Z.of_nat (length l).
Proof.
  revert acc. induction l as [| x l IH]; intros acc; simpl.
  - lia.
  - rewrite IH. lia.
Qed.

Lemma count_if_spec {A} (p : A -> bool) (l : list A) :
  GetTaskStatus.count_if p l = count p l.
Proof. unfold GetTaskStatus.count_if, count. now rewrite fold_add_ones. Qed.

Lemma counts_partition (steps : list Step.t) :
  count is_completed_step steps + count is_failed_step steps
  + count (fun s => negb (is_completed_step s) && negb (is_failed_step s)) steps
  = Z.of_nat (length steps).
Proof.
  induction steps as [| s rest IH].
  - reflexivity.
  - rewrite !count_cons. cbn [length]. rewrite Nat2Z.inj_succ.
    destruct (is_completed_step s) eqn:Hc.
    + rewrite (completed_not_failed s Hc). simpl. lia.
    + destruct (is_failed_step s); simpl; lia.
Qed.

Lemma steps_of_agree (task : Task.t) :
  GetTaskStatus.steps_of task = CreateTask.steps_of task.
Proof.
  unfold GetTaskStatus.steps_of, CreateTask.steps_of.
  destruct (Task.steps task) as [| [l |]]; reflexivity.
Qed.

(** C10.  Both formatters report, for every task snapshot, the number of
    steps, the number of steps whose canonical status is "done" or
    "completed", and the number whose canonical status is "failed"; the two
    counts are non-negative, every other step is in neither, so their sum
    is at most the total; a snapshot whose [steps] is absent or [None] has
    total 0. *)
Theorem summary_counts_bounded (task : Task.t) :
  let steps := CreateTask.steps_of task in
  let total := Z.of_nat (length steps) in
  let completed := count is_completed_step steps in
  let failed := count is_failed_step steps in
  let other :=
    count (fun s => negb (is_completed_step s) && negb (is_failed_step s)) steps in
  let summary := CreateTask._summarize_task task in
  let plan := GetTaskStatus._format_plan task in
  dict_get "steps_total" summary = Some (PyInt total) /\
  dict_get "steps_completed" summary = Some (PyInt completed) /\
  dict_get "steps_failed" summary = Some (PyInt failed) /\
  dict_get "steps_total" plan = Some (PyInt total) /\
  dict_get "steps_completed" plan = Some (PyInt completed) /\
  dict_get "steps_failed" plan = Some (PyInt failed) /\
  0 <= completed /\ 0 <= failed /\
  completed + failed + other = total /\
  completed + failed <= total /\
  (Task.steps task = Absent \/ Task.steps task = Present None -> total = 0).
Proof.
  intros steps total completed failed other summary plan.
  assert (Hsum : completed + failed + other = total) by apply counts_partition.
  assert (Hother : 0 <= other) by apply count_nonneg.
  subst summary plan. unfold CreateTask._summarize_task, GetTaskStatus._format_plan.
  rewrite steps_of_agree. fold steps.
  rewrite count_steps_spec, !count_if_spec. cbn [dict_get String.eqb Ascii.eqb Bool.eqb].
  repeat split; try reflexivity; try apply count_nonneg; try lia.
  intros [H | H]; subst total steps; unfold CreateTask.steps_of; now rewrite H.
Qed.

Example summary_of_mixed_task :
  CreateTask._summarize_task Sample.mixed_task =
    [ ("steps_total", PyInt 5); ("steps_completed", PyInt 2);
      ("steps_failed", PyInt 1); ("progress_percentage", PyFloat (FFinite (40 # 1))) ].
Proof. reflexivity. Qed.

Lemma summary_counts_bounded_witness :
  Z.of_nat (length (CreateTask.steps_of (Sample.no_steps_task (Present None)))) = 0.
Proof.
  apply (summary_counts_bounded (Sample.no_steps_task (Present None))).
  right. reflexivity.
Defined.

(** ** Wait timeout *)

Lemma resolve_wait_timeout_spec (settings : Settings) (arguments : gmap string pyval) :
  let default_timeout := INBOX_CREATE_TASK_WAIT_TIMEOUT_SECONDS settings in
  let max_timeout := INBOX_CREATE_TASK_WAIT_MAX_TIMEOUT_SECONDS settings in
  let requested := args_get arguments "wait_timeout_seconds" PyNone in
  CreateTask._resolve_wait_timeout settings arguments =
    match requested with
    | PyNone => Ok (clamp default_timeout 0 max_timeout)
    | _ =>
        match py_int requested with
        | Ok n => Ok (clamp n 0 max_timeout)
        | Raise OverflowError => Raise OverflowError
        | Raise _ => Ok (clamp default_timeout 0 max_timeout)
        end
    end.
Proof.
  intros default_timeout max_timeout requested.
  unfold CreateTask._resolve_wait_timeout. fold requested.
  destruct requested as [| b | z | [q | n |] | s | l | d]; try reflexivity.
  cbn [py_int]. destruct (int_of_str s) as [n | e] eqn:Hs; [reflexivity |].
  unfold int_of_str in Hs.
  destruct (rstrip (lstrip s)) as [| c r];
    [| destruct (Ascii.eqb_spec c "+"); [| destruct (Ascii.eqb_spec c "-")]].
  all: repeat match type of Hs with
       | context [match ?x with _ => _ end] => destruct x
       end; try discriminate; inversion Hs; reflexivity.
Qed.

Example int_of_str_examples :
  int_of_str " 42 " = Ok 42 /\ int_of_str "-7" = Ok (-7) /\
  int_of_str "1_000" = Ok 1000 /\ int_of_str "+5" = Ok 5 /\
  int_of_str "12.5" = Raise ValueError /\ int_of_str "" = Raise ValueError /\
  int_of_str "_1" = Raise ValueError /\ int_of_str "1__0" = Raise ValueError /\
  int_of_str "five" = Raise ValueError.
Proof. repeat split; reflexivity. Qed.

(** Whenever [int(requested)] does not raise [OverflowError], the resolved
    timeout is the clamp of the converted value, or of the configured
    default when the value is absent, [None] or not convertible. *)
Lemma resolve_wait_timeout_clamps (settings : Settings) (arguments : gmap string pyval) :
  let default_timeout := INBOX_CREATE_TASK_WAIT_TIMEOUT_SECONDS settings in
  let max_timeout := INBOX_CREATE_TASK_WAIT_MAX_TIMEOUT_SECONDS settings in
  (forall v n, arguments !! "wait_timeout_seconds" = Some v -> v <> PyNone ->
     py_int v = Ok n ->
     CreateTask._resolve_wait_timeout settings arguments = Ok (clamp n 0 max_timeout)) /\
  (arguments !! "wait_timeout_seconds" = None \/
   arguments !! "wait_timeout_seconds" = Some PyNone ->
     CreateTask._resolve_wait_timeout settings arguments =
       Ok (clamp default_timeout 0 max_timeout)) /\
  (forall v e, arguments !! "wait_timeout_seconds" = Some v ->
     py_int v = Raise e -> e <> OverflowError ->
     CreateTask._resolve_wait_timeout settings arguments =
       Ok (clamp default_timeout 0 max_timeout)).
Proof.
  intros default_timeout max_timeout.
  pose proof (resolve_wait_timeout_spec settings arguments) as H. cbv zeta in H.
  unfold args_get in H. repeat split.
  - intros v n Hv Hnone Hint. rewrite Hv, Hint in H. destruct v; try exact H; congruence.
  - intros [Hv | Hv]; rewrite Hv in H; exact H.
  - intros v e Hv Hint He. rewrite Hv, Hint in H.
    destruct v; destruct e; try exact H; congruence.
Qed.

(** C3 (where the code departs from it).  An infinite float is not
    convertible to an integer: [int] raises [OverflowError], which the
    handler for [TypeError] and [ValueError] does not catch, so
    [_resolve_wait_timeout] raises instead of resolving to the clamped
    default, and so does [execute], which calls it outside its [try]. *)
Theorem resolve_wait_timeout_infinity (settings : Settings) (providers : Providers)
    (context : CreateTask.Context) (w : CreateTask.World) (fuel : nat) :
  let arguments : gmap string pyval :=
    <["wait_timeout_seconds" := PyFloat (FInf false)]> {["goal" := PyStr "Research X"]} in
  py_int (PyFloat (FInf false)) = Raise OverflowError /\
  CreateTask._resolve_wait_timeout settings arguments = Raise OverflowError /\
  CreateTask._resolve_wait_timeout settings arguments <>
    Ok (clamp (INBOX_CREATE_TASK_WAIT_TIMEOUT_SECONDS settings) 0
          (INBOX_CREATE_TASK_WAIT_MAX_TIMEOUT_SECONDS settings)) /\
  CreateTask.execute settings providers fuel arguments context w =
    Some (Raise OverflowError, w).
Proof.
  intros arguments.
  assert (Hr : CreateTask._resolve_wait_timeout settings arguments = Raise OverflowError).
  { unfold CreateTask._resolve_wait_timeout, args_get, arguments.
    rewrite lookup_insert_eq. reflexivity. }
  split; [reflexivity |]. split; [exact Hr |]. split; [rewrite Hr; discriminate |].
  unfold CreateTask.execute.
  replace (arguments !! "goal") with (Some (PyStr "Research X")).
  - now rewrite Hr.
  - unfold arguments. rewrite lookup_insert_ne by discriminate.
    now rewrite lookup_singleton_eq.
Qed.

(** ** Checkpoint serialization *)

Lemma serialize_checkpoint_ok (c : Checkpoint.t) (d : pydict) :
  CreateTask._serialize_checkpoint c = Ok d ->
  exists p q a,
    Checkpoint.plan_id c = Present p /\ Checkpoint.questions c = Present q /\
    Checkpoint.alternatives c = Present a /\
    dict_get "task_id" d = Some (opt_str p) /\
    dict_get "checkpoint_type" d =
      Some (if str_truthy (value_or_self (getattr (Checkpoint.checkpoint_type c) ScNone))
            then opt_str (value_or_self (getattr (Checkpoint.checkpoint_type c) ScNone))
            else PyStr "approval").
Proof.
  unfold CreateTask._serialize_checkpoint.
  destruct (Checkpoint.plan_id c) as [| p]; [discriminate |].
  destruct (Checkpoint.questions c) as [| q]; [discriminate |].
  destruct (Checkpoint.alternatives c) as [| a]; [discriminate |].
  cbn [getattr_strict bind]. intros H. inversion H; subst d; clear H.
  exists p, q, a. repeat split; reflexivity.
Qed.

(** C5 (counterexample).  For a checkpoint that names its task in
    [task_id] and has no [plan_id], the task-creation serializer raises
    [AttributeError] instead of falling back to [task_id]; and the
    status-query formatter has no [checkpoint_type] entry at all. *)
Lemma checkpoint_paths_differ :
  Checkpoint.plan_id Sample.legacy_checkpoint = Absent /\
  Checkpoint.task_id Sample.legacy_checkpoint = Present (Some "task-1") /\
  CreateTask._serialize_checkpoint Sample.legacy_checkpoint =
    Raise (AttributeError "plan_id") /\
  Checkpoint.checkpoint_type Sample.legacy_checkpoint = Absent /\
  dict_get "checkpoint_type" (GetTaskStatus._format_checkpoint Sample.legacy_checkpoint)
    = None /\
  dict_get "checkpoint_type" (GetTaskStatus._format_checkpoint Sample.legacy_checkpoint)
    <> Some (PyStr "approval").
Proof. repeat split; try reflexivity. discriminate. Qed.

(** C5 (amended).  Task-creation path: whenever [_serialize_checkpoint]
    returns, the checkpoint has a [plan_id] attribute, [task_id] is its
    value, and [checkpoint_type] is a non-empty string, "approval" whenever
    the source type is absent or falsy and the source value otherwise.
    Status-query path: [_format_checkpoint] yields [plan_id] read from the
    [plan_id] attribute, falling back to [task_id] when [plan_id] is
    absent, and no [checkpoint_type] entry. *)
Theorem checkpoint_serialization (c : Checkpoint.t) :
  (forall d, CreateTask._serialize_checkpoint c = Ok d ->
     (exists p, Checkpoint.plan_id c = Present p /\
                dict_get "task_id" d = Some (opt_str p)) /\
     (exists s, dict_get "checkpoint_type" d = Some (PyStr s) /\ s <> "" /\
                (falsy_type c -> s = "approval") /\
                (~ falsy_type c ->
                 value_or_self (getattr (Checkpoint.checkpoint_type c) ScNone) = Some s))) /\
  (forall p, Checkpoint.plan_id c = Present p ->
     dict_get "plan_id" (GetTaskStatus._format_checkpoint c) = Some (opt_str p)) /\
  (Checkpoint.plan_id c = Absent ->
     dict_get "plan_id" (GetTaskStatus._format_checkpoint c) =
       Some (opt_str (getattr (Checkpoint.task_id c) None))) /\
  dict_get "checkpoint_type" (GetTaskStatus._format_checkpoint c) = None.
Proof.
  repeat split.
  - destruct (serialize_checkpoint_ok c d H) as (p & q & a & Hp & _ & _ & Ht & _).
    exists p. split; assumption.
  - destruct (serialize_checkpoint_ok c d H) as (p & q & a & _ & _ & _ & _ & Hc).
    unfold falsy_type.
    destruct (value_or_self (getattr (Checkpoint.checkpoint_type c) ScNone)) as [s |].
    + cbn [str_truthy] in Hc. destruct (String.eqb_spec s "") as [He | He].
      * exists "approval". cbn in Hc. repeat split; try assumption; try discriminate.
        intros Hn. contradiction.
      * exists s. cbn in Hc. repeat split; try assumption. intros Hs. contradiction.
    + exists "approval". cbn in Hc. repeat split; try assumption; try discriminate.
      intros Hn. exfalso. apply Hn. exact I.
  - intros p Hp. unfold GetTaskStatus._format_checkpoint, GetTaskStatus.checkpoint_ref.
    rewrite Hp. reflexivity.
  - intros Hp. unfold GetTaskStatus._format_checkpoint, GetTaskStatus.checkpoint_ref.
    rewrite Hp. reflexivity.
Qed.

Lemma checkpoint_serialization_witness :
  (exists p, Checkpoint.plan_id (Sample.checkpoint "task-123" Absent) = Present p /\
     dict_get "task_id"
       [ ("task_id", PyStr "task-123"); ("step_id", PyStr "step-approval");
         ("checkpoint_name", PyStr "approval"); ("description", PyStr "Need approval");
         ("checkpoint_type", PyStr "approval");
         ("preview_data", PyDict [("risk", PyStr "high")]);
         ("questions", PyNone); ("alternatives", PyNone);
         ("created_at", PyStr "2026-01-01T00:00:00");
         ("expires_at", PyStr "2026-01-01T00:30:00") ] = Some (opt_str p)) /\
  dict_get "plan_id" (GetTaskStatus._format_checkpoint Sample.legacy_checkpoint) =
    Some (PyStr "task-1").
Proof.
  split.
  - apply (checkpoint_serialization (Sample.checkpoint "task-123" Absent)). reflexivity.
  - apply (checkpoint_serialization Sample.legacy_checkpoint). reflexivity.
Defined.

(** ** Progress percentage *)

Lemma round_half_even_bounds (y : Q) (n : Z) :
  (0 <= y)%Q -> (y <= inject_Z n)%Q -> 0 <= round_half_even y <= n.
Proof.
  destruct y as [a b]. unfold Qle, round_half_even. cbn [Qnum Qden inject_Z].
  intros Ha Hn.
  assert (Hb : 0 < Z.pos b) by lia.
  pose proof (Z.div_mod a (Z.pos b) ltac:(lia)) as Hdm.
  pose proof (Z.mod_pos_bound a (Z.pos b) Hb) as Hr.
  assert (Hfl : 0 <= a / Z.pos b) by (apply Z.div_pos; lia).
  assert (Hle : a / Z.pos b <= n) by (apply Z.div_le_upper_bound; lia).
  destruct (Z.compare_spec (2 * (a mod Z.pos b)) (Z.pos b)) as [He | Hl | Hg].
  - destruct (Z.even (a / Z.pos b)); nia.
  - lia.
  - nia.
Qed.

Lemma pow2_nonpos (e : Z) :
  e <= 0 -> (pow2 e == / inject_Z (2 ^ (- e)))%Q.
Proof.
  intros He. unfold pow2.
  assert (HP : 0 < 2 ^ (- e)) by (apply Z.pow_pos_nonneg; lia).
  destruct (Z.leb_spec 0 e) as [H0 | H0].
  - assert (e = 0) by lia. subst e. reflexivity.
  - destruct (2 ^ (- e)) as [| p | p]; try lia. reflexivity.
Qed.

Lemma double_exponent_nonpos (q : Q) (B : Z) :
  (0 < q)%Q -> (q <= inject_Z B)%Q -> B <= 2 ^ 52 -> double_exponent q <= 0.
Proof.
  destruct q as [n d]. unfold Qlt, Qle, double_exponent. cbn [Qnum Qden inject_Z].
  intros Hn Hq HB.
  assert (Hlog : Z.log2 n <= 52 + Z.log2 (Z.pos d)).
  { rewrite <- (Z.log2_mul_pow2 (Z.pos d) 52) by lia.
    apply Z.log2_le_mono. nia. }
  destruct (Qle_bool _ _); lia.
Qed.

(** Rounding to binary64 never leaves an interval whose ends are integers
    that a float holds exactly. *)
Lemma to_double_bounds (q : Q) (B : Z) :
  (0 <= q)%Q -> (q <= inject_Z B)%Q -> B <= 2 ^ 52 ->
  (0 <= to_double q /\ to_double q <= inject_Z B)%Q.
Proof.
  intros H0 HB H52. unfold to_double.
  destruct (Qeq_bool q 0) eqn:Ez.
  - apply Qeq_bool_iff in Ez. split; lra.
  - assert (Hpos : (0 < q)%Q).
    { apply Qeq_bool_neq in Ez. apply Qle_lteq in H0 as [H0 | H0]; [exact H0 |].
      symmetry in H0. contradiction. }
    assert (Habs : Qabs q = q).
    { destruct q as [n d]. unfold Qlt in Hpos. cbn in Hpos. cbn [Qabs].
      rewrite Z.abs_eq by lia. reflexivity. }
    rewrite Habs.
    assert (Hle : Qle_bool 0 q = true) by (apply Qle_bool_iff; exact H0).
    rewrite Hle. rewrite Qred_correct.
    pose proof (double_exponent_nonpos q B Hpos HB H52) as He.
    set (e := double_exponent q) in *.
    pose proof (pow2_nonpos e He) as Hp.
    assert (HP : 0 < 2 ^ (- e)) by (apply Z.pow_pos_nonneg; lia).
    set (P := 2 ^ (- e)) in *.
    assert (HPq : (0 < inject_Z P)%Q) by (unfold Qlt; cbn; lia).
    assert (Hy : (q / pow2 e == q * inject_Z P)%Q).
    { rewrite Hp. unfold Qdiv. rewrite Qinv_involutive. reflexivity. }
    destruct (round_half_even_bounds (q / pow2 e) (B * P)) as [Hlo Hhi].
    + rewrite Hy. apply Qmult_le_0_compat; lra.
    + rewrite Hy, inject_Z_mult. apply Qmult_le_compat_r; lra.
    + set (m := round_half_even (q / pow2 e)) in *.
      rewrite Hp.
      assert (Hm0 : (0 <= inject_Z m)%Q) by (unfold Qle; cbn; lia).
      assert (HmB : (inject_Z m <= inject_Z B * inject_Z P)%Q).
      { rewrite <- inject_Z_mult. unfold Qle. cbn. lia. }
      split.
      * apply Qmult_le_0_compat; [exact Hm0 |]. apply Qinv_le_0_compat. lra.
      * apply Qle_shift_div_r; [exact HPq | exact HmB].
Qed.

Lemma round2_in_range (x : Q) :
  (0 <= x)%Q -> (x <= 100)%Q -> (0 <= round2 x /\ round2 x <= 100)%Q.
Proof.
  intros H0 H100. unfold round2.
  destruct (round_half_even_bounds (x * 100) 10000) as [Hlo Hhi].
  - lra.
  - change (inject_Z 10000) with (100 * 100)%Q. lra.
  - apply (to_double_bounds _ 100); [| | lia]; unfold Qle; cbn [Qnum Qden inject_Z]; lia.
Qed.

Lemma true_div_percent_in_range (c t : Z) :
  0 <= c -> c <= t -> 0 < t ->
  (0 <= float_mul (true_div c t) 100 /\ float_mul (true_div c t) 100 <= 100)%Q.
Proof.
  intros Hc Hct Ht. unfold float_mul, true_div.
  assert (Hq : (0 < inject_Z t)%Q) by (unfold Qlt; cbn; lia).
  assert (H0 : (0 <= inject_Z c / inject_Z t)%Q).
  { apply Qle_shift_div_l; [exact Hq |]. unfold Qle. cbn. lia. }
  assert (H1 : (inject_Z c / inject_Z t <= 1)%Q).
  { apply Qle_shift_div_r; [exact Hq |]. unfold Qle. cbn. lia. }
  destruct (to_double_bounds (inject_Z c / inject_Z t) 1) as [Hd0 Hd1];
    [exact H0 | exact H1 | lia |].
  change (inject_Z 1) with 1%Q in Hd1.
  apply (to_double_bounds _ 100); [| | lia].
  - apply Qmult_le_0_compat; lra.
  - change (inject_Z 100) with 100%Q. lra.
Qed.

(** The fallback is computed in binary64, as the interpreter does:
    23 completed steps of 160 give 14.37 (14.375 is not a float, and the
    product lies just below it), 1 of 800 gives 0.12 (the product is
    exactly 0.125, a tie), 2 of 5 give 40.0. *)
Example fallback_progress_examples :
  CreateTask._safe_progress (Sample.no_steps_task Absent) 23 160
    = FFinite (8089590830664253 # 562949953421312) /\
  ((143699999 # 10000000) < (8089590830664253 # 562949953421312))%Q /\
  ((8089590830664253 # 562949953421312) < (143700001 # 10000000))%Q /\
  CreateTask._safe_progress (Sample.no_steps_task Absent) 1 800
    = FFinite (1080863910568919 # 9007199254740992) /\
  CreateTask._safe_progress (Sample.no_steps_task Absent) 2 5 = FFinite (40 # 1).
Proof.
  repeat split; vm_compute; reflexivity.
Qed.

Lemma fallback_progress_in_range (c t : Z) :
  0 <= c -> c <= t -> pct_in_range (fallback_progress c t).
Proof.
  intros Hc Hct. unfold fallback_progress.
  destruct (Z.eqb_spec t 0) as [Ht | Ht].
  - cbn. split; lra.
  - cbn [pct_in_range]. apply round2_in_range;
      apply true_div_percent_in_range; lia.
Qed.

Lemma safe_progress_spec (task : Task.t) (c t : Z) :
  0 <= t ->
  CreateTask._safe_progress task c t =
    match Task.get_progress_percentage task with
    | Present (Ok p) => p
    | _ => fallback_progress c t
    end.
Proof.
  intros Ht. unfold CreateTask._safe_progress, fallback_progress.
  destruct (Task.get_progress_percentage task) as [| [p | e]]; try reflexivity.
  all: destruct (Z.leb_spec t 0), (Z.eqb_spec t 0); try reflexivity; lia.
Qed.

Lemma format_plan_progress (task : Task.t) :
  let steps := CreateTask.steps_of task in
  dict_get "progress" (GetTaskStatus._format_plan task) =
    Some (PyFloat
      match Task.get_progress_percentage task with
      | Present (Ok p) => p
      | _ => fallback_progress (count is_completed_step steps) (Z.of_nat (length steps))
      end).
Proof.
  intros steps. unfold GetTaskStatus._format_plan. rewrite steps_of_agree. fold steps.
  rewrite !count_if_spec. cbn [dict_get String.eqb Ascii.eqb Bool.eqb].
  fold is_completed_step. f_equal. f_equal. unfold fallback_progress.
  destruct (Task.get_progress_percentage task) as [| [p | e]]; try reflexivity.
  all: destruct steps; reflexivity.
Qed.

Lemma summarize_progress (task : Task.t) :
  let steps := CreateTask.steps_of task in
  dict_get "progress_percentage" (CreateTask._summarize_task task) =
    Some (PyFloat
      match Task.get_progress_percentage task with
      | Present (Ok p) => p
      | _ => fallback_progress (count is_completed_step steps) (Z.of_nat (length steps))
      end).
Proof.
  intros steps. unfold CreateTask._summarize_task. fold steps.
  rewrite count_steps_spec. cbn [dict_get String.eqb Ascii.eqb Bool.eqb].
  rewrite safe_progress_spec by lia. reflexivity.
Qed.

(** C6 (counterexample).  The snapshot's own percentage is passed on as it
    is: a snapshot whose method answers 150 gets progress 150, outside
    [0, 100], from both formatters. *)
Lemma progress_not_always_in_range :
  dict_get "progress_percentage" (CreateTask._summarize_task Sample.overshooting_task)
    = Some (PyFloat (FFinite 150)) /\
  dict_get "progress" (GetTaskStatus._format_plan Sample.overshooting_task)
    = Some (PyFloat (FFinite 150)) /\
  ~ pct_in_range (FFinite 150).
Proof.
  split; [reflexivity |]. split; [reflexivity |].
  cbn. intros [_ H]. revert H. unfold Qle. cbn. lia.
Qed.

(** C6 (amended).  For every task snapshot, both formatters compute the
    same percentage: the snapshot's own one whenever that capability is
    present and does not fail, whatever its value; otherwise the fallback,
    which is [0.0] when [steps_total = 0] and otherwise
    [round(steps_completed / steps_total * 100, 2)] as binary64
    arithmetic computes it (division, product and rounding each give the
    nearest float).  The fallback always lies within [0, 100], so the
    computed percentage lies within [0, 100] whenever the snapshot's own
    percentage, if used, does. *)
Theorem progress_percentage_spec (task : Task.t) :
  let steps := CreateTask.steps_of task in
  let steps_total := Z.of_nat (length steps) in
  let steps_completed := count is_completed_step steps in
  exists progress,
    dict_get "progress_percentage" (CreateTask._summarize_task task)
      = Some (PyFloat progress) /\
    dict_get "progress" (GetTaskStatus._format_plan task) = Some (PyFloat progress) /\
    (forall p, Task.get_progress_percentage task = Present (Ok p) -> progress = p) /\
    ((forall p, Task.get_progress_percentage task <> Present (Ok p)) ->
       progress = fallback_progress steps_completed steps_total /\
       (steps_total = 0 -> progress = FFinite 0) /\
       (steps_total <> 0 ->
        progress = FFinite (round2 (float_mul (true_div steps_completed steps_total) 100)))) /\
    pct_in_range (fallback_progress steps_completed steps_total) /\
    ((forall p, Task.get_progress_percentage task = Present (Ok p) -> pct_in_range p) ->
       pct_in_range progress).
Proof.
  intros steps steps_total steps_completed.
  assert (Hrange : pct_in_range (fallback_progress steps_completed steps_total)).
  { apply fallback_progress_in_range; [apply count_nonneg |].
    pose proof (counts_partition steps). pose proof (count_nonneg is_failed_step steps).
    pose proof (count_nonneg
      (fun s => negb (is_completed_step s) && negb (is_failed_step s)) steps).
    subst steps_completed steps_total. lia. }
  eexists. split; [apply summarize_progress |]. split; [apply format_plan_progress |].
  fold steps steps_total steps_completed.
  destruct (Task.get_progress_percentage task) as [| [p | e]].
  - split; [intros q Hq; discriminate |]. split; [| split; [assumption | now intros _]].
    intros _. split; [reflexivity |]. unfold fallback_progress.
    split; [intros ->; reflexivity |].
    intros Hne. destruct (Z.eqb_spec steps_total 0); congruence.
  - split; [intros q Hq; congruence |]. split; [intros Hne; now elim (Hne p) |].
    split; [assumption |]. intros Hown. now apply Hown.
  - split; [intros q Hq; discriminate |]. split; [| split; [assumption | now intros _]].
    intros _. split; [reflexivity |]. unfold fallback_progress.
    split; [intros ->; reflexivity |].
    intros Hne. destruct (Z.eqb_spec steps_total 0); congruence.
Qed.

Lemma progress_percentage_spec_witness :
  exists progress,
    dict_get "progress_percentage" (CreateTask._summarize_task Sample.mixed_task)
      = Some (PyFloat progress) /\
    progress = FFinite (40 # 1) /\ pct_in_range progress.
Proof.
  destruct (progress_percentage_spec Sample.mixed_task)
    as (progress & Hs & _ & _ & Hfb & _ & Hin).
  exists progress. split; [exact Hs |]. split.
  - destruct Hfb as (_ & _ & Hv); [discriminate |].
    rewrite Hv by discriminate. reflexivity.
  - apply Hin. discriminate.
Defined.

(** ** Bounded wait *)

Lemma Qltb_true (a b : Q) : Qltb a b = true <-> (a < b)%Q.
Proof.
  unfold Qltb. rewrite negb_true_iff. split.
  - intros H. apply Qnot_le_lt. intros Hle. apply Qle_bool_iff in Hle. congruence.
  - intros H. destruct (Qle_bool b a) eqn:E; [| reflexivity].
    apply Qle_bool_iff in E. lra.
Qed.

Lemma Qltb_false (a b : Q) : Qltb a b = false <-> (b <= a)%Q.
Proof.
  unfold Qltb. rewrite negb_false_iff. apply Qle_bool_iff.
Qed.

Lemma poll_interval_floor (settings : Settings) :
  (1 # 5 <= CreateTask.poll_interval settings)%Q.
Proof.
  unfold CreateTask.poll_interval, py_max.
  destruct (Qltb (2 # 10) _) eqn:E.
  - apply Qltb_true in E. lra.
  - lra.
Qed.

(** The sleep of one tick either lasts a full fifth of a second or reaches
    the deadline. *)
Lemma sleep_duration_progress (settings : Settings) (remaining : Q) :
  let d := py_min (CreateTask.poll_interval settings) (py_max (1 # 100) remaining) in
  (1 # 5 <= d \/ remaining <= d)%Q.
Proof.
  intros d. subst d. pose proof (poll_interval_floor settings) as Hp.
  unfold py_min. destruct (Qltb _ (CreateTask.poll_interval settings)) eqn:E.
  - right. unfold py_max. destruct (Qltb (1 # 100) remaining) eqn:E1.
    + lra.
    + apply Qltb_false in E1. exact E1.
  - left. exact Hp.
Qed.

(** C1.  At any tick of the wait loop, when the fetch succeeds with a
    snapshot whose canonical status is completed, failed, cancelled or
    checkpoint, the poller returns on that tick: the snapshot, its status
    and [timed_out = false]; that fetch is the last backend call and no
    sleep follows it. *)
Theorem terminal_fetch_returns_at_once (settings : Settings) (fuel : nat)
    (task_use_cases : TaskUseCases) (task_id : string) (deadline : Q)
    (last_task : option Task.t) (last_status : string) (w : CreateTask.World)
    (t : Task.t) :
  get_task task_use_cases (CreateTask.get_task_count w) (PyStr task_id) = Ok (Some t) ->
  str_in (task_status_value t) ["completed"; "failed"; "cancelled"; "checkpoint"] = true ->
  exists w',
    CreateTask.wait_loop settings (S fuel) task_use_cases task_id deadline
      last_task last_status w
      = Some ((Some t, task_status_value t, false), w') /\
    CreateTask.calls w' = CreateTask.CallGetTask (PyStr task_id) :: CreateTask.calls w /\
    CreateTask.get_task_count w' = S (CreateTask.get_task_count w) /\
    CreateTask.sleeps w' = CreateTask.sleeps w.
Proof.
  intros Hfetch Hterminal. eexists. split.
  - cbn [CreateTask.wait_loop]. unfold CreateTask.await_get_task.
    rewrite Hfetch. unfold CreateTask.terminal_statuses. rewrite Hterminal. reflexivity.
  - repeat split.
Qed.

Lemma terminal_fetch_returns_at_once_witness :
  exists w',
    CreateTask.wait_loop Sample.settings 1
      (Sample.use_cases (fun _ => Ok (Some Sample.completed_snapshot)) [])
      "task-123" 5 None "planning" Sample.world0
      = Some ((Some Sample.completed_snapshot, "completed", false), w') /\
    CreateTask.calls w' = [CreateTask.CallGetTask (PyStr "task-123")] /\
    CreateTask.get_task_count w' = 1%nat /\
    CreateTask.sleeps w' = [].
Proof.
  apply (terminal_fetch_returns_at_once Sample.settings 0
           (Sample.use_cases (fun _ => Ok (Some Sample.completed_snapshot)) [])
           "task-123" 5 None "planning" Sample.world0 Sample.completed_snapshot);
    reflexivity.
Defined.

(** A tick that fetches a snapshot in a status outside the four goes on
    to the deadline check. *)
Example non_terminal_fetch_keeps_polling :
  CreateTask.wait_loop Sample.settings 1
    (Sample.use_cases (fun _ => Ok (Some Sample.planning_snapshot)) [])
    "task-123" 5 None "planning" Sample.world0 = None /\
  option_map fst
    (CreateTask._wait_for_terminal_status Sample.settings 1
       (Sample.use_cases (fun _ => Ok (Some Sample.planning_snapshot)) [])
       "task-123" 0 Sample.world0)
  = Some (Some Sample.planning_snapshot, "planning", true).
Proof. split; reflexivity. Qed.

Lemma time_budget_S (n : nat) : (time_budget (S n) == time_budget n + (1 # 5))%Q.
Proof.
  unfold time_budget. rewrite Nat2Z.inj_succ. unfold Z.succ. rewrite inject_Z_plus.
  change (inject_Z 1) with 1%Q. ring.
Qed.

Lemma time_budget_nonneg (n : nat) : (0 <= time_budget n)%Q.
Proof.
  unfold time_budget.
  assert (0 <= inject_Z (Z.of_nat n))%Q by (unfold Qle; cbn; lia). lra.
Qed.

(** With every fetch raising, the loop keeps [None] and "planning" and
    returns once the clock has reached the deadline; [n] ticks after the
    first are enough when at most [n] fifths of a second remain. *)
Lemma wait_loop_all_fetches_fail (settings : Settings) (task_use_cases : TaskUseCases)
    (task_id : string) (deadline : Q) :
  (forall n id, exists e, get_task task_use_cases n id = Raise e) ->
  (forall n, (0 <= get_task_latency task_use_cases n)%Q) ->
  forall (n : nat) (w : CreateTask.World),
    (deadline - CreateTask.now w <= time_budget n)%Q ->
    exists w',
      (deadline <= CreateTask.now w')%Q /\
      forall fuel, (n < fuel)%nat ->
        CreateTask.wait_loop settings fuel task_use_cases task_id deadline
          None "planning" w
        = Some ((None, "planning", true), w').
Proof.
  intros Hfail Hlat. induction n as [| n IH]; intros w Hrem.
  - pose proof (Hlat (CreateTask.get_task_count w)) as Hl.
    assert (H0 : (time_budget 0 == 0)%Q) by reflexivity.
    eexists. split; [| intros [| fuel] Hfuel; [lia |]].
    2: { cbn [CreateTask.wait_loop]. unfold CreateTask.await_get_task.
         destruct (Hfail (CreateTask.get_task_count w) (PyStr task_id)) as [e ->].
         match goal with |- context [Qle_bool ?a ?b] =>
           assert (Hd : Qle_bool a b = true) end.
         { apply Qle_bool_iff. cbn [CreateTask.now CreateTask.advance CreateTask.log_call].
           lra. }
         rewrite Hd. reflexivity. }
    cbn [CreateTask.now CreateTask.advance CreateTask.log_call]. lra.
  - pose proof (Hlat (CreateTask.get_task_count w)) as Hl.
    destruct (Hfail (CreateTask.get_task_count w) (PyStr task_id)) as [e He].
    set (w1 := CreateTask.advance (get_task_latency task_use_cases (CreateTask.get_task_count w))
                 (CreateTask.log_call (CreateTask.CallGetTask (PyStr task_id)) w)).
    assert (Hnow1 : (CreateTask.now w1 == CreateTask.now w
                     + get_task_latency task_use_cases (CreateTask.get_task_count w))%Q)
      by reflexivity.
    destruct (Qle_bool deadline (CreateTask.now w1)) eqn:Hd.
    + exists w1. split; [now apply Qle_bool_iff |].
      intros [| fuel] Hfuel; [lia |].
      cbn [CreateTask.wait_loop]. unfold CreateTask.await_get_task.
      rewrite He. fold w1. rewrite Hd. reflexivity.
    + assert (Hlt : (CreateTask.now w1 < deadline)%Q).
      { apply Qnot_le_lt. intros Hle. apply Qle_bool_iff in Hle. congruence. }
      set (d := py_min (CreateTask.poll_interval settings)
                  (py_max (1 # 100) (deadline - CreateTask.now w1))).
      destruct (IH (CreateTask.sleep d w1)) as (w' & Hw' & Hrun).
      { pose proof (sleep_duration_progress settings (deadline - CreateTask.now w1)) as Hp.
        cbv zeta in Hp. fold d in Hp.
        pose proof (time_budget_S n) as HS. pose proof (time_budget_nonneg n) as Hnn.
        cbn [CreateTask.now CreateTask.sleep]. destruct Hp as [Hp | Hp]; lra. }
      exists w'. split; [exact Hw' |].
      intros [| fuel] Hfuel; [lia |].
      cbn [CreateTask.wait_loop]. unfold CreateTask.await_get_task.
      rewrite He. fold w1. rewrite Hd. fold d. apply Hrun. lia.
Qed.

Lemma wait_loop_more_fuel (settings : Settings) (task_use_cases : TaskUseCases)
    (task_id : string) (deadline : Q) (fuel fuel' : nat) :
  (fuel <= fuel')%nat ->
  forall last_task last_status w r,
    CreateTask.wait_loop settings fuel task_use_cases task_id deadline
      last_task last_status w = Some r ->
    CreateTask.wait_loop settings fuel' task_use_cases task_id deadline
      last_task last_status w = Some r.
Proof.
  revert fuel'. induction fuel as [| fuel IH]; intros fuel' Hle last_task last_status w r.
  - discriminate.
  - destruct fuel' as [| fuel']; [lia |].
    cbn [CreateTask.wait_loop].
    destruct (CreateTask.await_get_task task_use_cases (PyStr task_id) w) as [fetched w1].
    assert (Hrec : forall lt ls w2,
      CreateTask.wait_loop settings fuel task_use_cases task_id deadline lt ls w2 = Some r ->
      CreateTask.wait_loop settings fuel' task_use_cases task_id deadline lt ls w2 = Some r)
      by (intros; apply IH; [lia | assumption]).
    destruct fetched as [[t |] | e];
      repeat match goal with
      | |- context [if ?b then _ else _] => destruct b
      end; auto.
Qed.

(** C2.  When every fetch raises (and the clock does not run backwards),
    the poller does not raise and does not stop before the deadline: it
    returns, with enough fuel for the ticks that fit into the timeout, the
    triple [(None, "planning", True)] at a clock reading at or past the
    deadline, and it never returns anything else. *)
Theorem all_fetches_fail_times_out (settings : Settings) (task_use_cases : TaskUseCases)
    (task_id : string) (timeout_seconds : Z) (w : CreateTask.World) :
  (forall n id, exists e, get_task task_use_cases n id = Raise e) ->
  (forall n, (0 <= get_task_latency task_use_cases n)%Q) ->
  exists w',
    (CreateTask.now w + inject_Z (Z.max 0 timeout_seconds) <= CreateTask.now w')%Q /\
    (forall fuel, (Z.to_nat (5 * Z.max 0 timeout_seconds) < fuel)%nat ->
       CreateTask._wait_for_terminal_status settings fuel task_use_cases task_id
         timeout_seconds w = Some ((None, "planning", true), w')) /\
    (forall fuel r,
       CreateTask._wait_for_terminal_status settings fuel task_use_cases task_id
         timeout_seconds w = Some r -> r = ((None, "planning", true), w')).
Proof.
  intros Hfail Hlat.
  set (n := Z.to_nat (5 * Z.max 0 timeout_seconds)).
  set (deadline := (CreateTask.now w + inject_Z (Z.max 0 timeout_seconds))%Q).
  destruct (wait_loop_all_fetches_fail settings task_use_cases task_id deadline
              Hfail Hlat n w) as (w' & Hw' & Hrun).
  { unfold time_budget. subst n. rewrite Z2Nat.id by lia.
    rewrite inject_Z_mult. change (inject_Z 5) with 5%Q. subst deadline. lra. }
  exists w'. split; [exact Hw' |]. split.
  - intros fuel Hfuel. unfold CreateTask._wait_for_terminal_status. fold deadline.
    now apply Hrun.
  - intros fuel r Hr. unfold CreateTask._wait_for_terminal_status in Hr. fold deadline in Hr.
    apply (wait_loop_more_fuel settings task_use_cases task_id deadline fuel
             (Nat.max fuel (S n))) in Hr; [| lia].
    rewrite Hrun in Hr by lia. congruence.
Qed.

Lemma all_fetches_fail_times_out_witness :
  exists w',
    (CreateTask.now Sample.world0 + inject_Z (Z.max 0 1) <= CreateTask.now w')%Q /\
    CreateTask._wait_for_terminal_status Sample.settings 6 Sample.failing_use_cases
      "task-123" 1 Sample.world0 = Some ((None, "planning", true), w').
Proof.
  destruct (all_fetches_fail_times_out Sample.settings Sample.failing_use_cases
              "task-123" 1 Sample.world0) as (w' & Hnow & Hrun & _).
  - intros n id. exists (RuntimeError "backend down"). reflexivity.
  - intros n. cbn. unfold Qle. cbn. lia.
  - exists w'. split; [exact Hnow |]. apply Hrun. cbn. lia.
Defined.

(** ** Status query: ownership *)

Lemma execute_single_foreign (plan_id include_checkpoints : pyval) (user_id : string)
    (ds : option DelegationService) (tuc : option TaskUseCases)
    (cuc : option CheckpointUseCases) (plan : Task.t) :
  match ds, tuc with
  | Some d, _ => get_plan d plan_id
  | None, Some t => get_task t 0 plan_id
  | None, None => Raise (AttributeError "get_task")
  end = Ok (Some plan) ->
  Task.user_id plan <> user_id ->
  GetTaskStatus.execute_single plan_id include_checkpoints user_id ds tuc cuc
    = Ok access_denied.
Proof.
  intros Hplan Hown. unfold GetTaskStatus.execute_single. rewrite Hplan. cbn [bind].
  destruct (String.eqb_spec (Task.user_id plan) user_id) as [He | He]; [contradiction |].
  reflexivity.
Qed.

(** C4 (counterexample).  The same request, by the same user, is answered
    "Access denied to this task" when the task exists and belongs to
    someone else, and "Task not found: task-9" when it does not exist: the
    caller can tell the two apart. *)
Lemma foreign_task_existence_is_visible :
  let arguments : gmap string pyval := {["plan_id" := PyStr "task-9"]} in
  let exists_elsewhere :=
    Sample.status_context (Sample.use_cases (fun _ => Ok (Some Sample.foreign_task)) []) None in
  let does_not_exist :=
    Sample.status_context (Sample.use_cases (fun _ => Ok None) []) None in
  fst (GetTaskStatus.execute Sample.no_providers arguments exists_elsewhere Sample.no_globals)
    = CreateTask.error_result [Lit "Access denied to this task"] /\
  fst (GetTaskStatus.execute Sample.no_providers arguments does_not_exist Sample.no_globals)
    = CreateTask.error_result [Lit "Task not found: "; Fmt (PyStr "task-9")] /\
  fst (GetTaskStatus.execute Sample.no_providers arguments exists_elsewhere Sample.no_globals)
    <> fst (GetTaskStatus.execute Sample.no_providers arguments does_not_exist
              Sample.no_globals).
Proof.
  assert (H1 : fst (GetTaskStatus.execute Sample.no_providers {["plan_id" := PyStr "task-9"]}
                 (Sample.status_context
                    (Sample.use_cases (fun _ => Ok (Some Sample.foreign_task)) []) None)
                 Sample.no_globals)
               = CreateTask.error_result [Lit "Access denied to this task"])
    by (vm_compute; reflexivity).
  assert (H2 : fst (GetTaskStatus.execute Sample.no_providers {["plan_id" := PyStr "task-9"]}
                 (Sample.status_context (Sample.use_cases (fun _ => Ok None) []) None)
                 Sample.no_globals)
               = CreateTask.error_result [Lit "Task not found: "; Fmt (PyStr "task-9")])
    by (vm_compute; reflexivity).
  cbv zeta. rewrite H1, H2. repeat split. discriminate.
Qed.

Lemma execute_answer (providers : Providers) (arguments : gmap string pyval)
    (context : GetTaskStatus.Context) (g : Globals) (user_id : string) :
  GetTaskStatus.ctx_user_id context = Some user_id -> user_id <> "" ->
  fst (GetTaskStatus.execute providers arguments context g)
    = answer providers arguments context g user_id.
Proof.
  intros Hu Hne. unfold GetTaskStatus.execute, answer, resolved_task_use_cases,
    resolved_checkpoint_use_cases, _get_task_use_cases, _get_checkpoint_use_cases.
  rewrite Hu. cbn [str_truthy].
  destruct (String.eqb_spec user_id "") as [He | _]; [contradiction |]. cbn [negb].
  destruct (py_truthy (args_get arguments "include_checkpoints" (PyBool true)));
  destruct (GetTaskStatus.ctx_delegation_service context) as [ds |];
  destruct (GetTaskStatus.ctx_task_use_cases context) as [tuc |];
  destruct (GetTaskStatus.ctx_checkpoint_use_cases context) as [cuc |];
  destruct g as [gt gc]; cbn [_task_use_cases _checkpoint_use_cases fst];
  try destruct gt as [gt |]; try destruct gc as [gc |];
  try destruct (provider_get_task_use_cases providers) as [pt | et];
  try destruct (provider_get_checkpoint_use_cases providers) as [pc | ec];
  cbn [_task_use_cases _checkpoint_use_cases fst];
  repeat match goal with
  | |- context [match ?x with Ok _ => _ | Raise _ => _ end] => destruct x
  end; reflexivity.
Qed.

(** C4 (amended).  When the requested plan exists and its owner differs
    from the requesting user, the result is the fixed denial: [success] is
    false, there is no data, and the error is the constant text "Access
    denied to this task", whatever the task, its owner, the other arguments
    and the provider; it carries no task field.  (It is a different result
    from the one for an unknown id.) *)
Theorem foreign_task_is_denied (providers : Providers) (arguments : gmap string pyval)
    (context : GetTaskStatus.Context) (g : Globals) (user_id : string) (plan : Task.t) :
  GetTaskStatus.ctx_user_id context = Some user_id -> user_id <> "" ->
  py_truthy (args_get arguments "plan_id" PyNone) = true ->
  fetched_plan providers context g (args_get arguments "plan_id" PyNone) = Ok (Some plan) ->
  Task.user_id plan <> user_id ->
  fst (GetTaskStatus.execute providers arguments context g) = access_denied /\
  success access_denied = false /\
  data access_denied = None /\
  message access_denied = None /\
  error access_denied = Some [Lit "Access denied to this task"].
Proof.
  intros Hu Hne Hid Hplan Hown. split; [| repeat split].
  rewrite (execute_answer providers arguments context g user_id Hu Hne).
  unfold answer. rewrite Hid. unfold fetched_plan in Hplan.
  destruct (GetTaskStatus.ctx_delegation_service context) as [ds |];
    destruct (resolved_task_use_cases providers context g) as [tuc |];
    try discriminate.
  all: erewrite execute_single_foreign; [reflexivity | exact Hplan | exact Hown].
Qed.

Lemma foreign_task_is_denied_witness :
  fst (GetTaskStatus.execute Sample.no_providers {["plan_id" := PyStr "task-9"]}
         (Sample.status_context
            (Sample.use_cases (fun _ => Ok (Some Sample.foreign_task)) []) None)
         Sample.no_globals) = access_denied.
Proof.
  apply (foreign_task_is_denied Sample.no_providers {["plan_id" := PyStr "task-9"]}
           (Sample.status_context
              (Sample.use_cases (fun _ => Ok (Some Sample.foreign_task)) []) None)
           Sample.no_globals "user-1" Sample.foreign_task).
  - reflexivity.
  - discriminate.
  - vm_compute. reflexivity.
  - vm_compute. reflexivity.
  - discriminate.
Defined.

(** ** Status query: listing mode *)

Lemma active_filter_agrees (l : list Task.t) :
  List.filter (fun p => str_in (task_status_value p) GetTaskStatus.active_status_values) l
    = List.filter is_active l.
Proof. reflexivity. Qed.

Lemma terminal_filter_agrees (l : list Task.t) :
  List.filter (fun p => str_in (task_status_value p) GetTaskStatus.terminal_status_values) l
    = List.filter is_terminal l.
Proof. reflexivity. Qed.

Lemma recent_completed_spec (l : list Task.t) :
  (length (firstn 5 (List.filter is_terminal l)) <= 5)%nat /\
  Forall (fun t => is_terminal t = true) (firstn 5 (List.filter is_terminal l)).
Proof.
  split; [apply firstn_le_length |].
  apply Forall_take. apply List.Forall_forall. intros t Ht.
  apply List.filter_In in Ht. tauto.
Qed.

Lemma execute_listing_ok (include_completed include_checkpoints limit : pyval)
    (user_id : string) (ds : option DelegationService) (tuc : option TaskUseCases)
    (cuc : option CheckpointUseCases) (r : ToolResult) :
  GetTaskStatus.execute_listing include_completed include_checkpoints limit user_id
    ds tuc cuc = Ok r ->
  exists fetched d,
    match ds, tuc with
    | Some s, _ => get_user_plans s user_id PyNone limit
    | None, Some t => list_tasks t user_id PyNone limit
    | None, None => Raise (AttributeError "list_tasks")
    end = Ok fetched /\
    success r = true /\ data r = Some d /\
    dict_get "active_tasks" d
      = Some (GetTaskStatus.formatted
                (map GetTaskStatus._format_plan (List.filter is_active fetched))) /\
    dict_get "active_count" d = Some (PyInt (count is_active fetched)) /\
    dict_get "completed_tasks" d =
      (if py_truthy include_completed
       then Some (GetTaskStatus.formatted
                    (map GetTaskStatus._format_plan
                       (firstn 5 (List.filter is_terminal fetched))))
       else None) /\
    dict_get "completed_count" d =
      (if py_truthy include_completed
       then Some (PyInt (Z.of_nat (length (firstn 5 (List.filter is_terminal fetched)))))
       else None).
Proof.
  unfold GetTaskStatus.execute_listing. intros H.
  destruct (match ds, tuc with
            | Some s, _ => get_user_plans s user_id PyNone limit
            | None, Some t => list_tasks t user_id PyNone limit
            | None, None => Raise (AttributeError "list_tasks")
            end) as [fetched | e]; [| discriminate].
  cbn [bind] in H. rewrite active_filter_agrees, terminal_filter_agrees in H.
  exists fetched.
  destruct (py_truthy include_checkpoints);
    [destruct (GetTaskStatus.fetch_checkpoints ds cuc _ _) as [cps | e];
       [| discriminate] |];
    cbn [bind] in H; inversion H; subst r; clear H;
    destruct (py_truthy include_completed);
    eexists; (split; [reflexivity |]); (split; [reflexivity |]);
    (split; [reflexivity |]); repeat split.
Qed.

Lemma execute_without_user (providers : Providers) (arguments : gmap string pyval)
    (context : GetTaskStatus.Context) (g : Globals) :
  str_truthy (GetTaskStatus.ctx_user_id context) = false ->
  GetTaskStatus.execute providers arguments context g
    = (CreateTask.error_result [Lit "User context not available"], g).
Proof.
  intros H. unfold GetTaskStatus.execute.
  destruct (GetTaskStatus.ctx_user_id context) as [u |]; [| reflexivity].
  rewrite H. reflexivity.
Qed.

(** C7.  In listing mode (no plan id), whenever the call succeeds on the
    fetched task list: [active_count] is the number of fetched tasks whose
    canonical status is planning, ready, executing or checkpoint;
    [completed_tasks] holds only tasks whose canonical status is completed,
    failed or cancelled, at most 5 of them (the first five fetched), with
    [completed_count] their number; and the two keys are in the result
    exactly when [include_completed] is true. *)
Theorem listing_mode_counts (providers : Providers) (arguments : gmap string pyval)
    (context : GetTaskStatus.Context) (g : Globals) :
  let result := fst (GetTaskStatus.execute providers arguments context g) in
  let include_completed := args_get arguments "include_completed" (PyBool false) in
  py_truthy (args_get arguments "plan_id" PyNone) = false ->
  success result = true ->
  exists user_id fetched d completed,
    GetTaskStatus.ctx_user_id context = Some user_id /\
    fetched_tasks providers context g user_id (args_get arguments "limit" (PyInt 10))
      = Ok fetched /\
    data result = Some d /\
    dict_get "active_count" d = Some (PyInt (count is_active fetched)) /\
    completed = firstn 5 (List.filter is_terminal fetched) /\
    (length completed <= 5)%nat /\
    Forall (fun t => is_terminal t = true) completed /\
    (py_truthy include_completed = true ->
       dict_get "completed_tasks" d
         = Some (GetTaskStatus.formatted (map GetTaskStatus._format_plan completed)) /\
       dict_get "completed_count" d = Some (PyInt (Z.of_nat (length completed)))) /\
    dict_has "completed_tasks" d = py_truthy include_completed /\
    dict_has "completed_count" d = py_truthy include_completed.
Proof.
  intros result include_completed Hlist Hok. subst result.
  destruct (str_truthy (GetTaskStatus.ctx_user_id context)) eqn:Hu.
  2: { rewrite execute_without_user in Hok by exact Hu. discriminate. }
  destruct (GetTaskStatus.ctx_user_id context) as [user_id |] eqn:Hctx; [| discriminate].
  assert (Hne : user_id <> "").
  { intros ->. discriminate. }
  rewrite (execute_answer providers arguments context g user_id Hctx Hne) in *.
  unfold answer in *. rewrite Hlist in *. unfold fetched_tasks.
  destruct (GetTaskStatus.execute_listing _ _ _ _ _ _ _) as [r | e] eqn:Hrun.
  2: { destruct (GetTaskStatus.ctx_delegation_service context),
         (resolved_task_use_cases providers context g); discriminate. }
  destruct (execute_listing_ok _ _ _ _ _ _ _ _ Hrun)
    as (fetched & d & Hfetch & _ & Hd & _ & Hcount & Htasks & Hnum).
  fold include_completed in Htasks, Hnum.
  destruct (recent_completed_spec fetched) as [Hlen Hall].
  assert (Hres : match GetTaskStatus.ctx_delegation_service context,
                       resolved_task_use_cases providers context g with
                 | None, None =>
                     CreateTask.error_result [Lit "Delegation service not available"]
                 | _, _ => r
                 end = r).
  { destruct (GetTaskStatus.ctx_delegation_service context),
      (resolved_task_use_cases providers context g); try reflexivity. discriminate. }
  rewrite Hres in *.
  exists user_id, fetched, d, (firstn 5 (List.filter is_terminal fetched)).
  split; [reflexivity |]. split.
  { destruct (GetTaskStatus.ctx_delegation_service context),
      (resolved_task_use_cases providers context g); try exact Hfetch. discriminate. }
  split; [exact Hd |]. split; [exact Hcount |]. split; [reflexivity |].
  split; [exact Hlen |]. split; [exact Hall |].
  unfold dict_has. rewrite Htasks, Hnum.
  destruct (py_truthy include_completed); repeat split; discriminate.
Qed.

Lemma listing_mode_counts_witness :
  exists d,
    data (fst (GetTaskStatus.execute Sample.no_providers
                 {["include_completed" := PyBool true]}
                 (Sample.status_context
                    (Sample.use_cases (fun _ => Ok None) Sample.nine_tasks) None)
                 Sample.no_globals)) = Some d /\
    dict_get "active_count" d = Some (PyInt 2) /\
    dict_get "completed_count" d = Some (PyInt 5) /\
    dict_has "completed_tasks" d = true.
Proof.
  destruct (listing_mode_counts Sample.no_providers
              {["include_completed" := PyBool true]}
              (Sample.status_context
                 (Sample.use_cases (fun _ => Ok None) Sample.nine_tasks) None)
              Sample.no_globals)
    as (user_id & fetched & d & completed & _ & Hfetch & Hd & Hactive & Hc & _ & _
        & Hin & Hhas & _).
  - vm_compute. reflexivity.
  - vm_compute. reflexivity.
  - exists d. split; [exact Hd |].
    assert (Hf : fetched = Sample.nine_tasks).
    { vm_compute in Hfetch. now inversion Hfetch. }
    subst fetched completed. split; [exact Hactive |]. split.
    + apply Hin. vm_compute. reflexivity.
    + rewrite Hhas. vm_compute. reflexivity.
Defined.

(** Without [include_completed] the two keys are missing. *)
Example listing_without_completed :
  let result :=
    fst (GetTaskStatus.execute Sample.no_providers ∅
           (Sample.status_context
              (Sample.use_cases (fun _ => Ok None) Sample.nine_tasks) None)
           Sample.no_globals) in
  success result = true /\
  option_map (dict_has "completed_tasks") (data result) = Some false /\
  option_map (dict_has "completed_count") (data result) = Some false /\
  option_map (dict_get "active_count") (data result) = Some (Some (PyInt 2)) /\
  option_map (dict_get "checkpoint_count") (data result) = Some (Some (PyInt 0)).
Proof. vm_compute. repeat split. Qed.

(** ** Status query: provider availability *)

Lemma single_without_checkpoint_provider (plan_id include_checkpoints : pyval)
    (user_id : string) (tuc : option TaskUseCases) :
  GetTaskStatus.execute_single plan_id include_checkpoints user_id None tuc None
    = GetTaskStatus.execute_single plan_id include_checkpoints user_id None tuc
        (Some no_pending).
Proof. reflexivity. Qed.

Lemma listing_without_checkpoint_provider
    (include_completed include_checkpoints limit : pyval) (user_id : string)
    (tuc : option TaskUseCases) :
  GetTaskStatus.execute_listing include_completed include_checkpoints limit user_id
    None tuc None
  = GetTaskStatus.execute_listing include_completed include_checkpoints limit user_id
      None tuc (Some no_pending).
Proof. reflexivity. Qed.

Lemma resolved_with_checkpoint_use_cases (providers : Providers)
    (context : GetTaskStatus.Context) (g : Globals) (c : CheckpointUseCases) (v : pyval) :
  resolved_task_use_cases providers (with_checkpoint_use_cases context c) g
    = resolved_task_use_cases providers context g /\
  resolved_checkpoint_use_cases providers (with_checkpoint_use_cases context c) g v
    = Some c.
Proof.
  unfold resolved_task_use_cases, resolved_checkpoint_use_cases, with_checkpoint_use_cases.
  cbn. split; [reflexivity |].
  destruct (py_truthy v), (GetTaskStatus.ctx_delegation_service context); reflexivity.
Qed.

(** C8.  When, after resolution, there is neither a delegation service nor
    task use cases, the call fails ([success] false).  When task use cases
    are there and only the checkpoint provider could not be had, the call
    does not fail for that: it answers exactly as with a checkpoint provider
    that reports nothing pending; in particular a listing whose task fetch
    succeeds is a success with an empty [pending_checkpoints], and a
    single-task query for the user's own task is a success without a
    [pending_checkpoints] entry. *)
Theorem provider_availability (providers : Providers) (arguments : gmap string pyval)
    (context : GetTaskStatus.Context) (g : Globals) :
  let result := fst (GetTaskStatus.execute providers arguments context g) in
  let plan_id := args_get arguments "plan_id" PyNone in
  let include_checkpoints := args_get arguments "include_checkpoints" (PyBool true) in
  let limit := args_get arguments "limit" (PyInt 10) in
  (GetTaskStatus.ctx_delegation_service context = None ->
   resolved_task_use_cases providers context g = None ->
   success result = false) /\
  (forall tuc user_id,
     GetTaskStatus.ctx_user_id context = Some user_id -> user_id <> "" ->
     GetTaskStatus.ctx_delegation_service context = None ->
     resolved_task_use_cases providers context g = Some tuc ->
     resolved_checkpoint_use_cases providers context g include_checkpoints = None ->
     result = fst (GetTaskStatus.execute providers arguments
                     (with_checkpoint_use_cases context no_pending) g) /\
     (py_truthy plan_id = false ->
      forall fetched, list_tasks tuc user_id PyNone limit = Ok fetched ->
        success result = true /\
        exists d, data result = Some d /\
          (py_truthy include_checkpoints = true ->
             dict_get "pending_checkpoints" d = Some (PyList []) /\
             dict_get "checkpoint_count" d = Some (PyInt 0))) /\
     (py_truthy plan_id = true ->
      forall plan, get_task tuc 0 plan_id = Ok (Some plan) ->
        Task.user_id plan = user_id ->
        success result = true /\
        exists d, data result = Some d /\ dict_get "pending_checkpoints" d = None)).
Proof.
  intros result plan_id include_checkpoints limit. split.
  - intros Hds Htuc. subst result.
    destruct (str_truthy (GetTaskStatus.ctx_user_id context)) eqn:Hu.
    2: { rewrite execute_without_user by exact Hu. reflexivity. }
    destruct (GetTaskStatus.ctx_user_id context) as [user_id |] eqn:Hctx; [| discriminate].
    assert (Hne : user_id <> "") by (intros ->; discriminate).
    rewrite (execute_answer providers arguments context g user_id Hctx Hne).
    unfold answer. rewrite Hds, Htuc. reflexivity.
  - intros tuc user_id Hctx Hne Hds Htuc Hcuc.
    assert (Hres : result = answer providers arguments context g user_id)
      by (apply execute_answer; assumption).
    rewrite Hres. clear Hres result.
    destruct (resolved_with_checkpoint_use_cases providers context g no_pending
                include_checkpoints) as [Ht' Hc'].
    split; [| split].
    + rewrite (execute_answer providers arguments
                 (with_checkpoint_use_cases context no_pending) g user_id)
        by (try assumption; reflexivity).
      unfold answer. fold plan_id include_checkpoints limit.
      rewrite Ht', Hc', Htuc, Hcuc.
      change (GetTaskStatus.ctx_delegation_service
                (with_checkpoint_use_cases context no_pending))
        with (GetTaskStatus.ctx_delegation_service context).
      rewrite Hds. reflexivity.
    + intros Hlist fetched Hfetch. unfold answer.
      fold plan_id include_checkpoints limit. rewrite Hds, Htuc, Hcuc, Hlist.
      unfold GetTaskStatus.execute_listing. rewrite Hfetch. cbn [bind].
      unfold GetTaskStatus.fetch_checkpoints.
      destruct (py_truthy include_checkpoints); cbn [bind];
        (split; [reflexivity |]); eexists; (split; [reflexivity |]);
        destruct (py_truthy (args_get arguments "include_completed" (PyBool false)));
        intros Hc; try discriminate; split; reflexivity.
    + intros Hsingle plan Hplan Hown. unfold answer.
      fold plan_id include_checkpoints limit. rewrite Hds, Htuc, Hcuc, Hsingle.
      unfold GetTaskStatus.execute_single. rewrite Hplan. cbn [bind].
      rewrite Hown, String.eqb_refl. cbn [negb].
      unfold GetTaskStatus.fetch_checkpoints.
      destruct (py_truthy include_checkpoints); cbn [bind List.filter];
        (split; [reflexivity |]); eexists; (split; [reflexivity |]); reflexivity.
Qed.

Lemma provider_availability_witness :
  success (fst (GetTaskStatus.execute Sample.no_providers ∅ Sample.bare_context
                  Sample.no_globals)) = false /\
  success (fst (GetTaskStatus.execute
                  (Sample.providers
                     (Ok (Sample.use_cases (fun _ => Ok None) Sample.nine_tasks))
                     (Raise (RuntimeError "unavailable")))
                  ∅ Sample.bare_context Sample.no_globals)) = true.
Proof.
  split.
  - apply (provider_availability Sample.no_providers ∅ Sample.bare_context
             Sample.no_globals); reflexivity.
  - destruct (provider_availability
                (Sample.providers
                   (Ok (Sample.use_cases (fun _ => Ok None) Sample.nine_tasks))
                   (Raise (RuntimeError "unavailable")))
                ∅ Sample.bare_context Sample.no_globals) as [_ H].
    assert (Hne : "user-1" <> "") by discriminate.
    destruct (H (Sample.use_cases (fun _ => Ok None) Sample.nine_tasks) "user-1"
                eq_refl Hne eq_refl eq_refl eq_refl) as (_ & Hlisting & _).
    exact (proj1 (Hlisting eq_refl Sample.nine_tasks eq_refl)).
Defined.

Example unavailable_task_provider_message :
  fst (GetTaskStatus.execute Sample.no_providers ∅ Sample.bare_context Sample.no_globals)
    = CreateTask.error_result [Lit "Delegation service not available"].
Proof. reflexivity. Qed.

(** ** Task creation without waiting *)

Lemma dict_get_update_planning (task_id : string) (goal : pyval) :
  let d := dict_update
             [("task_id", PyStr task_id); ("goal", goal); ("timed_out", PyBool false)]
             [("status", PyStr "planning")] in
  dict_get "status" d = Some (PyStr "planning") /\
  dict_get "timed_out" d = Some (PyBool false) /\
  dict_get "task_id" d = Some (PyStr task_id) /\
  dict_get "goal" d = Some goal.
Proof. repeat split. Qed.

(** Without waiting, [execute_try] performs no fetch and no sleep and does
    not depend on the fuel. *)
Lemma execute_try_no_wait (settings : Settings) (providers : Providers) (fuel : nat)
    (goal constraints : pyval) (timeout : Z) (user_id conversation_id : string)
    (organization_id : pyval) (w : CreateTask.World) :
  exists out w',
    CreateTask.execute_try settings providers fuel goal constraints false timeout
      user_id conversation_id organization_id w = Some (out, w') /\
    CreateTask.get_task_count w' = CreateTask.get_task_count w /\
    CreateTask.sleeps w' = CreateTask.sleeps w /\
    CreateTask.now w' = CreateTask.now w.
Proof.
  unfold CreateTask.execute_try.
  destruct (_get_task_use_cases providers (CreateTask.globals w)) as [[tuc | e] g'].
  2: { do 2 eexists. split; [reflexivity |]. repeat split. }
  destruct (create_task tuc _ _ _ _ _ _) as [task | e].
  2: { do 2 eexists. split; [reflexivity |]. repeat split. }
  destruct (link_conversation tuc _ _) as [[] | e].
  2: { do 2 eexists. split; [reflexivity |]. repeat split. }
  cbn [negb]. do 2 eexists. split; [reflexivity |]. repeat split.
Qed.

(** C9 (counterexample).  A call with [wait_for_completion = false], a
    goal, a user id and a conversation id, whose backend refuses to create
    the task: the answer is [success = false] without data, so there is
    neither a status "planning" nor [timed_out]. *)
Lemma create_without_waiting_can_fail :
  exists r w',
    CreateTask.execute Sample.settings
      (Sample.providers (Ok Scenario.refusing) (Raise (RuntimeError "unavailable"))) 0
      Scenario.no_wait_arguments Sample.create_context Sample.world0 = Some (Ok r, w') /\
    Scenario.no_wait_arguments !! "wait_for_completion" = Some (PyBool false) /\
    CreateTask.ctx_user_id Sample.create_context = Some "user-123" /\
    CreateTask.ctx_conversation_id Sample.create_context = Some "conv-123" /\
    success r = false /\ data r = None /\
    error r = Some [Lit "Failed to create task: "; FmtExn (RuntimeError "quota exceeded")] /\
    CreateTask.get_task_count w' = 0%nat.
Proof.
  do 2 eexists. split; [vm_compute; reflexivity |].
  repeat split; vm_compute; reflexivity.
Qed.

(** C9 (amended).  A [create_task] call with [wait_for_completion = false]
    returns for any fuel, and the backend's [get_task] is not invoked
    during it (nor is there any sleep).  When the call has a goal, a
    non-empty user id and conversation id, a wait timeout that resolves,
    constraints that merge, and the backend provides the task use cases,
    creates the task and links the conversation, the result is
    [success = true] with [status] "planning" and [timed_out] false, and
    the only backend calls are the creation and the linking. *)
Theorem create_without_waiting (settings : Settings) (providers : Providers) (fuel : nat)
    (arguments : gmap string pyval) (context : CreateTask.Context)
    (w : CreateTask.World) (flag : pyval) :
  arguments !! "wait_for_completion" = Some flag -> py_truthy flag = false ->
  (exists out w',
     CreateTask.execute settings providers fuel arguments context w = Some (out, w') /\
     CreateTask.get_task_count w' = CreateTask.get_task_count w /\
     CreateTask.sleeps w' = CreateTask.sleeps w) /\
  (forall goal user_id conversation_id timeout constraints task_use_cases task,
     arguments !! "goal" = Some goal ->
     CreateTask.ctx_user_id context = Some user_id -> user_id <> "" ->
     CreateTask.ctx_conversation_id context = Some conversation_id ->
     conversation_id <> "" ->
     CreateTask._resolve_wait_timeout settings arguments = Ok timeout ->
     merged_constraints arguments context = Ok constraints ->
     fst (_get_task_use_cases providers (CreateTask.globals w)) = Ok task_use_cases ->
     create_task task_use_cases user_id
       (getattr (CreateTask.ctx_organization_id context) (PyStr "")) goal
       (if py_truthy constraints then constraints else PyNone)
       [("source", PyStr "inbox_chat"); ("conversation_id", PyStr conversation_id)]
       true = Ok task ->
     link_conversation task_use_cases (Task.id task) conversation_id = Ok tt ->
     exists r w' d,
       CreateTask.execute settings providers fuel arguments context w = Some (Ok r, w') /\
       success r = true /\ data r = Some d /\
       dict_get "status" d = Some (PyStr "planning") /\
       dict_get "timed_out" d = Some (PyBool false) /\
       dict_get "task_id" d = Some (PyStr (Task.id task)) /\
       CreateTask.calls w' =
         CreateTask.CallLinkConversation (Task.id task) conversation_id
           :: CreateTask.CallCreateTask :: CreateTask.calls w).
Proof.
  intros Hflag Hfalse.
  assert (Hwait : py_truthy (args_get arguments "wait_for_completion" (PyBool true)) = false)
    by (unfold args_get; now rewrite Hflag).
  split.
  - unfold CreateTask.execute. rewrite Hwait.
    destruct (arguments !! "goal") as [goal |];
      [| do 2 eexists; split; [reflexivity | split; reflexivity]].
    destruct (CreateTask._resolve_wait_timeout settings arguments) as [timeout | e];
      [| do 2 eexists; split; [reflexivity | split; reflexivity]].
    match goal with |- context [match ?c with Ok _ => _ | Raise _ => _ end] =>
      destruct c as [constraints | e] end;
      [| do 2 eexists; split; [reflexivity | split; reflexivity]].
    destruct (CreateTask.ctx_user_id context) as [user_id |];
      [| do 2 eexists; split; [reflexivity | split; reflexivity]].
    destruct (CreateTask.ctx_conversation_id context) as [conversation_id |];
      [| do 2 eexists; split; [reflexivity | split; reflexivity]].
    match goal with |- context [if ?b then _ else _] => destruct b end;
      [do 2 eexists; split; [reflexivity | split; reflexivity] |].
    destruct (execute_try_no_wait settings providers fuel goal constraints timeout
                user_id conversation_id
                (getattr (CreateTask.ctx_organization_id context) (PyStr "")) w)
      as (out & w' & Hrun & Hcount & Hsleeps & _).
    rewrite Hrun. destruct out as [r | e]; do 2 eexists;
      (split; [reflexivity | split; assumption]).
  - intros goal user_id conversation_id timeout constraints task_use_cases task
      Hgoal Huser Hune Hconv Hcne Htimeout Hconstraints Hresolve Hcreate Hlink.
    unfold CreateTask.execute. rewrite Hgoal, Hwait, Htimeout.
    unfold merged_constraints in Hconstraints. rewrite Hconstraints.
    rewrite Huser, Hconv. cbn [str_truthy].
    destruct (String.eqb_spec user_id "") as [|_]; [contradiction |].
    destruct (String.eqb_spec conversation_id "") as [|_]; [contradiction |].
    cbn [negb orb]. unfold CreateTask.execute_try.
    destruct (_get_task_use_cases providers (CreateTask.globals w)) as [resolved g'].
    cbn [fst] in Hresolve. subst resolved. rewrite Hcreate, Hlink. cbn [negb].
    do 3 eexists. split; [reflexivity |]. split; [reflexivity |].
    split; [reflexivity |]. repeat split.
Qed.

Lemma create_without_waiting_witness :
  exists r w' d,
    CreateTask.execute Sample.settings Sample.create_providers 0
      (<["wait_for_completion" := PyBool false]> {["goal" := PyStr "Research X"]})
      Sample.create_context Sample.world0 = Some (Ok r, w') /\
    success r = true /\ data r = Some d /\
    dict_get "status" d = Some (PyStr "planning") /\
    dict_get "timed_out" d = Some (PyBool false) /\
    CreateTask.get_task_count w' = 0%nat.
Proof.
  set (arguments := (<["wait_for_completion" := PyBool false]>
                       {["goal" := PyStr "Research X"]} : gmap string pyval)).
  assert (Hflag : arguments !! "wait_for_completion" = Some (PyBool false))
    by (vm_compute; reflexivity).
  assert (Hgoal : arguments !! "goal" = Some (PyStr "Research X"))
    by (vm_compute; reflexivity).
  assert (Htimeout : CreateTask._resolve_wait_timeout Sample.settings arguments = Ok 10)
    by (vm_compute; reflexivity).
  assert (Hconstraints : merged_constraints arguments Sample.create_context = Ok (PyDict []))
    by (vm_compute; reflexivity).
  assert (Hu : "user-123" <> "") by discriminate.
  assert (Hc : "conv-123" <> "") by discriminate.
  destruct (create_without_waiting Sample.settings Sample.create_providers 0
              arguments Sample.create_context Sample.world0 (PyBool false) Hflag eq_refl)
    as [_ H].
  destruct (H (PyStr "Research X") "user-123" "conv-123" 10 (PyDict [])
              Sample.failing_use_cases Sample.planning_snapshot
              Hgoal eq_refl Hu eq_refl Hc Htimeout Hconstraints eq_refl eq_refl eq_refl)
    as (r & w' & d & Hrun & Hok & Hd & Hstatus & Htimed & _ & Hcalls).
  exists r, w', d. repeat split; try assumption.
  unfold CreateTask.get_task_count. rewrite Hcalls. reflexivity.
Defined.


(** * Further properties of the two tools *)

(** ** The wait loop, tick by tick *)

Lemma wait_loop_tick (settings : Settings) (fuel : nat) (task_use_cases : TaskUseCases)
    (task_id : string) (deadline : Q) (last_task : option Task.t) (last_status : string)
    (w : CreateTask.World) :
  let w1 := wait_tick_world task_use_cases task_id w in
  let next lt ls :=
    if Qle_bool deadline (CreateTask.now w1)
    then Some ((lt, ls, true), w1)
    else CreateTask.wait_loop settings fuel task_use_cases task_id deadline lt ls
           (CreateTask.sleep (wait_tick_sleep settings deadline w1) w1) in
  CreateTask.wait_loop settings (S fuel) task_use_cases task_id deadline
    last_task last_status w
  = match get_task task_use_cases (CreateTask.get_task_count w) (PyStr task_id) with
    | Ok (Some t) =>
        if str_in (task_status_value t) CreateTask.terminal_statuses
        then Some ((Some t, task_status_value t, false), w1)
        else next (Some t) (task_status_value t)
    | _ => next last_task last_status
    end.
Proof.
  cbn [CreateTask.wait_loop]. unfold CreateTask.await_get_task, wait_tick_world,
    wait_tick_sleep.
  destruct (get_task task_use_cases (CreateTask.get_task_count w) (PyStr task_id))
    as [[t |] | e]; reflexivity.
Qed.

Lemma wait_tick_sleep_bounds (settings : Settings) (deadline : Q) (w1 : CreateTask.World) :
  (CreateTask.now w1 < deadline)%Q ->
  sleep_in_bounds settings (wait_tick_sleep settings deadline w1) /\
  (CreateTask.now w1 + wait_tick_sleep settings deadline w1
     <= deadline + (1 # 100))%Q.
Proof.
  intros Hlt. pose proof (poll_interval_floor settings) as Hp.
  unfold sleep_in_bounds, wait_tick_sleep, py_min, py_max.
  destruct (Qltb (1 # 100) (deadline - CreateTask.now w1)) eqn:E1.
  - apply Qltb_true in E1.
    destruct (Qltb (deadline - CreateTask.now w1) (CreateTask.poll_interval settings)) eqn:E2.
    + apply Qltb_true in E2. repeat split; lra.
    + apply Qltb_false in E2. repeat split; lra.
  - apply Qltb_false in E1.
    destruct (Qltb (1 # 100) (CreateTask.poll_interval settings)) eqn:E2.
    + apply Qltb_true in E2. repeat split; lra.
    + apply Qltb_false in E2. repeat split; lra.
Qed.

(** Whatever the fetches answer, the loop returns; [n] ticks after the
    first are enough when at most [n] fifths of a second remain. *)
Lemma wait_loop_returns (settings : Settings) (task_use_cases : TaskUseCases)
    (task_id : string) (deadline : Q) :
  (forall n, (0 <= get_task_latency task_use_cases n)%Q) ->
  forall (n : nat) (last_task : option Task.t) (last_status : string)
         (w : CreateTask.World),
    (deadline - CreateTask.now w <= time_budget n)%Q ->
    exists r,
      CreateTask.wait_loop settings (S n) task_use_cases task_id deadline
        last_task last_status w = Some r.
Proof.
  intros Hlat. induction n as [| n IH]; intros last_task last_status w Hrem;
    rewrite wait_loop_tick; cbv zeta;
    pose proof (Hlat (CreateTask.get_task_count w)) as Hl;
    set (w1 := wait_tick_world task_use_cases task_id w);
    assert (Hnow1 : (CreateTask.now w1 == CreateTask.now w
                     + get_task_latency task_use_cases (CreateTask.get_task_count w))%Q)
      by reflexivity.
  - assert (H0 : (time_budget 0 == 0)%Q) by reflexivity.
    assert (Hd : Qle_bool deadline (CreateTask.now w1) = true)
      by (apply Qle_bool_iff; lra).
    rewrite Hd.
    destruct (get_task task_use_cases (CreateTask.get_task_count w) (PyStr task_id))
      as [[t |] | e]; try (eexists; reflexivity).
    destruct (str_in (task_status_value t) CreateTask.terminal_statuses);
      eexists; reflexivity.
  - assert (Hnext : forall lt ls,
              exists r,
                (if Qle_bool deadline (CreateTask.now w1)
                 then Some ((lt, ls, true), w1)
                 else CreateTask.wait_loop settings (S n) task_use_cases task_id deadline
                        lt ls (CreateTask.sleep (wait_tick_sleep settings deadline w1) w1))
                = Some r).
    { intros lt ls. destruct (Qle_bool deadline (CreateTask.now w1)) eqn:Hd;
        [eexists; reflexivity |].
      assert (Hlt : (CreateTask.now w1 < deadline)%Q).
      { apply Qnot_le_lt. intros Hle. apply Qle_bool_iff in Hle. congruence. }
      apply IH.
      pose proof (sleep_duration_progress settings (deadline - CreateTask.now w1)) as Hp.
      cbv zeta in Hp. fold (wait_tick_sleep settings deadline w1) in Hp.
      pose proof (time_budget_S n) as HS. pose proof (time_budget_nonneg n) as Hnn.
      cbn [CreateTask.now CreateTask.sleep]. destruct Hp as [Hp | Hp]; lra. }
    destruct (get_task task_use_cases (CreateTask.get_task_count w) (PyStr task_id))
      as [[t |] | e]; try apply Hnext.
    destruct (str_in (task_status_value t) CreateTask.terminal_statuses);
      [eexists; reflexivity | apply Hnext].
Qed.

(** What a return of the loop says about its result and the clock. *)
Lemma wait_loop_result (settings : Settings) (task_use_cases : TaskUseCases)
    (task_id : string) (deadline : Q) (fuel : nat) :
  forall (last_task : option Task.t) (last_status : string) (w w' : CreateTask.World)
         (snapshot : option Task.t) (status : string) (timed_out : bool),
    snapshot_matches last_task last_status ->
    str_in last_status CreateTask.terminal_statuses = false ->
    CreateTask.wait_loop settings fuel task_use_cases task_id deadline
      last_task last_status w = Some ((snapshot, status, timed_out), w') ->
    match snapshot with
    | Some t => status = task_status_value t
    | None => status = last_status /\ last_task = None
    end /\
    (if timed_out
     then str_in status CreateTask.terminal_statuses = false /\
          (deadline <= CreateTask.now w')%Q
     else str_in status CreateTask.terminal_statuses = true /\ snapshot <> None).
Proof.
  induction fuel as [| fuel IH];
    intros last_task last_status w w' snapshot status timed_out Hm Hnt Hrun;
    [discriminate |].
  rewrite wait_loop_tick in Hrun. cbv zeta in Hrun.
  set (w1 := wait_tick_world task_use_cases task_id w) in *.
  assert (Hnext : forall lt ls,
            snapshot_matches lt ls ->
            str_in ls CreateTask.terminal_statuses = false ->
            (lt = None -> ls = last_status /\ last_task = None) ->
            (if Qle_bool deadline (CreateTask.now w1)
             then Some ((lt, ls, true), w1)
             else CreateTask.wait_loop settings fuel task_use_cases task_id deadline lt ls
                    (CreateTask.sleep (wait_tick_sleep settings deadline w1) w1))
            = Some ((snapshot, status, timed_out), w') ->
            match snapshot with
            | Some t => status = task_status_value t
            | None => status = last_status /\ last_task = None
            end /\
            (if timed_out
             then str_in status CreateTask.terminal_statuses = false /\
                  (deadline <= CreateTask.now w')%Q
             else str_in status CreateTask.terminal_statuses = true /\ snapshot <> None)).
  { intros lt ls Hlm Hlnt Hnone H.
    destruct (Qle_bool deadline (CreateTask.now w1)) eqn:Hd.
    - inversion H; subst. apply Qle_bool_iff in Hd. split; [| split; assumption].
      destruct snapshot as [t |]; [exact Hlm | now apply Hnone].
    - destruct (IH _ _ _ _ _ _ _ Hlm Hlnt H) as [Hs Ht]. split; [| exact Ht].
      destruct snapshot as [t |]; [exact Hs |].
      destruct Hs as [Hs ->]. destruct (Hnone eq_refl) as [-> ->]. now split. }
  destruct (get_task task_use_cases (CreateTask.get_task_count w) (PyStr task_id))
    as [[t |] | e].
  - destruct (str_in (task_status_value t) CreateTask.terminal_statuses) eqn:Ht.
    + inversion Hrun; subst. repeat split; [exact Ht | discriminate].
    + apply (Hnext (Some t) (task_status_value t)); try assumption;
        [reflexivity | discriminate].
  - apply (Hnext last_task last_status); try assumption.
    intros ->. now split.
  - apply (Hnext last_task last_status); try assumption.
    intros ->. now split.
Qed.

(** What a return of the loop says about the backend calls, the sleeps
    and the singletons. *)
Lemma wait_loop_accounting (settings : Settings) (task_use_cases : TaskUseCases)
    (task_id : string) (deadline : Q) (fuel : nat) :
  forall (last_task : option Task.t) (last_status : string) (w w' : CreateTask.World)
         (r : CreateTask.WaitResult),
    CreateTask.wait_loop settings fuel task_use_cases task_id deadline
      last_task last_status w = Some (r, w') ->
    exists (k : nat) (naps : list Q),
      (1 <= k <= fuel)%nat /\
      CreateTask.calls w'
        = (repeat (CreateTask.CallGetTask (PyStr task_id)) k ++ CreateTask.calls w)%list /\
      CreateTask.sleeps w' = (naps ++ CreateTask.sleeps w)%list /\
      S (length naps) = k /\
      Forall (sleep_in_bounds settings) naps /\
      CreateTask.globals w' = CreateTask.globals w.
Proof.
  induction fuel as [| fuel IH]; intros last_task last_status w w' r Hrun;
    [discriminate |].
  rewrite wait_loop_tick in Hrun. cbv zeta in Hrun.
  set (w1 := wait_tick_world task_use_cases task_id w) in *.
  assert (Hstop : forall r0, Some (r0, w1) = Some (r, w') ->
            exists (k : nat) (naps : list Q),
              (1 <= k <= S fuel)%nat /\
              CreateTask.calls w'
                = (repeat (CreateTask.CallGetTask (PyStr task_id)) k
                     ++ CreateTask.calls w)%list /\
              CreateTask.sleeps w' = (naps ++ CreateTask.sleeps w)%list /\
              S (length naps) = k /\
              Forall (sleep_in_bounds settings) naps /\
              CreateTask.globals w' = CreateTask.globals w).
  { intros r0 H. inversion H; subst. exists 1%nat, []. repeat split; try lia.
    constructor. }
  assert (Hnext : forall lt ls,
            (if Qle_bool deadline (CreateTask.now w1)
             then Some ((lt, ls, true), w1)
             else CreateTask.wait_loop settings fuel task_use_cases task_id deadline lt ls
                    (CreateTask.sleep (wait_tick_sleep settings deadline w1) w1))
            = Some (r, w') ->
            exists (k : nat) (naps : list Q),
              (1 <= k <= S fuel)%nat /\
              CreateTask.calls w'
                = (repeat (CreateTask.CallGetTask (PyStr task_id)) k
                     ++ CreateTask.calls w)%list /\
              CreateTask.sleeps w' = (naps ++ CreateTask.sleeps w)%list /\
              S (length naps) = k /\
              Forall (sleep_in_bounds settings) naps /\
              CreateTask.globals w' = CreateTask.globals w).
  { intros lt ls H. destruct (Qle_bool deadline (CreateTask.now w1)) eqn:Hd;
      [now apply (Hstop (lt, ls, true)) |].
    assert (Hlt : (CreateTask.now w1 < deadline)%Q).
    { apply Qnot_le_lt. intros Hle. apply Qle_bool_iff in Hle. congruence. }
    destruct (IH _ _ _ _ _ H) as (k & naps & Hk & Hcalls & Hsleeps & Hlen & Hall & Hg).
    exists (S k), (naps ++ [wait_tick_sleep settings deadline w1])%list.
    split; [lia |]. split.
    { rewrite Hcalls. cbn [CreateTask.calls CreateTask.sleep w1 wait_tick_world
                            CreateTask.advance CreateTask.log_call].
      change (repeat (CreateTask.CallGetTask (PyStr task_id)) (S k))
        with (CreateTask.CallGetTask (PyStr task_id)
                :: repeat (CreateTask.CallGetTask (PyStr task_id)) k).
      rewrite List.repeat_cons, <- List.app_assoc. reflexivity. }
    split.
    { rewrite Hsleeps, <- List.app_assoc. reflexivity. }
    split.
    { rewrite List.length_app. cbn [length]. lia. }
    split.
    { apply Forall_app. split; [exact Hall |]. constructor; [| constructor].
      now apply wait_tick_sleep_bounds. }
    rewrite Hg. reflexivity. }
  destruct (get_task task_use_cases (CreateTask.get_task_count w) (PyStr task_id))
    as [[t |] | e]; try (now apply (Hnext last_task last_status)).
  destruct (str_in (task_status_value t) CreateTask.terminal_statuses);
    [now apply (Hstop (Some t, task_status_value t, false)) |
     now apply (Hnext (Some t) (task_status_value t))].
Qed.


(** ** The bounded wait as a whole *)

(** X1.  With a clock that does not run backwards, the bounded wait
    returns whatever the fetches answer (snapshots, [None] or exceptions,
    in any order): some number of ticks is enough, and the result is the
    same for every larger number. *)
Theorem bounded_wait_always_returns (settings : Settings) (task_use_cases : TaskUseCases)
    (task_id : string) (timeout_seconds : Z) (w : CreateTask.World) :
  (forall n, (0 <= get_task_latency task_use_cases n)%Q) ->
  exists (ticks : nat) (r : CreateTask.WaitResult * CreateTask.World),
    forall fuel, (ticks <= fuel)%nat ->
      CreateTask._wait_for_terminal_status settings fuel task_use_cases task_id
        timeout_seconds w = Some r.
Proof.
  intros Hlat. unfold CreateTask._wait_for_terminal_status.
  set (n := Z.to_nat (5 * Z.max 0 timeout_seconds)).
  set (deadline := (CreateTask.now w + inject_Z (Z.max 0 timeout_seconds))%Q).
  destruct (wait_loop_returns settings task_use_cases task_id deadline Hlat n
              None "planning" w) as [r Hr].
  { unfold time_budget. subst n. rewrite Z2Nat.id by lia.
    rewrite inject_Z_mult. change (inject_Z 5) with 5%Q. subst deadline. lra. }
  exists (S n), r. intros fuel Hfuel.
  apply (wait_loop_more_fuel settings task_use_cases task_id deadline (S n) fuel);
    [lia | exact Hr].
Qed.

Lemma bounded_wait_always_returns_witness :
  exists (ticks : nat) (r : CreateTask.WaitResult * CreateTask.World),
    forall fuel, (ticks <= fuel)%nat ->
      CreateTask._wait_for_terminal_status Sample.settings fuel Scenario.scripted
        "task-123" 1 Sample.world0 = Some r.
Proof.
  apply (bounded_wait_always_returns Sample.settings Scenario.scripted
           "task-123" 1 Sample.world0).
  intros n. cbn. unfold Qle. cbn. lia.
Defined.

(** X2.  Whenever the bounded wait returns, the reported status belongs to
    the reported snapshot (it is "planning" when there is none); a result
    with [timed_out = false] carries a snapshot whose status is completed,
    failed, cancelled or checkpoint; a result with [timed_out = true]
    carries a status that is none of these, and the clock has reached the
    deadline. *)
Theorem bounded_wait_result_consistent (settings : Settings)
    (task_use_cases : TaskUseCases) (task_id : string) (timeout_seconds : Z)
    (w w' : CreateTask.World) (fuel : nat)
    (snapshot : option Task.t) (status : string) (timed_out : bool) :
  CreateTask._wait_for_terminal_status settings fuel task_use_cases task_id
    timeout_seconds w = Some ((snapshot, status, timed_out), w') ->
  snapshot_matches snapshot status /\
  (timed_out = false ->
     snapshot <> None /\
     str_in status ["completed"; "failed"; "cancelled"; "checkpoint"] = true) /\
  (timed_out = true ->
     str_in status ["completed"; "failed"; "cancelled"; "checkpoint"] = false /\
     (CreateTask.now w + inject_Z (Z.max 0 timeout_seconds) <= CreateTask.now w')%Q).
Proof.
  unfold CreateTask._wait_for_terminal_status. intros Hrun.
  destruct (wait_loop_result settings task_use_cases task_id _ fuel None "planning"
              w w' snapshot status timed_out eq_refl eq_refl Hrun) as [Hs Ht].
  split; [| split].
  - destruct snapshot as [t |]; [exact Hs | exact (proj1 Hs)].
  - intros ->. destruct Ht as [Hin Hsome]. split; assumption.
  - intros ->. exact Ht.
Qed.

Lemma bounded_wait_result_consistent_witness :
  snapshot_matches (Some Sample.completed_snapshot) "completed".
Proof.
  apply (bounded_wait_result_consistent Sample.settings Scenario.scripted "task-123" 1
           Sample.world0
           {| CreateTask.now := 440000 # 400000;
              CreateTask.calls := repeat (CreateTask.CallGetTask (PyStr "task-123")) 3;
              CreateTask.sleeps := [60 # 200; 1 # 2];
              CreateTask.globals := Sample.no_globals |}
           6 (Some Sample.completed_snapshot) "completed" false).
  vm_compute. reflexivity.
Defined.

(** X3.  Whenever the bounded wait returns, the only backend calls it made
    are [k >= 1] calls of [get_task] for the given task, with one sleep
    between two consecutive calls and none after the last; every sleep
    lasts at least a hundredth of a second and at most the poll interval;
    the provider singletons are untouched. *)
Theorem bounded_wait_accounting (settings : Settings) (task_use_cases : TaskUseCases)
    (task_id : string) (timeout_seconds : Z) (w w' : CreateTask.World) (fuel : nat)
    (r : CreateTask.WaitResult) :
  CreateTask._wait_for_terminal_status settings fuel task_use_cases task_id
    timeout_seconds w = Some (r, w') ->
  exists (k : nat) (naps : list Q),
    (1 <= k)%nat /\
    CreateTask.calls w'
      = (repeat (CreateTask.CallGetTask (PyStr task_id)) k ++ CreateTask.calls w)%list /\
    CreateTask.sleeps w' = (naps ++ CreateTask.sleeps w)%list /\
    S (length naps) = k /\
    Forall (sleep_in_bounds settings) naps /\
    CreateTask.globals w' = CreateTask.globals w.
Proof.
  unfold CreateTask._wait_for_terminal_status.
  set (deadline := (CreateTask.now w + inject_Z (Z.max 0 timeout_seconds))%Q).
  intros Hrun.
  destruct (wait_loop_accounting settings task_use_cases task_id deadline fuel
              None "planning" w w' r Hrun)
    as (k & naps & Hk & Hcalls & Hsleeps & Hlen & Hall & Hg).
  exists k, naps. repeat (split; [first [assumption | lia] |]). exact Hg.
Qed.

Lemma bounded_wait_accounting_witness :
  exists (k : nat) (naps : list Q),
    (1 <= k)%nat /\ S (length naps) = k /\ Forall (sleep_in_bounds Sample.settings) naps.
Proof.
  destruct (bounded_wait_accounting Sample.settings Scenario.scripted "task-123" 1
              Sample.world0
              {| CreateTask.now := 440000 # 400000;
                 CreateTask.calls := repeat (CreateTask.CallGetTask (PyStr "task-123")) 3;
                 CreateTask.sleeps := [60 # 200; 1 # 2];
                 CreateTask.globals := Sample.no_globals |}
              6 (Some Sample.completed_snapshot, "completed", false))
    as (k & naps & Hk & _ & _ & Hlen & Hall & _).
  - vm_compute. reflexivity.
  - exists k, naps. repeat split; assumption.
Defined.



(** ** Wait timeout: bounds *)

(** X6.  Whenever [_resolve_wait_timeout] returns, the timeout is at least
    0 and at most [max(0, MAX_WAIT)], whatever was requested and whatever
    the configured default is; an integer request within [0, MAX_WAIT] is
    returned as it is. *)
Theorem resolved_timeout_bounded (settings : Settings) (arguments : gmap string pyval)
    (timeout : Z) :
  CreateTask._resolve_wait_timeout settings arguments = Ok timeout ->
  0 <= timeout <= Z.max 0 (INBOX_CREATE_TASK_WAIT_MAX_TIMEOUT_SECONDS settings) /\
  (forall z, arguments !! "wait_timeout_seconds" = Some (PyInt z) ->
     0 <= z <= INBOX_CREATE_TASK_WAIT_MAX_TIMEOUT_SECONDS settings -> timeout = z).
Proof.
  intros H. split.
  - rewrite resolve_wait_timeout_spec in H. cbv zeta in H. unfold clamp in H.
    destruct (args_get arguments "wait_timeout_seconds" PyNone);
      try destruct (py_int _) as [n | []]; inversion H; lia.
  - intros z Hz Hrange. unfold CreateTask._resolve_wait_timeout, args_get in H.
    rewrite Hz in H. cbn in H. inversion H. lia.
Qed.

Lemma resolved_timeout_bounded_witness :
  0 <= 30 <= Z.max 0 (INBOX_CREATE_TASK_WAIT_MAX_TIMEOUT_SECONDS Sample.settings).
Proof.
  apply (resolved_timeout_bounded Sample.settings
           {["wait_timeout_seconds" := PyStr " 1_000 "]} 30).
  vm_compute. reflexivity.
Defined.

(** ** Provider singletons *)

(** X8.  Run without another invocation overlapping it, a getter
    memoizes: a call that finds the singletons as a successful call left
    them returns the same provider and changes nothing, whatever the
    factory would build then; a failed construction stores nothing, so the
    next call tries again; neither getter touches the other singleton.
    The await sits between the test of the singleton and the store: taken
    step by step and on its own, an invocation is the getter just
    described; when two first invocations overlap (both test the empty
    singleton before either stores), each returns the provider built for
    it and the singleton keeps the one stored last. *)
Theorem provider_getters_memoize (P P' : Providers) (g : Globals) :
  (forall t g1, _get_task_use_cases P g = (Ok t, g1) ->
     _get_task_use_cases P' g1 = (Ok t, g1) /\
     _checkpoint_use_cases g1 = _checkpoint_use_cases g) /\
  (forall e g1, _get_task_use_cases P g = (Raise e, g1) ->
     g1 = g /\ _get_task_use_cases P' g1 = _get_task_use_cases P' g) /\
  (forall c g1, _get_checkpoint_use_cases P g = (Ok c, g1) ->
     _get_checkpoint_use_cases P' g1 = (Ok c, g1) /\
     _task_use_cases g1 = _task_use_cases g) /\
  (forall e g1, _get_checkpoint_use_cases P g = (Raise e, g1) ->
     g1 = g /\ _get_checkpoint_use_cases P' g1 = _get_checkpoint_use_cases P' g) /\
  (let '(s1, g1) := task_getter_step (provider_get_task_use_cases P) AtTest g in
   task_getter_step (provider_get_task_use_cases P) s1 g1
     = (Returned (fst (_get_task_use_cases P g)), snd (_get_task_use_cases P g))) /\
  (let '(s1, g1) :=
     checkpoint_getter_step (provider_get_checkpoint_use_cases P) AtTest g in
   checkpoint_getter_step (provider_get_checkpoint_use_cases P) s1 g1
     = (Returned (fst (_get_checkpoint_use_cases P g)),
        snd (_get_checkpoint_use_cases P g))) /\
  (forall a b : TaskUseCases, _task_use_cases g = None ->
     run_two task_getter_step (Ok a) (Ok b) [false; false; true; true] AtTest AtTest g
       = (Returned (Ok a), Returned (Ok a), set_task_use_cases a g) /\
     run_two task_getter_step (Ok a) (Ok b) [false; true; false; true] AtTest AtTest g
       = (Returned (Ok a), Returned (Ok b), set_task_use_cases b g) /\
     run_two task_getter_step (Ok a) (Ok b) [false; true; true; false] AtTest AtTest g
       = (Returned (Ok a), Returned (Ok b), set_task_use_cases a g)) /\
  (forall a b : CheckpointUseCases, _checkpoint_use_cases g = None ->
     run_two checkpoint_getter_step (Ok a) (Ok b) [false; false; true; true]
       AtTest AtTest g
       = (Returned (Ok a), Returned (Ok a), set_checkpoint_use_cases a g) /\
     run_two checkpoint_getter_step (Ok a) (Ok b) [false; true; false; true]
       AtTest AtTest g
       = (Returned (Ok a), Returned (Ok b), set_checkpoint_use_cases b g) /\
     run_two checkpoint_getter_step (Ok a) (Ok b) [false; true; true; false]
       AtTest AtTest g
       = (Returned (Ok a), Returned (Ok b), set_checkpoint_use_cases a g)).
Proof.
  unfold _get_task_use_cases, _get_checkpoint_use_cases, task_getter_step,
    checkpoint_getter_step, set_task_use_cases, set_checkpoint_use_cases.
  destruct g as [gt gc].
  cbn [_task_use_cases _checkpoint_use_cases getter_step run_two].
  split; [| split; [| split; [| split; [| split; [| split; [| split]]]]]].
  - intros t g1 H.
    destruct gt; [| destruct (provider_get_task_use_cases P)]; inversion H; subst;
      split; reflexivity.
  - intros e g1 H.
    destruct gt; [| destruct (provider_get_task_use_cases P)]; inversion H; subst;
      split; reflexivity.
  - intros c g1 H.
    destruct gc; [| destruct (provider_get_checkpoint_use_cases P)]; inversion H; subst;
      split; reflexivity.
  - intros e g1 H.
    destruct gc; [| destruct (provider_get_checkpoint_use_cases P)]; inversion H; subst;
      split; reflexivity.
  - destruct gt; [| destruct (provider_get_task_use_cases P)]; reflexivity.
  - destruct gc; [| destruct (provider_get_checkpoint_use_cases P)]; reflexivity.
  - intros a b ->. repeat split.
  - intros a b ->. repeat split.
Qed.

Lemma provider_getters_memoize_witness :
  _get_task_use_cases Sample.no_providers
    {| _task_use_cases := Some Sample.failing_use_cases; _checkpoint_use_cases := None |}
  = (Ok Sample.failing_use_cases,
     {| _task_use_cases := Some Sample.failing_use_cases; _checkpoint_use_cases := None |}) /\
  run_two task_getter_step (Ok Scenario.scripted) (Ok Scenario.refusing)
    [false; true; false; true] AtTest AtTest Sample.no_globals
  = (Returned (Ok Scenario.scripted), Returned (Ok Scenario.refusing),
     set_task_use_cases Scenario.refusing Sample.no_globals).
Proof.
  destruct (provider_getters_memoize Sample.create_providers Sample.no_providers
              Sample.no_globals) as (Hmemo & _ & _ & _ & _ & _ & Hrace & _).
  split.
  - apply Hmemo. reflexivity.
  - apply (Hrace Scenario.scripted Scenario.refusing). reflexivity.
Defined.

(** ** Task creation: the whole call *)

Lemma create_execute_shape (settings : Settings) (providers : Providers) (fuel : nat)
    (arguments : gmap string pyval) (context : CreateTask.Context)
    (w : CreateTask.World) :
  CreateTask.execute settings providers fuel arguments context w =
    match arguments !! "goal" with
    | None => Some (Raise (KeyError "goal"), w)
    | Some goal =>
        match CreateTask._resolve_wait_timeout settings arguments with
        | Raise e => Some (Raise e, w)
        | Ok timeout =>
            match merged_constraints arguments context with
            | Raise e => Some (Raise e, w)
            | Ok constraints =>
                match CreateTask.ctx_user_id context,
                      CreateTask.ctx_conversation_id context with
                | Some user_id, Some conversation_id =>
                    if identified context
                    then handled
                           (CreateTask.execute_try settings providers fuel goal constraints
                              (py_truthy (args_get arguments "wait_for_completion"
                                            (PyBool true)))
                              timeout user_id conversation_id
                              (getattr (CreateTask.ctx_organization_id context) (PyStr ""))
                              w)
                    else Some (Ok missing_identity, w)
                | _, _ => Some (Ok missing_identity, w)
                end
            end
        end
    end.
Proof.
  unfold CreateTask.execute, merged_constraints, identified, handled.
  destruct (arguments !! "goal") as [goal |]; [| reflexivity].
  destruct (CreateTask._resolve_wait_timeout settings arguments) as [timeout | e];
    [| reflexivity].
  match goal with |- match ?c with Ok _ => _ | Raise _ => _ end = _ =>
    destruct c as [constraints | e] end; [| reflexivity].
  destruct (CreateTask.ctx_user_id context) as [user_id |]; [| reflexivity].
  destruct (CreateTask.ctx_conversation_id context) as [conversation_id |];
    [| reflexivity].
  destruct (str_truthy (Some user_id)), (str_truthy (Some conversation_id));
    reflexivity.
Qed.

Lemma resolve_wait_timeout_raises (settings : Settings) (arguments : gmap string pyval)
    (e : exn) :
  CreateTask._resolve_wait_timeout settings arguments = Raise e ->
  e = OverflowError /\
  exists negative, arguments !! "wait_timeout_seconds" = Some (PyFloat (FInf negative)).
Proof.
  unfold CreateTask._resolve_wait_timeout, args_get.
  destruct (arguments !! "wait_timeout_seconds") as [[| b | z | [q | n |] | s | l | d] |];
    cbn [py_int]; try discriminate.
  - intros H. inversion H. split; [reflexivity |]. now exists n.
  - destruct (int_of_str s) as [z | e'] eqn:Hs; [discriminate |].
    unfold int_of_str in Hs.
    destruct (rstrip (lstrip s)) as [| c r];
      [| destruct (Ascii.eqb_spec c "+"); [| destruct (Ascii.eqb_spec c "-")]].
    all: repeat match type of Hs with
         | context [match ?x with _ => _ end] => destruct x
         end; try discriminate; inversion Hs; subst; discriminate.
Qed.

Lemma merged_constraints_raises (arguments : gmap string pyval)
    (context : CreateTask.Context) (e : exn) :
  merged_constraints arguments context = Raise e ->
  e = TypeError /\
  py_truthy (CreateTask.ctx_file_references context) = true /\
  py_truthy (args_get arguments "constraints" PyNone) = true /\
  forall d, args_get arguments "constraints" PyNone <> PyDict d.
Proof.
  unfold merged_constraints.
  destruct (py_truthy (CreateTask.ctx_file_references context)); [| discriminate].
  destruct (py_truthy (args_get arguments "constraints" PyNone)) eqn:Hc;
    [| discriminate].
  destruct (args_get arguments "constraints" PyNone); cbn; try discriminate;
    intros H; inversion H; repeat split; discriminate.
Qed.

(** X9.  A [create_task] call raises, instead of returning a result, in
    three cases only, each of them before the first backend call and with
    nothing changed: the [goal] argument is missing ([KeyError]); the
    requested wait timeout is an infinite float ([OverflowError]); file
    references are to be merged into a non-empty constraints value that is
    not a dict ([TypeError]).  Whatever the backend raises is turned into a
    result. *)
Theorem create_task_raises_only_before_backend (settings : Settings)
    (providers : Providers) (fuel : nat) (arguments : gmap string pyval)
    (context : CreateTask.Context) (w w' : CreateTask.World) (e : exn) :
  CreateTask.execute settings providers fuel arguments context w = Some (Raise e, w') ->
  w' = w /\
  ((e = KeyError "goal" /\ arguments !! "goal" = None) \/
   (e = OverflowError /\
    exists negative,
      arguments !! "wait_timeout_seconds" = Some (PyFloat (FInf negative))) \/
   (e = TypeError /\
    py_truthy (CreateTask.ctx_file_references context) = true /\
    py_truthy (args_get arguments "constraints" PyNone) = true /\
    forall d, args_get arguments "constraints" PyNone <> PyDict d)).
Proof.
  rewrite create_execute_shape.
  destruct (arguments !! "goal") as [goal |].
  2: { intros H. inversion H. split; [reflexivity |]. left. now split. }
  destruct (CreateTask._resolve_wait_timeout settings arguments) as [timeout | e0] eqn:Ht.
  2: { intros H. inversion H; subst. split; [reflexivity |]. right. left.
       now apply (resolve_wait_timeout_raises settings). }
  destruct (merged_constraints arguments context) as [constraints | e0] eqn:Hc.
  2: { intros H. inversion H; subst. split; [reflexivity |]. right. right.
       now apply merged_constraints_raises. }
  destruct (CreateTask.ctx_user_id context) as [user_id |]; [| discriminate].
  destruct (CreateTask.ctx_conversation_id context) as [conversation_id |];
    [| discriminate].
  destruct (identified context); [| discriminate].
  unfold handled.
  destruct (CreateTask.execute_try _ _ _ _ _ _ _ _ _ _ _) as [[[r | e0] w0] |];
    discriminate.
Qed.

Lemma create_task_raises_only_before_backend_witness :
  Sample.world0 = Sample.world0 /\
  ((TypeError = KeyError "goal" /\
    ({["goal" := PyStr "x"; "constraints" := PyStr "fast"]} : gmap string pyval)
      !! "goal" = None) \/
   (TypeError = OverflowError /\
    exists negative,
      ({["goal" := PyStr "x"; "constraints" := PyStr "fast"]} : gmap string pyval)
        !! "wait_timeout_seconds" = Some (PyFloat (FInf negative))) \/
   (TypeError = TypeError /\
    py_truthy (PyList [PyStr "file-1"]) = true /\
    py_truthy (args_get {["goal" := PyStr "x"; "constraints" := PyStr "fast"]}
                 "constraints" PyNone) = true /\
    forall d, args_get {["goal" := PyStr "x"; "constraints" := PyStr "fast"]}
                "constraints" PyNone <> PyDict d)).
Proof.
  apply (create_task_raises_only_before_backend Sample.settings Sample.create_providers 0
           {["goal" := PyStr "x"; "constraints" := PyStr "fast"]}
           {| CreateTask.ctx_user_id := Some "user-123";
              CreateTask.ctx_organization_id := Absent;
              CreateTask.ctx_conversation_id := Some "conv-123";
              CreateTask.ctx_file_references := PyList [PyStr "file-1"] |}
           Sample.world0 Sample.world0 TypeError).
  vm_compute. reflexivity.
Defined.

Lemma str_in_cases (s : string) (l : list string) : str_in s l = true -> In s l.
Proof.
  unfold str_in. intros H. apply existsb_exists in H. destruct H as (x & Hx & He).
  apply String.eqb_eq in He. now subst.
Qed.

Lemma summarize_task_keys (task : Task.t) :
  exists total completed failed progress,
    CreateTask._summarize_task task =
      [ ("steps_total", PyInt total); ("steps_completed", PyInt completed);
        ("steps_failed", PyInt failed); ("progress_percentage", PyFloat progress) ] /\
    total = Z.of_nat (length (CreateTask.steps_of task)).
Proof.
  unfold CreateTask._summarize_task.
  destruct (CreateTask.count_steps (CreateTask.steps_of task) 0 0) as [c f].
  do 4 eexists. split; reflexivity.
Qed.

Lemma dict_get_set_eq (k : string) (v : pyval) (d : pydict) :
  dict_get k (dict_set k v d) = Some v.
Proof.
  induction d as [| [k0 v0] d IH]; cbn [dict_get dict_set].
  - now rewrite String.eqb_refl.
  - destruct (String.eqb_spec k k0) as [-> | Hne]; cbn [dict_get].
    + now rewrite String.eqb_refl.
    + destruct (String.eqb_spec k k0); [contradiction | exact IH].
Qed.

Lemma dict_get_set_ne (k k' : string) (v : pyval) (d : pydict) :
  k' <> k -> dict_get k' (dict_set k v d) = dict_get k' d.
Proof.
  intros Hne. induction d as [| [k0 v0] d IH]; cbn [dict_get dict_set].
  - destruct (String.eqb_spec k' k); [contradiction | reflexivity].
  - destruct (String.eqb_spec k k0) as [-> | Hn0]; cbn [dict_get].
    + destruct (String.eqb_spec k' k0); [contradiction | reflexivity].
    + destruct (String.eqb k' k0); [reflexivity | exact IH].
Qed.

Ltac dict_lookup :=
  unfold dict_update; cbn [fold_left fst snd];
  repeat first [ rewrite dict_get_set_eq
               | rewrite dict_get_set_ne by discriminate ];
  try reflexivity.

(** What a result of the [try] block looks like. *)
Lemma execute_try_result (settings : Settings) (providers : Providers) (fuel : nat)
    (goal constraints : pyval) (wait : bool) (timeout : Z)
    (user_id conversation_id : string) (organization_id : pyval)
    (w w' : CreateTask.World) (r : ToolResult) :
  CreateTask.execute_try settings providers fuel goal constraints wait timeout
    user_id conversation_id organization_id w = Some (Ok r, w') ->
  success r = true /\ error r = None /\
  exists d task_id status,
    data r = Some d /\
    dict_get "task_id" d = Some (PyStr task_id) /\
    dict_get "goal" d = Some goal /\
    dict_get "status" d = Some (PyStr status) /\
    In status result_statuses /\
    dict_get "timed_out" d = Some (PyBool (String.eqb status "running")) /\
    (wait = false <-> status = "planning").
Proof.
  unfold CreateTask.execute_try.
  destruct (_get_task_use_cases providers (CreateTask.globals w)) as [[tuc | e] g'];
    [| discriminate].
  destruct (create_task tuc _ _ _ _ _ _) as [task | e]; [| discriminate].
  destruct (link_conversation tuc _ _) as [[] | e]; [| discriminate].
  destruct wait; cbn [negb].
  2: { intros H. inversion H; subst; clear H. split; [reflexivity |].
       split; [reflexivity |]. eexists _, (Task.id task), "planning".
       split; [reflexivity |]. repeat split; try (dict_lookup; fail).
       left. reflexivity. }
  destruct (CreateTask._wait_for_terminal_status settings fuel tuc (Task.id task) timeout _)
    as [[[[observed_task observed_status] timed_out] w1] |] eqn:Hwait; [| discriminate].
  unfold CreateTask._wait_for_terminal_status in Hwait.
  destruct (wait_loop_result settings tuc (Task.id task) _ fuel None "planning" _ w1
              observed_task observed_status timed_out eq_refl eq_refl Hwait)
    as [_ Hshape].
  set (base_data := match observed_task with
                    | Some t =>
                        dict_update
                          [("task_id", PyStr (Task.id task)); ("goal", goal);
                           ("timed_out", PyBool false)] (CreateTask._summarize_task t)
                    | None =>
                        [("task_id", PyStr (Task.id task)); ("goal", goal);
                         ("timed_out", PyBool false)]
                    end).
  assert (Hbase : dict_get "task_id" base_data = Some (PyStr (Task.id task)) /\
                  dict_get "goal" base_data = Some goal /\
                  dict_get "timed_out" base_data = Some (PyBool false)).
  { subst base_data. destruct observed_task as [t |]; [| repeat split].
    destruct (summarize_task_keys t) as (total & c & f & p & -> & _).
    repeat split; dict_lookup. }
  destruct Hbase as (Hid & Hgoal & Htimed).
  destruct timed_out.
  - intros H. inversion H; subst; clear H. split; [reflexivity |].
    split; [reflexivity |]. eexists _, (Task.id task), "running".
    split; [reflexivity |].
    split; [dict_lookup; exact Hid |]. split; [dict_lookup; exact Hgoal |].
    split; [dict_lookup |]. split; [right; left; reflexivity |].
    split; [dict_lookup |]. split; discriminate.
  - destruct Hshape as [Hin _]. apply str_in_cases in Hin.
    destruct (String.eqb_spec observed_status "checkpoint") as [-> | Hnc].
    + destruct (CreateTask._get_pending_checkpoint providers (Task.id task) w1)
        as [[checkpoint_data | e] w2]; [| discriminate].
      intros H. inversion H; subst; clear H. split; [reflexivity |].
      split; [reflexivity |]. eexists _, (Task.id task), "checkpoint".
      split; [reflexivity |].
      split; [dict_lookup; exact Hid |]. split; [dict_lookup; exact Hgoal |].
      split; [dict_lookup |]. split; [right; right; left; reflexivity |].
      split; [dict_lookup; exact Htimed |]. split; discriminate.
    + assert (Hthree : In observed_status ["completed"; "failed"; "cancelled"]).
      { unfold CreateTask.terminal_statuses in Hin. cbn [In] in *.
        destruct Hin as [H | [H | [H | [H | []]]]]; try tauto. congruence. }
      assert (Hstr : str_in observed_status ["completed"; "failed"; "cancelled"] = true).
      { unfold str_in. apply existsb_exists. exists observed_status.
        split; [exact Hthree | apply String.eqb_refl]. }
      rewrite Hstr. intros H. inversion H; subst; clear H. split; [reflexivity |].
      split; [reflexivity |]. eexists _, (Task.id task), observed_status.
      split; [reflexivity |].
      split; [dict_lookup; exact Hid |]. split; [dict_lookup; exact Hgoal |].
      split; [dict_lookup |].
      assert (Hnr : String.eqb observed_status "running" = false /\
                    observed_status <> "planning").
      { cbn [In] in Hthree.
        destruct Hthree as [<- | [<- | [<- | []]]]; split; (reflexivity || discriminate). }
      destruct Hnr as [Hnr Hnp].
      split; [cbn [In] in *; unfold result_statuses; cbn [In]; tauto |].
      split; [dict_lookup; rewrite Hnr; exact Htimed |].
      split; [discriminate | intros ->; contradiction].
Qed.

(** X10.  Every successful [create_task] result carries [task_id], the
    [goal] as given, a [status] and [timed_out]; the status is one of
    planning, running, checkpoint, completed, failed and cancelled (the
    pass-through of any other observed status is never reached);
    [timed_out] is true exactly when the status is "running"; and the
    status is "planning" exactly when the caller did not wait. *)
Theorem create_task_success_shape (settings : Settings) (providers : Providers)
    (fuel : nat) (arguments : gmap string pyval) (context : CreateTask.Context)
    (w w' : CreateTask.World) (r : ToolResult) :
  CreateTask.execute settings providers fuel arguments context w = Some (Ok r, w') ->
  success r = true ->
  exists d task_id goal status,
    arguments !! "goal" = Some goal /\
    data r = Some d /\ error r = None /\
    dict_get "task_id" d = Some (PyStr task_id) /\
    dict_get "goal" d = Some goal /\
    dict_get "status" d = Some (PyStr status) /\
    In status ["planning"; "running"; "checkpoint"; "completed"; "failed"; "cancelled"] /\
    dict_get "timed_out" d = Some (PyBool (String.eqb status "running")) /\
    (status = "planning" <->
     py_truthy (args_get arguments "wait_for_completion" (PyBool true)) = false).
Proof.
  rewrite create_execute_shape. intros Hrun Hok.
  destruct (arguments !! "goal") as [goal |]; [| discriminate].
  destruct (CreateTask._resolve_wait_timeout settings arguments) as [timeout | e];
    [| discriminate].
  destruct (merged_constraints arguments context) as [constraints | e]; [| discriminate].
  assert (Hmissing : Some (Ok missing_identity, w) = Some (Ok r, w') -> False).
  { intros H. inversion H; subst. discriminate. }
  destruct (CreateTask.ctx_user_id context) as [user_id |]; [| now elim Hmissing].
  destruct (CreateTask.ctx_conversation_id context) as [conversation_id |];
    [| now elim Hmissing].
  destruct (identified context); [| now elim Hmissing].
  unfold handled in Hrun.
  destruct (CreateTask.execute_try _ _ _ _ _ _ _ _ _ _ _) as [[[r0 | e] w0] |] eqn:Htry;
    try discriminate.
  2: { inversion Hrun; subst. discriminate. }
  inversion Hrun; subst r0 w0; clear Hrun.
  destruct (execute_try_result _ _ _ _ _ _ _ _ _ _ _ _ _ Htry)
    as (_ & Herr & d & task_id & status & Hd & Hid & Hgoal & Hstatus & Hin & Htimed & Hwait).
  exists d, task_id, goal, status. repeat split; try assumption; apply Hwait.
Qed.

Lemma create_task_success_shape_witness :
  exists d task_id goal status,
    Scenario.wait_arguments !! "goal" = Some goal /\
    data (CreateTask.ok_result
            [("task_id", PyStr "task-123"); ("goal", PyStr "Research X");
             ("timed_out", PyBool false); ("steps_total", PyInt 2);
             ("steps_completed", PyInt 2); ("steps_failed", PyInt 0);
             ("progress_percentage", PyFloat (FFinite (100 # 1)));
             ("status", PyStr "completed")]
            [Lit "Task reached terminal status: "; Fmt (PyStr "completed"); Lit "."])
      = Some d /\
    dict_get "task_id" d = Some (PyStr task_id) /\
    dict_get "status" d = Some (PyStr status) /\
    In status ["planning"; "running"; "checkpoint"; "completed"; "failed"; "cancelled"].
Proof.
  destruct (create_task_success_shape Sample.settings
              (Sample.providers (Ok Scenario.completed_at_once)
                 (Raise (RuntimeError "unavailable")))
              1 Scenario.wait_arguments Sample.create_context Sample.world0
              {| CreateTask.now := 1 # 10;
                 CreateTask.calls :=
                   [CreateTask.CallGetTask (PyStr "task-123");
                    CreateTask.CallLinkConversation "task-123" "conv-123";
                    CreateTask.CallCreateTask];
                 CreateTask.sleeps := [];
                 CreateTask.globals :=
                   {| _task_use_cases := Some Scenario.completed_at_once;
                      _checkpoint_use_cases := None |} |}
              (CreateTask.ok_result
                 [("task_id", PyStr "task-123"); ("goal", PyStr "Research X");
                  ("timed_out", PyBool false); ("steps_total", PyInt 2);
                  ("steps_completed", PyInt 2); ("steps_failed", PyInt 0);
                  ("progress_percentage", PyFloat (FFinite (100 # 1)));
                  ("status", PyStr "completed")]
                 [Lit "Task reached terminal status: "; Fmt (PyStr "completed"); Lit "."]))
    as (d & task_id & goal & status & Hg & Hd & _ & Hid & _ & Hs & Hin & _).
  - vm_compute. reflexivity.
  - reflexivity.
  - exists d, task_id, goal, status. repeat split; assumption.
Defined.



(** X12.  With both ids present, a backend that fails is reported as the
    result "Failed to create task: <exception>" with [success = false]:
    when the task use cases cannot be built no backend call is made; when
    [create_task] raises, neither [link_conversation] nor [get_task] is
    called; when [link_conversation] raises, the task has been created all
    the same and [get_task] is not called. *)
Theorem create_task_backend_failure (settings : Settings) (providers : Providers)
    (fuel : nat) (arguments : gmap string pyval) (context : CreateTask.Context)
    (w : CreateTask.World) (goal constraints : pyval) (timeout : Z)
    (user_id conversation_id : string) (e : exn) :
  arguments !! "goal" = Some goal ->
  CreateTask._resolve_wait_timeout settings arguments = Ok timeout ->
  merged_constraints arguments context = Ok constraints ->
  CreateTask.ctx_user_id context = Some user_id -> user_id <> "" ->
  CreateTask.ctx_conversation_id context = Some conversation_id ->
  conversation_id <> "" ->
  let created tuc :=
    create_task tuc user_id
      (getattr (CreateTask.ctx_organization_id context) (PyStr "")) goal
      (if py_truthy constraints then constraints else PyNone)
      [("source", PyStr "inbox_chat"); ("conversation_id", PyStr conversation_id)]
      true in
  let failed calls_made :=
    exists w',
      CreateTask.execute settings providers fuel arguments context w
        = Some (Ok (CreateTask.error_result [Lit "Failed to create task: "; FmtExn e]), w')
      /\ CreateTask.calls w' = (calls_made ++ CreateTask.calls w)%list
      /\ CreateTask.sleeps w' = CreateTask.sleeps w in
  (fst (_get_task_use_cases providers (CreateTask.globals w)) = Raise e -> failed []) /\
  (forall tuc,
     fst (_get_task_use_cases providers (CreateTask.globals w)) = Ok tuc ->
     created tuc = Raise e -> failed [CreateTask.CallCreateTask]) /\
  (forall tuc task,
     fst (_get_task_use_cases providers (CreateTask.globals w)) = Ok tuc ->
     created tuc = Ok task ->
     link_conversation tuc (Task.id task) conversation_id = Raise e ->
     failed [CreateTask.CallLinkConversation (Task.id task) conversation_id;
             CreateTask.CallCreateTask]).
Proof.
  intros Hgoal Htimeout Hmerged Huser Hune Hconv Hcne created failed.
  assert (Hid : identified context = true).
  { unfold identified. rewrite Huser, Hconv. cbn [str_truthy].
    destruct (String.eqb_spec user_id ""); [contradiction |].
    destruct (String.eqb_spec conversation_id ""); [contradiction |]. reflexivity. }
  assert (Hshape :
    CreateTask.execute settings providers fuel arguments context w =
      handled (CreateTask.execute_try settings providers fuel goal constraints
                 (py_truthy (args_get arguments "wait_for_completion" (PyBool true)))
                 timeout user_id conversation_id
                 (getattr (CreateTask.ctx_organization_id context) (PyStr "")) w)).
  { rewrite create_execute_shape, Hgoal, Htimeout, Hmerged, Huser, Hconv, Hid.
    reflexivity. }
  subst failed. cbv beta. rewrite Hshape. unfold CreateTask.execute_try.
  destruct (_get_task_use_cases providers (CreateTask.globals w)) as [resolved g'].
  cbn [fst]. split; [| split].
  - intros ->. eexists. split; [reflexivity |]. split; reflexivity.
  - intros tuc -> Hcreate. subst created. cbv beta in Hcreate. rewrite Hcreate.
    eexists. split; [reflexivity |]. split; reflexivity.
  - intros tuc task -> Hcreate Hlink. subst created. cbv beta in Hcreate.
    rewrite Hcreate, Hlink. eexists. split; [reflexivity |]. split; reflexivity.
Qed.

Lemma create_task_backend_failure_witness :
  exists w',
    CreateTask.execute Sample.settings Sample.no_providers 0
      {["goal" := PyStr "Research X"]} Sample.create_context Sample.world0
      = Some (Ok (CreateTask.error_result
                    [Lit "Failed to create task: "; FmtExn (RuntimeError "unavailable")]),
              w') /\
    CreateTask.calls w' = ([] ++ CreateTask.calls Sample.world0)%list /\
    CreateTask.sleeps w' = CreateTask.sleeps Sample.world0.
Proof.
  assert (Hu : "user-123" <> "") by discriminate.
  assert (Hc : "conv-123" <> "") by discriminate.
  assert (Hgoal : ({["goal" := PyStr "Research X"]} : gmap string pyval) !! "goal"
                  = Some (PyStr "Research X")) by (vm_compute; reflexivity).
  assert (Htimeout : CreateTask._resolve_wait_timeout Sample.settings
                       {["goal" := PyStr "Research X"]} = Ok 10)
    by (vm_compute; reflexivity).
  assert (Hmerged : merged_constraints {["goal" := PyStr "Research X"]}
                      Sample.create_context = Ok (PyDict []))
    by (vm_compute; reflexivity).
  apply (create_task_backend_failure Sample.settings Sample.no_providers 0
           {["goal" := PyStr "Research X"]} Sample.create_context Sample.world0
           (PyStr "Research X") (PyDict []) 10 "user-123" "conv-123"
           (RuntimeError "unavailable") Hgoal Htimeout Hmerged eq_refl Hu eq_refl Hc).
  reflexivity.
Defined.

(** ** Task creation: a call that waits *)

Section WaitingCall.

Variable settings : Settings.
Variable providers : Providers.
Variable fuel : nat.
Variable arguments : gmap string pyval.
Variable context : CreateTask.Context.
Variable w : CreateTask.World.
Variables goal constraints : pyval.
Variable timeout : Z.
Variables user_id conversation_id : string.
Variable task_use_cases : TaskUseCases.
Variables task snapshot : Task.t.

(** The call has both ids, its arguments are in order, and the backend
    creates and links the task. *)
Hypothesis Hgoal : arguments !! "goal" = Some goal.
Hypothesis Htimeout : CreateTask._resolve_wait_timeout settings arguments = Ok timeout.
Hypothesis Hmerged : merged_constraints arguments context = Ok constraints.
Hypothesis Huser : CreateTask.ctx_user_id context = Some user_id.
Hypothesis Huser_ne : user_id <> "".
Hypothesis Hconv : CreateTask.ctx_conversation_id context = Some conversation_id.
Hypothesis Hconv_ne : conversation_id <> "".
Hypothesis Hresolved :
  fst (_get_task_use_cases providers (CreateTask.globals w)) = Ok task_use_cases.
Hypothesis Hcreated :
  create_task task_use_cases user_id
    (getattr (CreateTask.ctx_organization_id context) (PyStr "")) goal
    (if py_truthy constraints then constraints else PyNone)
    [("source", PyStr "inbox_chat"); ("conversation_id", PyStr conversation_id)]
    true = Ok task.
Hypothesis Hlinked :
  link_conversation task_use_cases (Task.id task) conversation_id = Ok tt.

(** The caller waits, and the first fetch answers with a snapshot. *)
Hypothesis Hwait :
  py_truthy (args_get arguments "wait_for_completion" (PyBool true)) = true.
Hypothesis Hfetch :
  get_task task_use_cases (CreateTask.get_task_count w) (PyStr (Task.id task))
    = Ok (Some snapshot).

Lemma waiting_call_enters_wait :
  CreateTask.execute settings providers (S fuel) arguments context w =
    handled
      (CreateTask.execute_try settings providers (S fuel) goal constraints true timeout
         user_id conversation_id
         (getattr (CreateTask.ctx_organization_id context) (PyStr "")) w).
Proof.
  rewrite create_execute_shape, Hgoal, Htimeout, Hmerged, Huser, Hconv, Hwait.
  unfold identified. rewrite Huser, Hconv. cbn [str_truthy].
  destruct (String.eqb_spec user_id ""); [contradiction |].
  destruct (String.eqb_spec conversation_id ""); [contradiction |]. reflexivity.
Qed.

(** X13.  When the first fetch of a waiting call finds the task completed,
    failed or cancelled, the call answers with that status,
    [timed_out = false] and the step summary of that snapshot; it has made
    exactly one [get_task] call, after the creation and the linking, and
    has not slept. *)
Theorem create_task_finished_at_first_fetch :
  str_in (task_status_value snapshot) ["completed"; "failed"; "cancelled"] = true ->
  exists r w' d,
    CreateTask.execute settings providers (S fuel) arguments context w
      = Some (Ok r, w') /\
    success r = true /\ data r = Some d /\
    dict_get "status" d = Some (PyStr (task_status_value snapshot)) /\
    dict_get "timed_out" d = Some (PyBool false) /\
    dict_get "steps_total" d
      = Some (PyInt (Z.of_nat (length (CreateTask.steps_of snapshot)))) /\
    dict_get "checkpoint" d = None /\
    CreateTask.calls w' =
      CreateTask.CallGetTask (PyStr (Task.id task))
        :: CreateTask.CallLinkConversation (Task.id task) conversation_id
        :: CreateTask.CallCreateTask :: CreateTask.calls w /\
    CreateTask.sleeps w' = CreateTask.sleeps w.
Proof.
  intros Hthree.
  assert (Hfour : str_in (task_status_value snapshot) CreateTask.terminal_statuses = true).
  { apply str_in_cases in Hthree. unfold str_in. apply existsb_exists.
    exists (task_status_value snapshot). split; [| apply String.eqb_refl].
    unfold CreateTask.terminal_statuses. cbn [In] in *. tauto. }
  assert (Hnc : String.eqb (task_status_value snapshot) "checkpoint" = false).
  { apply str_in_cases in Hthree. cbn [In] in Hthree.
    destruct Hthree as [<- | [<- | [<- | []]]]; reflexivity. }
  rewrite waiting_call_enters_wait. unfold CreateTask.execute_try.
  destruct (_get_task_use_cases providers (CreateTask.globals w)) as [resolved g'].
  cbn [fst] in Hresolved. subst resolved. rewrite Hcreated, Hlinked. cbn [negb].
  unfold CreateTask._wait_for_terminal_status. rewrite wait_loop_tick. cbv zeta.
  match goal with |- context [get_task task_use_cases (CreateTask.get_task_count ?w2) _] =>
    change (CreateTask.get_task_count w2) with (CreateTask.get_task_count w) end.
  rewrite Hfetch, Hfour, Hnc, Hthree. unfold handled.
  destruct (summarize_task_keys snapshot) as (total & c & f & p & Hsum & Htotal).
  rewrite Hsum. do 3 eexists. split; [reflexivity |]. split; [reflexivity |].
  split; [reflexivity |]. subst total.
  repeat split; dict_lookup.
Qed.

(** X14.  When the first fetch of a waiting call finds the task at a
    checkpoint, the answer depends on the checkpoint provider: if it
    cannot be built, the call fails with "Failed to create task: ..."
    although the task has been created, linked and fetched; if it reports
    nothing pending, the call succeeds with status "checkpoint" and
    [checkpoint] set to [None]; otherwise [checkpoint] is the
    serialization of the first pending checkpoint, whatever follows it. *)
Theorem create_task_at_checkpoint :
  task_status_value snapshot = "checkpoint" ->
  let g' := snd (_get_task_use_cases providers (CreateTask.globals w)) in
  let answer (checkpoint : pyval) :=
    exists r w' d,
      CreateTask.execute settings providers (S fuel) arguments context w
        = Some (Ok r, w') /\
      success r = true /\ data r = Some d /\
      dict_get "status" d = Some (PyStr "checkpoint") /\
      dict_get "timed_out" d = Some (PyBool false) /\
      dict_get "checkpoint" d = Some checkpoint in
  (forall e,
     fst (_get_checkpoint_use_cases providers g') = Raise e ->
     exists w',
       CreateTask.execute settings providers (S fuel) arguments context w
         = Some (Ok (CreateTask.error_result [Lit "Failed to create task: "; FmtExn e]),
                 w') /\
       CreateTask.calls w' =
         CreateTask.CallGetTask (PyStr (Task.id task))
           :: CreateTask.CallLinkConversation (Task.id task) conversation_id
           :: CreateTask.CallCreateTask :: CreateTask.calls w) /\
  (forall cuc,
     fst (_get_checkpoint_use_cases providers g') = Ok cuc ->
     list_pending_for_task cuc (PyStr (Task.id task)) = Ok [] ->
     answer PyNone) /\
  (forall cuc first rest d,
     fst (_get_checkpoint_use_cases providers g') = Ok cuc ->
     list_pending_for_task cuc (PyStr (Task.id task)) = Ok (first :: rest) ->
     CreateTask._serialize_checkpoint first = Ok d ->
     answer (PyDict d)).
Proof.
  intros Hstatus g' answer.
  assert (Hrun :
    CreateTask.execute settings providers (S fuel) arguments context w =
      handled
        (let w1 := wait_tick_world task_use_cases (Task.id task)
                     (CreateTask.log_call
                        (CreateTask.CallLinkConversation (Task.id task) conversation_id)
                        (CreateTask.log_call CreateTask.CallCreateTask
                           (CreateTask.set_globals g' w))) in
         let '(checkpoint_data, w2) :=
           CreateTask._get_pending_checkpoint providers (Task.id task) w1 in
         match checkpoint_data with
         | Raise e => Some (Raise e, w2)
         | Ok checkpoint_data =>
             Some (Ok (CreateTask.ok_result
                         (dict_update
                            (dict_update
                               [("task_id", PyStr (Task.id task)); ("goal", goal);
                                ("timed_out", PyBool false)]
                               (CreateTask._summarize_task snapshot))
                            [("status", PyStr "checkpoint");
                             ("checkpoint", checkpoint_data)])
                         [Lit "Task is waiting for your checkpoint approval."]), w2)
         end)).
  { rewrite waiting_call_enters_wait. unfold CreateTask.execute_try. subst g'.
    destruct (_get_task_use_cases providers (CreateTask.globals w)) as [resolved g''].
    cbn [fst snd] in *. subst resolved. rewrite Hcreated, Hlinked. cbn [negb].
    unfold CreateTask._wait_for_terminal_status. rewrite wait_loop_tick. cbv zeta.
    match goal with |- context [get_task task_use_cases (CreateTask.get_task_count ?w2) _] =>
      change (CreateTask.get_task_count w2) with (CreateTask.get_task_count w) end.
    rewrite Hfetch, Hstatus. reflexivity. }
  subst answer. cbv beta. rewrite Hrun. cbv zeta.
  unfold CreateTask._get_pending_checkpoint.
  cbn [CreateTask.globals wait_tick_world CreateTask.advance CreateTask.log_call
       CreateTask.set_globals].
  destruct (_get_checkpoint_use_cases providers g') as [resolved g2]. cbn [fst].
  destruct (summarize_task_keys snapshot) as (total & c & f & p & Hsum & _).
  rewrite Hsum. split; [| split].
  - intros e ->. eexists. split; reflexivity.
  - intros cuc -> Hnone. rewrite Hnone. do 3 eexists.
    split; [reflexivity |]. split; [reflexivity |]. split; [reflexivity |].
    repeat split; dict_lookup.
  - intros cuc first rest d -> Hsome Hser. rewrite Hsome, Hser. do 3 eexists.
    split; [reflexivity |]. split; [reflexivity |]. split; [reflexivity |].
    repeat split; dict_lookup.
Qed.

(** X15.  With a wait timeout of zero or less (and a clock that does not
    run backwards), a waiting call that finds the task in a status other
    than completed, failed, cancelled and checkpoint answers after that
    single fetch, without sleeping: status "running", [current_status] the
    status it saw, [timed_out = true], and the timeout echoed back. *)
Theorem create_task_zero_timeout :
  timeout <= 0 ->
  (0 <= get_task_latency task_use_cases (CreateTask.get_task_count w))%Q ->
  str_in (task_status_value snapshot) ["completed"; "failed"; "cancelled"; "checkpoint"]
    = false ->
  exists r w' d,
    CreateTask.execute settings providers (S fuel) arguments context w
      = Some (Ok r, w') /\
    success r = true /\ data r = Some d /\
    dict_get "status" d = Some (PyStr "running") /\
    dict_get "current_status" d = Some (PyStr (task_status_value snapshot)) /\
    dict_get "timed_out" d = Some (PyBool true) /\
    dict_get "wait_timeout_seconds" d = Some (PyInt timeout) /\
    CreateTask.get_task_count w' = S (CreateTask.get_task_count w) /\
    CreateTask.sleeps w' = CreateTask.sleeps w.
Proof.
  intros Hzero Hlat Hnt.
  rewrite waiting_call_enters_wait. unfold CreateTask.execute_try.
  destruct (_get_task_use_cases providers (CreateTask.globals w)) as [resolved g'].
  cbn [fst] in Hresolved. subst resolved. rewrite Hcreated, Hlinked. cbn [negb].
  unfold CreateTask._wait_for_terminal_status. rewrite wait_loop_tick. cbv zeta.
  match goal with |- context [get_task task_use_cases (CreateTask.get_task_count ?w2) _] =>
    change (CreateTask.get_task_count w2) with (CreateTask.get_task_count w) end.
  rewrite Hfetch. unfold CreateTask.terminal_statuses. rewrite Hnt.
  match goal with |- context [Qle_bool ?a ?b] =>
    assert (Hd : Qle_bool a b = true) end.
  { apply Qle_bool_iff. unfold wait_tick_world.
    cbn [CreateTask.now CreateTask.advance CreateTask.log_call CreateTask.set_globals].
    change (CreateTask.get_task_count _) with (CreateTask.get_task_count w).
    rewrite Z.max_l by lia. change (inject_Z 0) with 0%Q. lra. }
  rewrite Hd. unfold handled.
  destruct (summarize_task_keys snapshot) as (total & c & f & p & Hsum & _).
  rewrite Hsum. do 3 eexists. split; [reflexivity |]. split; [reflexivity |].
  split; [reflexivity |]. repeat split; dict_lookup.
Qed.

End WaitingCall.

Lemma create_task_finished_at_first_fetch_witness :
  exists r w' d,
    CreateTask.execute Sample.settings
      (Sample.providers (Ok Scenario.completed_at_once) (Raise (RuntimeError "unavailable")))
      1 Scenario.wait_arguments Sample.create_context Sample.world0 = Some (Ok r, w') /\
    success r = true /\ data r = Some d /\
    dict_get "status" d = Some (PyStr "completed") /\
    dict_get "steps_total" d = Some (PyInt 2).
Proof.
  assert (Hu : "user-123" <> "") by discriminate.
  assert (Hc : "conv-123" <> "") by discriminate.
  assert (Hgoal : Scenario.wait_arguments !! "goal" = Some (PyStr "Research X"))
    by (vm_compute; reflexivity).
  assert (Htimeout : CreateTask._resolve_wait_timeout Sample.settings
                       Scenario.wait_arguments = Ok 5) by (vm_compute; reflexivity).
  assert (Hmerged : merged_constraints Scenario.wait_arguments Sample.create_context
                    = Ok (PyDict [])) by (vm_compute; reflexivity).
  assert (Hwait : py_truthy (args_get Scenario.wait_arguments "wait_for_completion"
                               (PyBool true)) = true) by (vm_compute; reflexivity).
  destruct (create_task_finished_at_first_fetch Sample.settings
              (Sample.providers (Ok Scenario.completed_at_once)
                 (Raise (RuntimeError "unavailable")))
              0 Scenario.wait_arguments Sample.create_context Sample.world0
              (PyStr "Research X") (PyDict []) 5 "user-123" "conv-123"
              Scenario.completed_at_once Sample.planning_snapshot Sample.completed_snapshot
              Hgoal Htimeout Hmerged eq_refl Hu eq_refl Hc eq_refl eq_refl eq_refl
              Hwait eq_refl eq_refl)
    as (r & w' & d & Hrun & Hok & Hd & Hstatus & _ & Hsteps & _).
  exists r, w', d. repeat split; assumption.
Defined.

Lemma create_task_at_checkpoint_witness :
  exists r w' d,
    CreateTask.execute Sample.settings
      (Sample.providers (Ok Scenario.at_checkpoint) (Ok (Sample.checkpoint_use_cases [])))
      1 Scenario.wait_arguments Sample.create_context Sample.world0 = Some (Ok r, w') /\
    success r = true /\ data r = Some d /\
    dict_get "status" d = Some (PyStr "checkpoint") /\
    dict_get "timed_out" d = Some (PyBool false) /\
    dict_get "checkpoint" d = Some PyNone.
Proof.
  assert (Hu : "user-123" <> "") by discriminate.
  assert (Hc : "conv-123" <> "") by discriminate.
  assert (Hgoal : Scenario.wait_arguments !! "goal" = Some (PyStr "Research X"))
    by (vm_compute; reflexivity).
  assert (Htimeout : CreateTask._resolve_wait_timeout Sample.settings
                       Scenario.wait_arguments = Ok 5) by (vm_compute; reflexivity).
  assert (Hmerged : merged_constraints Scenario.wait_arguments Sample.create_context
                    = Ok (PyDict [])) by (vm_compute; reflexivity).
  assert (Hwait : py_truthy (args_get Scenario.wait_arguments "wait_for_completion"
                               (PyBool true)) = true) by (vm_compute; reflexivity).
  destruct (create_task_at_checkpoint Sample.settings
              (Sample.providers (Ok Scenario.at_checkpoint)
                 (Ok (Sample.checkpoint_use_cases [])))
              0 Scenario.wait_arguments Sample.create_context Sample.world0
              (PyStr "Research X") (PyDict []) 5 "user-123" "conv-123"
              Scenario.at_checkpoint Sample.planning_snapshot Scenario.checkpoint_snapshot
              Hgoal Htimeout Hmerged eq_refl Hu eq_refl Hc eq_refl eq_refl eq_refl
              Hwait eq_refl eq_refl)
    as (_ & Hnone & _).
  exact (Hnone (Sample.checkpoint_use_cases []) eq_refl eq_refl).
Defined.

Lemma create_task_zero_timeout_witness :
  exists r w' d,
    CreateTask.execute Sample.settings
      (Sample.providers
         (Ok (Sample.use_cases (fun _ => Ok (Some Sample.planning_snapshot)) []))
         (Raise (RuntimeError "unavailable")))
      1 (<["wait_timeout_seconds" := PyInt 0]> {["goal" := PyStr "Research X"]})
      Sample.create_context Sample.world0 = Some (Ok r, w') /\
    success r = true /\ data r = Some d /\
    dict_get "status" d = Some (PyStr "running") /\
    dict_get "current_status" d = Some (PyStr "planning") /\
    dict_get "timed_out" d = Some (PyBool true).
Proof.
  set (arguments := (<["wait_timeout_seconds" := PyInt 0]>
                       {["goal" := PyStr "Research X"]} : gmap string pyval)).
  assert (Hu : "user-123" <> "") by discriminate.
  assert (Hc : "conv-123" <> "") by discriminate.
  assert (Hgoal : arguments !! "goal" = Some (PyStr "Research X"))
    by (vm_compute; reflexivity).
  assert (Htimeout : CreateTask._resolve_wait_timeout Sample.settings arguments = Ok 0)
    by (vm_compute; reflexivity).
  assert (Hmerged : merged_constraints arguments Sample.create_context = Ok (PyDict []))
    by (vm_compute; reflexivity).
  assert (Hwait : py_truthy (args_get arguments "wait_for_completion" (PyBool true)) = true)
    by (vm_compute; reflexivity).
  assert (Hlat : (0 <= 1 # 10)%Q) by (unfold Qle; cbn; lia).
  destruct (create_task_zero_timeout Sample.settings
              (Sample.providers
                 (Ok (Sample.use_cases (fun _ => Ok (Some Sample.planning_snapshot)) []))
                 (Raise (RuntimeError "unavailable")))
              0 arguments Sample.create_context Sample.world0
              (PyStr "Research X") (PyDict []) 0 "user-123" "conv-123"
              (Sample.use_cases (fun _ => Ok (Some Sample.planning_snapshot)) [])
              Sample.planning_snapshot Sample.planning_snapshot
              Hgoal Htimeout Hmerged eq_refl Hu eq_refl Hc eq_refl eq_refl eq_refl
              Hwait eq_refl ltac:(lia) Hlat eq_refl)
    as (r & w' & d & Hrun & Hok & Hd & Hstatus & Hcurrent & Htimed & _).
  exists r, w', d. repeat split; assumption.
Defined.

(** ** Status query: single-task mode *)

Lemma execute_single_cases (plan_id include_checkpoints : pyval) (user_id : string)
    (ds : option DelegationService) (tuc : option TaskUseCases)
    (cuc : option CheckpointUseCases) :
  GetTaskStatus.execute_single plan_id include_checkpoints user_id ds tuc cuc =
    match (match ds, tuc with
           | Some d, _ => get_plan d plan_id
           | None, Some t => get_task t 0 plan_id
           | None, None => Raise (AttributeError "get_task")
           end) with
    | Raise e => Raise e
    | Ok None => Ok (task_not_found plan_id)
    | Ok (Some plan) =>
        if String.eqb (Task.user_id plan) user_id
        then
          match (if py_truthy include_checkpoints
                 then GetTaskStatus.fetch_checkpoints ds cuc
                        (fun d => get_pending_checkpoints d user_id)
                        (fun c => list_pending_for_task c plan_id)
                 else Ok []) with
          | Raise e => Raise e
          | Ok checkpoints =>
              Ok (CreateTask.ok_result
                    match List.filter
                            (fun c => GetTaskStatus.ref_eqb (GetTaskStatus.checkpoint_ref c)
                                        plan_id) checkpoints with
                    | [] => GetTaskStatus._format_plan plan
                    | c :: rest =>
                        dict_set "pending_checkpoints"
                          (GetTaskStatus.formatted
                             (map GetTaskStatus._format_checkpoint (c :: rest)))
                          (GetTaskStatus._format_plan plan)
                    end
                    [Lit "Task '"; Fmt (PyStr (String.substring 0 50 (Task.goal plan)));
                     Lit "...' is "; Fmt (PyStr (task_status_value plan))])
          end
        else Ok access_denied
    end.
Proof.
  unfold GetTaskStatus.execute_single.
  destruct (match ds, tuc with
            | Some d, _ => get_plan d plan_id
            | None, Some t => get_task t 0 plan_id
            | None, None => Raise (AttributeError "get_task")
            end) as [[plan |] | e]; try reflexivity.
  cbn [bind]. destruct (String.eqb (Task.user_id plan) user_id); [| reflexivity].
  cbn [negb]. destruct (py_truthy include_checkpoints); [| reflexivity].
  destruct (GetTaskStatus.fetch_checkpoints ds cuc _ _) as [cps | e]; [| reflexivity].
  cbn [bind]. destruct (List.filter _ cps); reflexivity.
Qed.

Lemma ref_eqb_names_plan (plan_id : pyval) (c : Checkpoint.t) :
  py_truthy plan_id = true ->
  GetTaskStatus.ref_eqb (GetTaskStatus.checkpoint_ref c) plan_id = true ->
  names_plan plan_id c.
Proof.
  unfold names_plan, GetTaskStatus._format_checkpoint.
  cbn [dict_get String.eqb Ascii.eqb Bool.eqb].
  destruct (GetTaskStatus.checkpoint_ref c) as [s |], plan_id; cbn;
    try discriminate; intros _ H.
  apply String.eqb_eq in H. now subst.
Qed.

(** A successful single-task call, taken apart. *)
Lemma single_task_success (providers : Providers) (arguments : gmap string pyval)
    (context : GetTaskStatus.Context) (g : Globals) :
  let plan_id := args_get arguments "plan_id" PyNone in
  let include_checkpoints := args_get arguments "include_checkpoints" (PyBool true) in
  py_truthy plan_id = true ->
  success (fst (GetTaskStatus.execute providers arguments context g)) = true ->
  exists user_id plan checkpoints,
    GetTaskStatus.ctx_user_id context = Some user_id /\
    fetched_plan providers context g plan_id = Ok (Some plan) /\
    Task.user_id plan = user_id /\
    (if py_truthy include_checkpoints
     then fetched_checkpoints providers context g user_id include_checkpoints (Some plan_id)
     else Ok []) = Ok checkpoints /\
    data (fst (GetTaskStatus.execute providers arguments context g)) =
      Some match List.filter
                   (fun c => GetTaskStatus.ref_eqb (GetTaskStatus.checkpoint_ref c) plan_id)
                   checkpoints with
           | [] => GetTaskStatus._format_plan plan
           | c :: rest =>
               dict_set "pending_checkpoints"
                 (GetTaskStatus.formatted
                    (map GetTaskStatus._format_checkpoint (c :: rest)))
                 (GetTaskStatus._format_plan plan)
           end.
Proof.
  intros plan_id include_checkpoints Hsingle Hok.
  destruct (str_truthy (GetTaskStatus.ctx_user_id context)) eqn:Hu.
  2: { rewrite execute_without_user in Hok by exact Hu. discriminate. }
  destruct (GetTaskStatus.ctx_user_id context) as [user_id |] eqn:Hctx; [| discriminate].
  assert (Hne : user_id <> "") by (intros ->; discriminate).
  rewrite (execute_answer providers arguments context g user_id Hctx Hne) in *.
  unfold answer in *. fold plan_id include_checkpoints in Hok |- *.
  rewrite Hsingle in *. rewrite execute_single_cases in *.
  unfold fetched_plan, fetched_checkpoints.
  destruct (GetTaskStatus.ctx_delegation_service context) as [ds |];
    destruct (resolved_task_use_cases providers context g) as [tuc |];
    try discriminate.
  all: match type of Hok with
       | context [match ?f with Ok _ => _ | Raise _ => _ end] =>
           destruct f as [[plan |] | e] eqn:Hplan
       end; try discriminate.
  all: destruct (String.eqb_spec (Task.user_id plan) user_id) as [Hown | Hown];
    try discriminate.
  all: destruct (py_truthy include_checkpoints);
    [ match type of Hok with
      | context [GetTaskStatus.fetch_checkpoints ?a ?b ?c ?d] =>
          destruct (GetTaskStatus.fetch_checkpoints a b c d) as [cps | e] eqn:Hcps
      end; try discriminate;
      exists user_id, plan, cps
    | exists user_id, plan, [] ];
    repeat split; try assumption; reflexivity.
Qed.

(** X16.  A successful single-task answer is about a task of the
    requesting user: the backend returned a task for the requested id, its
    owner is the user of the context, and the data carry that task's id,
    goal, canonical status and number of steps. *)
Theorem single_task_success_is_own_task (providers : Providers)
    (arguments : gmap string pyval) (context : GetTaskStatus.Context) (g : Globals) :
  let result := fst (GetTaskStatus.execute providers arguments context g) in
  let plan_id := args_get arguments "plan_id" PyNone in
  py_truthy plan_id = true ->
  success result = true ->
  exists user_id plan d,
    GetTaskStatus.ctx_user_id context = Some user_id /\
    fetched_plan providers context g plan_id = Ok (Some plan) /\
    Task.user_id plan = user_id /\
    data result = Some d /\
    dict_get "plan_id" d = Some (PyStr (Task.id plan)) /\
    dict_get "goal" d = Some (PyStr (Task.goal plan)) /\
    dict_get "status" d = Some (PyStr (task_status_value plan)) /\
    dict_get "steps_total" d
      = Some (PyInt (Z.of_nat (length (GetTaskStatus.steps_of plan)))).
Proof.
  intros result plan_id Hsingle Hok.
  destruct (single_task_success providers arguments context g Hsingle Hok)
    as (user_id & plan & cps & Hctx & Hplan & Hown & _ & Hdata).
  exists user_id, plan. eexists. repeat (split; [eassumption |]).
  destruct (List.filter _ cps); unfold GetTaskStatus._format_plan;
    repeat split; dict_lookup.
Qed.

Lemma single_task_success_is_own_task_witness :
  exists user_id plan d,
    GetTaskStatus.ctx_user_id Scenario.delegation_context = Some user_id /\
    Task.user_id plan = user_id /\
    data (fst (GetTaskStatus.execute Sample.no_providers {["plan_id" := PyStr "task-1"]}
                 Scenario.delegation_context Sample.no_globals)) = Some d /\
    dict_get "plan_id" d = Some (PyStr (Task.id plan)).
Proof.
  destruct (single_task_success_is_own_task Sample.no_providers
              {["plan_id" := PyStr "task-1"]} Scenario.delegation_context
              Sample.no_globals)
    as (user_id & plan & d & Hctx & _ & Hown & Hd & Hid & _).
  - vm_compute. reflexivity.
  - vm_compute. reflexivity.
  - exists user_id, plan, d. repeat split; assumption.
Defined.

(** X17.  The [pending_checkpoints] of a successful single-task answer are
    exactly those checkpoints of the provider's answer whose task
    reference equals the requested id, so each of them names the requested
    plan; the key is left out when there is none, and when checkpoints
    were not asked for. *)
Theorem single_task_checkpoints_name_the_plan (providers : Providers)
    (arguments : gmap string pyval) (context : GetTaskStatus.Context) (g : Globals) :
  let result := fst (GetTaskStatus.execute providers arguments context g) in
  let plan_id := args_get arguments "plan_id" PyNone in
  let include_checkpoints := args_get arguments "include_checkpoints" (PyBool true) in
  py_truthy plan_id = true ->
  success result = true ->
  exists user_id d answered,
    GetTaskStatus.ctx_user_id context = Some user_id /\
    data result = Some d /\
    (if py_truthy include_checkpoints
     then fetched_checkpoints providers context g user_id include_checkpoints (Some plan_id)
     else Ok []) = Ok answered /\
    let mine :=
      List.filter (fun c => GetTaskStatus.ref_eqb (GetTaskStatus.checkpoint_ref c) plan_id)
        answered in
    Forall (names_plan plan_id) mine /\
    dict_get "pending_checkpoints" d =
      match mine with
      | [] => None
      | _ => Some (GetTaskStatus.formatted (map GetTaskStatus._format_checkpoint mine))
      end.
Proof.
  intros result plan_id include_checkpoints Hsingle Hok.
  destruct (single_task_success providers arguments context g Hsingle Hok)
    as (user_id & plan & cps & Hctx & _ & _ & Hcps & Hdata).
  exists user_id. eexists. exists cps.
  split; [exact Hctx |]. split; [exact Hdata |]. split; [exact Hcps |]. cbv zeta. split.
  - apply List.Forall_forall. intros c Hc. apply List.filter_In in Hc.
    apply ref_eqb_names_plan; tauto.
  - destruct (List.filter _ cps); [reflexivity | dict_lookup].
Qed.

Lemma single_task_checkpoints_name_the_plan_witness :
  exists d,
    data (fst (GetTaskStatus.execute Sample.no_providers {["plan_id" := PyStr "task-1"]}
                 Scenario.delegation_context Sample.no_globals)) = Some d /\
    dict_get "pending_checkpoints" d =
      Some (GetTaskStatus.formatted
              (map GetTaskStatus._format_checkpoint
                 [Sample.checkpoint "task-1" Absent; Sample.legacy_checkpoint])).
Proof.
  destruct (single_task_checkpoints_name_the_plan Sample.no_providers
              {["plan_id" := PyStr "task-1"]} Scenario.delegation_context
              Sample.no_globals)
    as (user_id & d & answered & _ & Hd & Hanswered & _ & Hpending).
  - vm_compute. reflexivity.
  - vm_compute. reflexivity.
  - exists d. split; [exact Hd |]. rewrite Hpending.
    vm_compute in Hanswered. inversion Hanswered; subst answered. vm_compute. reflexivity.
Defined.

(** X18.  In single-task mode, with a user and a task provider at hand:
    an id the backend does not know gives the failure "Task not found:
    <id>" with the id as requested; an exception of the backend fetch
    gives the failure "Failed to get task status: <exception>"; and so
    does an exception of the checkpoint fetch for the user's own task,
    although the task itself was fetched. *)
Theorem single_task_failures (providers : Providers) (arguments : gmap string pyval)
    (context : GetTaskStatus.Context) (g : Globals) (user_id : string) :
  let result := fst (GetTaskStatus.execute providers arguments context g) in
  let plan_id := args_get arguments "plan_id" PyNone in
  let include_checkpoints := args_get arguments "include_checkpoints" (PyBool true) in
  GetTaskStatus.ctx_user_id context = Some user_id -> user_id <> "" ->
  py_truthy plan_id = true ->
  GetTaskStatus.ctx_delegation_service context <> None \/
    resolved_task_use_cases providers context g <> None ->
  (fetched_plan providers context g plan_id = Ok None ->
     result = CreateTask.error_result [Lit "Task not found: "; Fmt plan_id]) /\
  (forall e, fetched_plan providers context g plan_id = Raise e ->
     result = CreateTask.error_result [Lit "Failed to get task status: "; FmtExn e]) /\
  (forall plan e,
     fetched_plan providers context g plan_id = Ok (Some plan) ->
     Task.user_id plan = user_id ->
     py_truthy include_checkpoints = true ->
     fetched_checkpoints providers context g user_id include_checkpoints (Some plan_id)
       = Raise e ->
     result = CreateTask.error_result [Lit "Failed to get task status: "; FmtExn e]).
Proof.
  intros result plan_id include_checkpoints Hctx Hne Hsingle Hprovider.
  subst result. rewrite (execute_answer providers arguments context g user_id Hctx Hne).
  unfold answer. fold plan_id include_checkpoints. rewrite Hsingle.
  rewrite execute_single_cases. unfold fetched_plan, fetched_checkpoints.
  destruct (GetTaskStatus.ctx_delegation_service context) as [ds |];
    destruct (resolved_task_use_cases providers context g) as [tuc |];
    try (exfalso; destruct Hprovider as [H | H]; now apply H).
  all: repeat split.
  all: try (intros H; rewrite H; reflexivity).
  all: try (intros e H; rewrite H; reflexivity).
  all: intros plan e Hplan Hown Hic Hcps; rewrite Hplan, Hown, String.eqb_refl, Hic, Hcps;
    reflexivity.
Qed.

Lemma single_task_failures_witness :
  fst (GetTaskStatus.execute Sample.no_providers {["plan_id" := PyStr "missing"]}
         (Sample.status_context (Sample.use_cases (fun _ => Ok None) []) None)
         Sample.no_globals)
  = CreateTask.error_result [Lit "Task not found: "; Fmt (PyStr "missing")].
Proof.
  assert (Hne : "user-1" <> "") by discriminate.
  destruct (single_task_failures Sample.no_providers {["plan_id" := PyStr "missing"]}
              (Sample.status_context (Sample.use_cases (fun _ => Ok None) []) None)
              Sample.no_globals "user-1" eq_refl Hne)
    as (Hmissing & _).
  - vm_compute. reflexivity.
  - right. discriminate.
  - rewrite Hmissing by (vm_compute; reflexivity). vm_compute. reflexivity.
Defined.

(** ** Status query: listing mode, further *)

(** A successful listing call, taken apart. *)
Lemma listing_success (providers : Providers) (arguments : gmap string pyval)
    (context : GetTaskStatus.Context) (g : Globals) :
  let include_completed := args_get arguments "include_completed" (PyBool false) in
  let include_checkpoints := args_get arguments "include_checkpoints" (PyBool true) in
  let limit := args_get arguments "limit" (PyInt 10) in
  py_truthy (args_get arguments "plan_id" PyNone) = false ->
  success (fst (GetTaskStatus.execute providers arguments context g)) = true ->
  exists user_id,
    GetTaskStatus.ctx_user_id context = Some user_id /\
    (GetTaskStatus.ctx_delegation_service context <> None \/
     resolved_task_use_cases providers context g <> None) /\
    GetTaskStatus.execute_listing include_completed include_checkpoints limit user_id
      (GetTaskStatus.ctx_delegation_service context)
      (resolved_task_use_cases providers context g)
      (resolved_checkpoint_use_cases providers context g include_checkpoints)
    = Ok (fst (GetTaskStatus.execute providers arguments context g)).
Proof.
  intros include_completed include_checkpoints limit Hlist Hok.
  destruct (str_truthy (GetTaskStatus.ctx_user_id context)) eqn:Hu.
  2: { rewrite execute_without_user in Hok by exact Hu. discriminate. }
  destruct (GetTaskStatus.ctx_user_id context) as [user_id |] eqn:Hctx; [| discriminate].
  assert (Hne : user_id <> "") by (intros ->; discriminate).
  rewrite (execute_answer providers arguments context g user_id Hctx Hne) in *.
  unfold answer in *. fold include_completed include_checkpoints limit in Hok |- *.
  rewrite Hlist in *. exists user_id. split; [reflexivity |].
  destruct (GetTaskStatus.ctx_delegation_service context) as [ds |];
    destruct (resolved_task_use_cases providers context g) as [tuc |];
    try discriminate.
  all: destruct (GetTaskStatus.execute_listing _ _ _ _ _ _ _) as [r | e];
    try discriminate.
  all: split; [| reflexivity].
  all: first [left; discriminate | right; discriminate].
Qed.

Lemma active_is_not_terminal (t : Task.t) : is_active t = true -> is_terminal t = false.
Proof.
  unfold is_active, is_terminal. intros H. apply str_in_cases in H. cbn [In] in H.
  destruct H as [<- | [<- | [<- | [<- | []]]]]; reflexivity.
Qed.

Lemma active_and_terminal_counts (l : list Task.t) :
  count is_active l + count is_terminal l
  + count (fun t => negb (is_active t) && negb (is_terminal t)) l
  = Z.of_nat (length l).
Proof.
  induction l as [| t l IH]; [reflexivity |].
  rewrite !count_cons. cbn [length]. rewrite Nat2Z.inj_succ.
  destruct (is_active t) eqn:Ha.
  - rewrite (active_is_not_terminal t Ha). simpl. lia.
  - destruct (is_terminal t); simpl; lia.
Qed.

(** X19.  In a successful listing, no task is both in [active_tasks] and
    in [completed_tasks]: a fetched task is active, or terminal, or
    neither (any other status, or none), so [active_count] plus
    [completed_count] never exceeds the number of tasks the backend
    returned for the limit. *)
Theorem listing_counts_within_fetched (providers : Providers)
    (arguments : gmap string pyval) (context : GetTaskStatus.Context) (g : Globals) :
  let result := fst (GetTaskStatus.execute providers arguments context g) in
  py_truthy (args_get arguments "plan_id" PyNone) = false ->
  success result = true ->
  exists user_id fetched d active completed,
    GetTaskStatus.ctx_user_id context = Some user_id /\
    fetched_tasks providers context g user_id (args_get arguments "limit" (PyInt 10))
      = Ok fetched /\
    data result = Some d /\
    dict_get "active_count" d = Some (PyInt active) /\
    (dict_get "completed_count" d = Some (PyInt completed) \/
     dict_get "completed_count" d = None /\ completed = 0) /\
    0 <= active /\ 0 <= completed <= 5 /\
    active + completed <= Z.of_nat (length fetched) /\
    active + count is_terminal fetched
      + count (fun t => negb (is_active t) && negb (is_terminal t)) fetched
      = Z.of_nat (length fetched).
Proof.
  intros result Hlist Hok.
  destruct (listing_success providers arguments context g Hlist Hok)
    as (user_id & Hctx & Hprovider & Hrun).
  destruct (execute_listing_ok _ _ _ _ _ _ _ _ Hrun)
    as (fetched & d & Hfetch & _ & Hd & _ & Hcount & _ & Hnum).
  pose proof (active_and_terminal_counts fetched) as Hsum.
  pose proof (count_nonneg (fun t => negb (is_active t) && negb (is_terminal t)) fetched).
  pose proof (count_nonneg is_active fetched).
  pose proof (firstn_le_length 5 (List.filter is_terminal fetched)) as Hfive.
  assert (Hcompleted : (length (firstn 5 (List.filter is_terminal fetched))
                        <= length (List.filter is_terminal fetched))%nat).
  { rewrite List.length_firstn. lia. }
  exists user_id, fetched, d, (count is_active fetched),
    (if py_truthy (args_get arguments "include_completed" (PyBool false))
     then Z.of_nat (length (firstn 5 (List.filter is_terminal fetched))) else 0).
  split; [exact Hctx |]. split.
  { unfold fetched_tasks.
    destruct (GetTaskStatus.ctx_delegation_service context),
      (resolved_task_use_cases providers context g); try exact Hfetch.
    destruct Hprovider as [Hp | Hp]; now elim Hp. }
  split; [exact Hd |]. split; [exact Hcount |].
  unfold count in *.
  destruct (py_truthy (args_get arguments "include_completed" (PyBool false)));
    repeat split; try lia; try (left; exact Hnum); try (right; split; [exact Hnum | reflexivity]).
Qed.

Lemma listing_counts_within_fetched_witness :
  exists (fetched : list Task.t) d active completed,
    data (fst (GetTaskStatus.execute Sample.no_providers
                 {["include_completed" := PyBool true]}
                 (Sample.status_context
                    (Sample.use_cases (fun _ => Ok None) Sample.nine_tasks) None)
                 Sample.no_globals)) = Some d /\
    dict_get "active_count" d = Some (PyInt active) /\
    active + completed <= Z.of_nat (length fetched).
Proof.
  destruct (listing_counts_within_fetched Sample.no_providers
              {["include_completed" := PyBool true]}
              (Sample.status_context
                 (Sample.use_cases (fun _ => Ok None) Sample.nine_tasks) None)
              Sample.no_globals)
    as (user_id & fetched & d & active & completed & _ & _ & Hd & Ha & _ & _ & _ & Hle & _).
  - vm_compute. reflexivity.
  - vm_compute. reflexivity.
  - exists fetched, d, active, completed. repeat split; assumption.
Defined.

Lemma execute_listing_checkpoints (include_completed include_checkpoints limit : pyval)
    (user_id : string) (ds : option DelegationService) (tuc : option TaskUseCases)
    (cuc : option CheckpointUseCases) (r : ToolResult) :
  GetTaskStatus.execute_listing include_completed include_checkpoints limit user_id
    ds tuc cuc = Ok r ->
  exists d answered,
    data r = Some d /\
    (if py_truthy include_checkpoints
     then GetTaskStatus.fetch_checkpoints ds cuc
            (fun s => get_pending_checkpoints s user_id)
            (fun c => list_pending c user_id)
     else Ok []) = Ok answered /\
    dict_get "pending_checkpoints" d =
      (if py_truthy include_checkpoints
       then Some (GetTaskStatus.formatted (map GetTaskStatus._format_checkpoint answered))
       else None) /\
    dict_get "checkpoint_count" d =
      (if py_truthy include_checkpoints
       then Some (PyInt (Z.of_nat (length answered)))
       else None).
Proof.
  unfold GetTaskStatus.execute_listing. intros H.
  destruct (match ds, tuc with
            | Some s, _ => get_user_plans s user_id PyNone limit
            | None, Some t => list_tasks t user_id PyNone limit
            | None, None => Raise (AttributeError "list_tasks")
            end) as [fetched | e]; [| discriminate].
  cbn [bind] in H.
  destruct (py_truthy include_checkpoints);
    [destruct (GetTaskStatus.fetch_checkpoints ds cuc _ _) as [cps | e];
       [| discriminate] |];
    cbn [bind] in H; inversion H; subst r; clear H;
    destruct (py_truthy include_completed);
    do 2 eexists; (split; [reflexivity |]); (split; [reflexivity |]);
    unfold GetTaskStatus.len_val; rewrite ?List.length_map; split; reflexivity.
Qed.

(** X20.  A successful listing that was asked for checkpoints carries all
    the pending checkpoints the provider answered for the user, formatted
    in the provider's order and counted in [checkpoint_count], whether or
    not their tasks are among the listed ones; without that request both
    keys are left out. *)
Theorem listing_checkpoints_are_the_users (providers : Providers)
    (arguments : gmap string pyval) (context : GetTaskStatus.Context) (g : Globals) :
  let result := fst (GetTaskStatus.execute providers arguments context g) in
  let include_checkpoints := args_get arguments "include_checkpoints" (PyBool true) in
  py_truthy (args_get arguments "plan_id" PyNone) = false ->
  success result = true ->
  exists user_id d answered,
    GetTaskStatus.ctx_user_id context = Some user_id /\
    data result = Some d /\
    (if py_truthy include_checkpoints
     then fetched_checkpoints providers context g user_id include_checkpoints None
     else Ok []) = Ok answered /\
    dict_get "pending_checkpoints" d =
      (if py_truthy include_checkpoints
       then Some (GetTaskStatus.formatted (map GetTaskStatus._format_checkpoint answered))
       else None) /\
    dict_get "checkpoint_count" d =
      (if py_truthy include_checkpoints
       then Some (PyInt (Z.of_nat (length answered)))
       else None).
Proof.
  intros result include_checkpoints Hlist Hok.
  destruct (listing_success providers arguments context g Hlist Hok)
    as (user_id & Hctx & _ & Hrun).
  destruct (execute_listing_checkpoints _ _ _ _ _ _ _ _ Hrun)
    as (d & answered & Hd & Hanswered & Hpending & Hcount).
  exists user_id, d, answered. repeat split; assumption.
Qed.

Lemma listing_checkpoints_are_the_users_witness :
  exists d,
    data (fst (GetTaskStatus.execute Sample.no_providers ∅ Scenario.delegation_context
                 Sample.no_globals)) = Some d /\
    dict_get "checkpoint_count" d = Some (PyInt 3).
Proof.
  destruct (listing_checkpoints_are_the_users Sample.no_providers ∅
              Scenario.delegation_context Sample.no_globals)
    as (user_id & d & answered & _ & Hd & Hanswered & _ & Hcount).
  - vm_compute. reflexivity.
  - vm_compute. reflexivity.
  - exists d. split; [exact Hd |]. rewrite Hcount.
    vm_compute in Hanswered. inversion Hanswered; subst answered. vm_compute. reflexivity.
Defined.

(** X21.  A call of [get_task_status] that no other call overlaps changes
    the provider singletons only by filling an empty one with what the
    factory built: a singleton that is set when the call starts is still
    there when it ends, one that is set when it ends was set before or
    holds the factory's product; with a delegation service in the context,
    or without a user id, the call touches no singleton. *)
Theorem status_query_singletons (providers : Providers) (arguments : gmap string pyval)
    (context : GetTaskStatus.Context) (g : Globals) :
  let g' := snd (GetTaskStatus.execute providers arguments context g) in
  (forall t, _task_use_cases g = Some t -> _task_use_cases g' = Some t) /\
  (forall c, _checkpoint_use_cases g = Some c -> _checkpoint_use_cases g' = Some c) /\
  (forall t, _task_use_cases g' = Some t ->
     _task_use_cases g = Some t \/ provider_get_task_use_cases providers = Ok t) /\
  (forall c, _checkpoint_use_cases g' = Some c ->
     _checkpoint_use_cases g = Some c \/
     provider_get_checkpoint_use_cases providers = Ok c) /\
  (GetTaskStatus.ctx_delegation_service context <> None -> g' = g) /\
  (str_truthy (GetTaskStatus.ctx_user_id context) = false -> g' = g).
Proof.
  cbv zeta. unfold GetTaskStatus.execute, _get_task_use_cases, _get_checkpoint_use_cases.
  destruct g as [gt gc].
  destruct (GetTaskStatus.ctx_user_id context) as [user_id |];
    [destruct (negb (str_truthy (Some user_id))) eqn:Hu |];
    cbn [snd _task_use_cases _checkpoint_use_cases];
    try (repeat split; auto; fail).
  assert (Hu' : str_truthy (Some user_id) = true) by now destruct (str_truthy _).
  destruct (py_truthy (args_get arguments "include_checkpoints" (PyBool true)));
  destruct (GetTaskStatus.ctx_delegation_service context) as [ds |];
  destruct (GetTaskStatus.ctx_task_use_cases context) as [tuc |];
  destruct (GetTaskStatus.ctx_checkpoint_use_cases context) as [cuc |];
  destruct gt as [gt |]; destruct gc as [gc |];
  try destruct (provider_get_task_use_cases providers) as [pt | et];
  try destruct (provider_get_checkpoint_use_cases providers) as [pc | ec];
  cbn [snd _task_use_cases _checkpoint_use_cases];
  repeat match goal with
  | |- context [match ?x with Ok _ => _ | Raise _ => _ end] => destruct x
  end;
  cbn [snd _task_use_cases _checkpoint_use_cases];
  repeat split; intros; try congruence; auto;
  first [left; congruence | right; congruence].
Qed.

Lemma status_query_singletons_witness :
  snd (GetTaskStatus.execute Sample.create_providers ∅ Scenario.delegation_context
         Sample.no_globals) = Sample.no_globals.
Proof.
  destruct (status_query_singletons Sample.create_providers ∅ Scenario.delegation_context
              Sample.no_globals) as (_ & _ & _ & _ & H & _).
  apply H. discriminate.
Defined.

Lemma execute_listing_message (include_completed include_checkpoints limit : pyval)
    (user_id : string) (ds : option DelegationService) (tuc : option TaskUseCases)
    (cuc : option CheckpointUseCases) (r : ToolResult) :
  GetTaskStatus.execute_listing include_completed include_checkpoints limit user_id
    ds tuc cuc = Ok r ->
  exists (a p c : nat) (d : pydict),
    data r = Some d /\
    dict_get "active_count" d = Some (PyInt (Z.of_nat a)) /\
    dict_get "checkpoint_count" d =
      (if py_truthy include_checkpoints then Some (PyInt (Z.of_nat p)) else None) /\
    (py_truthy include_checkpoints = false -> p = 0%nat) /\
    dict_get "completed_count" d =
      (if py_truthy include_completed then Some (PyInt (Z.of_nat c)) else None) /\
    (py_truthy include_completed = false -> c = 0%nat) /\
    (message r = Some [Lit "No active tasks"] <-> a = 0%nat /\ p = 0%nat /\ c = 0%nat) /\
    (a <> 0%nat ->
     exists rest,
       message r = Some (Fmt (PyInt (Z.of_nat a)) :: Lit " active task(s)" :: rest)).
Proof.
  unfold GetTaskStatus.execute_listing. intros H.
  destruct (match ds, tuc with
            | Some s, _ => get_user_plans s user_id PyNone limit
            | None, Some t => list_tasks t user_id PyNone limit
            | None, None => Raise (AttributeError "list_tasks")
            end) as [fetched | e]; [| discriminate].
  cbn [bind] in H.
  set (active := List.filter
                   (fun p => str_in (task_status_value p) GetTaskStatus.active_status_values)
                   fetched) in *.
  set (terminal := firstn 5
                     (List.filter
                        (fun p => str_in (task_status_value p)
                                    GetTaskStatus.terminal_status_values) fetched)) in *.
  assert (Hpending : exists pending : list pydict,
            (if py_truthy include_checkpoints
             then
               let* checkpoints :=
                 GetTaskStatus.fetch_checkpoints ds cuc
                   (fun ds0 => get_pending_checkpoints ds0 user_id)
                   (fun cuc0 => list_pending cuc0 user_id) in
               Ok (map GetTaskStatus._format_checkpoint checkpoints)
             else Ok []) = Ok pending /\
            (py_truthy include_checkpoints = false -> pending = [])).
  { destruct (py_truthy include_checkpoints).
    - destruct (GetTaskStatus.fetch_checkpoints ds cuc _ _) as [cps | e];
        [| discriminate]. eexists. split; [reflexivity | discriminate].
    - exists []. split; [reflexivity | reflexivity]. }
  destruct Hpending as (pending & Hp & Hpnil). rewrite Hp in H. cbn [bind] in H.
  inversion H; subst r; clear H Hp.
  exists (length active), (length pending),
    (length (if py_truthy include_completed then terminal else [])).
  eexists. split; [reflexivity |].
  unfold GetTaskStatus.len_val.
  destruct (py_truthy include_checkpoints) eqn:Hic;
    destruct (py_truthy include_completed) eqn:Hcc;
    (split; [dict_lookup |]); (split; [dict_lookup |]);
    (split; [intros Hf; first [discriminate | now rewrite Hpnil] |]);
    (split; [dict_lookup |]); (split; [intros Hf; first [discriminate | reflexivity] |]);
    cbn [message CreateTask.ok_result];
    destruct active as [| t0 active']; destruct pending as [| p0 pending'];
    destruct terminal as [| c0 terminal'];
    cbn [GetTaskStatus.join app length];
    (split; [split; [intros Hm; first [repeat split; reflexivity | discriminate]
                    | intros (Ha & Hb & Hc); first [reflexivity | discriminate]]
            | intros Hne; first [congruence | eexists; reflexivity]]).
Qed.

(** X22.  The summary line of a successful listing is "No active tasks"
    exactly when the answer lists no active task, no pending checkpoint
    and no completed task (completed tasks and checkpoints that were not
    asked for count as none); when there are active tasks the line begins
    with their number followed by " active task(s)". *)
Theorem listing_summary_line (providers : Providers) (arguments : gmap string pyval)
    (context : GetTaskStatus.Context) (g : Globals) :
  let result := fst (GetTaskStatus.execute providers arguments context g) in
  let include_completed := args_get arguments "include_completed" (PyBool false) in
  let include_checkpoints := args_get arguments "include_checkpoints" (PyBool true) in
  py_truthy (args_get arguments "plan_id" PyNone) = false ->
  success result = true ->
  exists (active pending completed : nat) (d : pydict),
    data result = Some d /\
    dict_get "active_count" d = Some (PyInt (Z.of_nat active)) /\
    dict_get "checkpoint_count" d =
      (if py_truthy include_checkpoints then Some (PyInt (Z.of_nat pending)) else None) /\
    (py_truthy include_checkpoints = false -> pending = 0%nat) /\
    dict_get "completed_count" d =
      (if py_truthy include_completed then Some (PyInt (Z.of_nat completed)) else None) /\
    (py_truthy include_completed = false -> completed = 0%nat) /\
    (message result = Some [Lit "No active tasks"] <->
     active = 0%nat /\ pending = 0%nat /\ completed = 0%nat) /\
    (active <> 0%nat ->
     exists rest,
       message result
         = Some (Fmt (PyInt (Z.of_nat active)) :: Lit " active task(s)" :: rest)).
Proof.
  intros result include_completed include_checkpoints Hlist Hok.
  destruct (listing_success providers arguments context g Hlist Hok)
    as (user_id & _ & _ & Hrun).
  exact (execute_listing_message _ _ _ _ _ _ _ _ Hrun).
Qed.

Lemma listing_summary_line_witness :
  message (fst (GetTaskStatus.execute Sample.no_providers ∅
                  (Sample.status_context (Sample.use_cases (fun _ => Ok None) []) None)
                  Sample.no_globals))
  = Some [Lit "No active tasks"].
Proof.
  destruct (listing_summary_line Sample.no_providers ∅
              (Sample.status_context (Sample.use_cases (fun _ => Ok None) []) None)
              Sample.no_globals)
    as (active & pending & completed & d & Hd & Ha & Hp & _ & _ & Hc & Hmsg & _).
  - vm_compute. reflexivity.
  - vm_compute. reflexivity.
  - apply Hmsg. vm_compute in Hd. inversion Hd; subst d.
    change (Some (PyInt 0) = Some (PyInt (Z.of_nat active))) in Ha.
    change (Some (PyInt 0) = Some (PyInt (Z.of_nat pending))) in Hp.
    repeat split.
    + inversion Ha. lia.
    + inversion Hp. lia.
    + apply Hc. vm_compute. reflexivity.
Defined.
